(** * sports-betting GUI: the stage wizard of [sportsbet.gui]

    A shallow embedding of the two wizard implementations of the repository,
    [src/sportsbet/gui/_data.py] with [src/sportsbet/gui/_gui.py] (module
    [Data] below) and [src/sportsbet/gui/app.py] (module [App]), and the
    properties of the stage controller they implement.

    The wizard keeps everything in one module-level dictionary [state]
    (a [dict[str, Any]]): NiceGUI widgets, fetched lists, the dataloader and
    the extracted tables.  Handlers are [async def] functions that suspend at
    [await run.io_bound(...)]; a handler is modelled as a resumption tree
    whose nodes are its suspension points. *)

From Stdlib Require QArith.
From Stdlib Require Import ZArith Ascii String List Bool Lia.
From stdpp Require Import base option list strings gmap.
Import ListNotations.

Local Open Scope string_scope.
Local Open Scope list_scope.

(** ** Python strings (ASCII) *)

Module PyStr.

Definition is_lower (c : ascii) : bool :=
  let n := nat_of_ascii c in (97 <=? n)%nat && (n <=? 122)%nat.

Definition is_upper (c : ascii) : bool :=
  let n := nat_of_ascii c in (65 <=? n)%nat && (n <=? 90)%nat.

Definition upper (c : ascii) : ascii :=
  if is_lower c then ascii_of_nat (nat_of_ascii c - 32) else c.

Definition lower (c : ascii) : ascii :=
  if is_upper c then ascii_of_nat (nat_of_ascii c + 32) else c.

(** [str.title()]: a cased character that follows an uncased one is put in
    upper case, every other cased character in lower case. *)
Fixpoint title_from (prev_cased : bool) (s : string) : string :=
  match s with
  | EmptyString => EmptyString
  | String c s' =>
      if is_lower c then String (if prev_cased then c else upper c) (title_from true s')
      else if is_upper c then String (if prev_cased then lower c else c) (title_from true s')
      else String c (title_from false s')
  end.

Definition title (s : string) : string := title_from false s.

(** Puts [c] in front of the first token of a token list. *)
Definition push (c : ascii) (ts : list string) : list string :=
  match ts with
  | t :: ts' => String c t :: ts'
  | [] => [String c EmptyString]
  end.

(** [s.split(sep)] for a one-character separator; also [re.split('_', s)]. *)
Fixpoint split (sep : ascii) (s : string) : list string :=
  match s with
  | EmptyString => [EmptyString]
  | String c s' =>
      if Ascii.eqb c sep then EmptyString :: split sep s' else push c (split sep s')
  end.

(** [re.split('__?', s)]: one or, greedily, two underscores separate. *)
Fixpoint re_split_us_opt (s : string) : list string :=
  match s with
  | EmptyString => [EmptyString]
  | String c t =>
      if Ascii.eqb c "_" then
        match t with
        | String c' s' =>
            if Ascii.eqb c' "_" then EmptyString :: re_split_us_opt s'
            else EmptyString :: re_split_us_opt t
        | EmptyString => EmptyString :: re_split_us_opt t
        end
      else push c (re_split_us_opt t)
  end.

(** [re.split('__', s)]: exactly two underscores separate. *)
Fixpoint re_split_us2 (s : string) : list string :=
  match s with
  | EmptyString => [EmptyString]
  | String c t =>
      match t with
      | String c' s' =>
          if Ascii.eqb c "_" && Ascii.eqb c' "_" then EmptyString :: re_split_us2 s'
          else push c (re_split_us2 t)
      | EmptyString => [String c EmptyString]
      end
  end.

(** [sep.join(ts)] *)
Definition join (sep : string) (ts : list string) : string := String.concat sep ts.

(** [key.startswith(p)] *)
Definition startswith (p s : string) : bool := String.prefix p s.

(** [a in b] on strings: [a] occurs in [b] as a substring. *)
Fixpoint contains (a b : string) : bool :=
  String.prefix a b ||
  match b with
  | EmptyString => false
  | String _ b' => contains a b'
  end.

End PyStr.

(** ** Python values *)

(** Scalars: what a parameter record, a table cell or a widget value holds.
    A Python [float] is carried as an exact rational; the wizard never
    computes with it. *)
Inductive scalar :=
| PNone
| PBool (b : bool)
| PInt (z : Z)
| PStr (s : string)
| PFloat (q : QArith_base.Q).

#[global] Instance Q_eq_dec : EqDecision QArith_base.Q.
Proof. solve_decision. Defined.

#[global] Instance scalar_eq_dec : EqDecision scalar.
Proof. solve_decision. Defined.

(** Python dictionaries that are read in order ([param.items()],
    [param.keys()]): association lists in insertion order. *)
Section pydict.
Context {K V : Type} `{EqDecision K}.

Definition dict_get (k : K) (d : list (K * V)) : option V :=
  snd <$> List.find (fun kv => bool_decide (fst kv = k)) d.

(** [d[k] = v]: an existing key keeps its place, a new one goes last. *)
Fixpoint dict_set (k : K) (v : V) (d : list (K * V)) : list (K * V) :=
  match d with
  | [] => [(k, v)]
  | (k', v') :: d' => if decide (k' = k) then (k, v) :: d' else (k', v') :: dict_set k v d'
  end.

(** [d.update(e)] *)
Definition dict_update (d e : list (K * V)) : list (K * V) :=
  foldl (fun acc kv => dict_set (fst kv) (snd kv) acc) d e.

(** [{k: v for ...}] over a list of pairs produced in order. *)
Definition dict_of (kvs : list (K * V)) : list (K * V) := dict_update [] kvs.

Definition dict_keys (d : list (K * V)) : list K := map fst d.
End pydict.

(** A record with string keys: a parameter record, a table row, a column. *)
Abbreviation record := (list (string * scalar)).

(** [pandas.DataFrame], as far as the wizard reads it: the column names and
    the rows as [to_dict('records')] gives them. *)
Record DataFrame := { df_columns : list string; df_records : list record }.

#[global] Instance DataFrame_eq_dec : EqDecision DataFrame.
Proof. solve_decision. Defined.

(** The dataloader classes behind [DATALOADERS]. *)
Inductive loader_class := SoccerDataLoader | BaseDataLoader.

#[global] Instance loader_class_eq_dec : EqDecision loader_class.
Proof. solve_decision. Defined.

(** Modelled from the spec: the dataloader classes of [sportsbet.datasets]
    are not under src/; a dataloader is an opaque handle bound to the sport
    (its class) and the [param_grid] it was built with. *)
Record loader := { loader_cls : loader_class; param_grid : list (list (string * list scalar)) }.

#[global] Instance loader_eq_dec : EqDecision loader.
Proof. solve_decision. Defined.

(** Callbacks bound to widgets. *)
Inductive callback :=
| on_select_mode | on_select_sport | on_select_filter | on_select_extraction
| on_select_download | on_select_cancel | no_callback.

#[global] Instance callback_eq_dec : EqDecision callback.
Proof. solve_decision. Defined.

(** NiceGUI elements kept in [state]. *)
Inductive element :=
| Toggle (options : list scalar)
| Radio (options : list scalar)
| Button (icon : string)
| Table (columns rows selected : list record)
| Select (options : list (scalar * string))
| Number (min max step : QArith_base.Q).

#[global] Instance element_eq_dec : EqDecision element.
Proof. solve_decision. Defined.

Record widget := {
  elem : element;
  handler : callback;
  value : scalar;
  visible : bool;
  enabled : bool;
  props : list string
}.

#[global] Instance widget_eq_dec : EqDecision widget.
Proof. solve_decision. Defined.

Definition new_widget (e : element) (h : callback) (v : scalar) : widget :=
  {| elem := e; handler := h; value := v; visible := true; enabled := true; props := [] |}.

(** What a key of [state] can hold. *)
Inductive obj :=
| Widget (x : widget)
| Records (rs : list record)
| Strs (l : list string)
| Mapping (m : list (scalar * string))
| DataLoader (l : loader)
| Frame (f : DataFrame)
| NoneObj.

#[global] Instance obj_eq_dec : EqDecision obj.
Proof. solve_decision. Defined.

Inductive exn :=
| KeyError (k : scalar)
| IndexError
| StopIteration
| AttributeError
| TypeError
| ValueError
| ExternalError (msg : string).

(** Side effects on the page that leave [state] alone. *)
Inductive effect :=
| Notify (msg : string)
| SpinnerShown
| SpinnerHidden
| Download (content : list ascii) (filename : string).

(** The session: the [state] dictionary and what was sent to the page. *)
Record World := { state : gmap string obj; page : list effect }.

Definition with_state (f : gmap string obj -> gmap string obj) (w : World) : World :=
  {| state := f (state w); page := page w |}.

Definition emit (e : effect) (w : World) : World :=
  {| state := state w; page := page w ++ [e] |}.

(** ** Synchronous code: state, page effects and exceptions

    A raised exception keeps what was written before it: the dictionary is
    mutated in place and nothing in the wizard catches. *)

Inductive res (A : Type) :=
| Ok (a : A) (w : World)
| Err (e : exn) (w : World).
Arguments Ok {A} a w.
Arguments Err {A} e w.

Definition M (A : Type) : Type := World -> res A.

Definition ret {A} (a : A) : M A := fun w => Ok a w.

Definition raise {A} (e : exn) : M A := fun w => Err e w.

Definition bind {A B} (m : M A) (k : A -> M B) : M B :=
  fun w => match m w with
           | Ok a w' => k a w'
           | Err e w' => Err e w'
           end.

Declare Scope py_scope.
Delimit Scope py_scope with py.
Notation "x <- m ;; k" := (bind m (fun x => k))
  (at level 20, m at level 99, k at level 200, only parsing) : py_scope.
Notation "m ;; k" := (bind m (fun _ => k))
  (at level 100, k at level 200, right associativity, only parsing) : py_scope.
Local Open Scope py_scope.

(** [for x in l: body(x)] *)
Fixpoint for_each {A} (l : list A) (body : A -> M unit) : M unit :=
  match l with
  | [] => ret tt
  | x :: l' => body x ;; for_each l' body
  end.

(** [k in state] *)
Definition has_key (k : string) : M bool :=
  fun w => Ok (bool_decide (is_Some (state w !! k))) w.

(** [state[k]] *)
Definition getitem (k : string) : M obj :=
  fun w => match state w !! k with
           | Some o => Ok o w
           | None => Err (KeyError (PStr k)) w
           end.

(** [state[k] = o] *)
Definition setitem (k : string) (o : obj) : M unit :=
  fun w => Ok tt (with_state (insert k o) w).

(** [state.pop(k)] *)
Definition popitem (k : string) : M unit :=
  fun w => match state w !! k with
           | Some _ => Ok tt (with_state (delete k) w)
           | None => Err (KeyError (PStr k)) w
           end.

(** [list(state.copy())]: the keys the loop [for key in state.copy()] visits.
    Python visits them in insertion order; the loops below do not depend on
    the order. *)
Definition keys_copy : M (list string) :=
  fun w => Ok (map fst (map_to_list (state w))) w.

(** [state[k]], expected to be an element of the page. *)
Definition get_widget (k : string) : M widget :=
  o <- getitem k ;;
  match o with
  | Widget x => ret x
  | _ => raise AttributeError
  end.

(** [state[k].value] *)
Definition value_of (k : string) : M scalar :=
  x <- get_widget k ;; ret (value x).

(** An element is shared by reference between [state] and the page, and no
    two keys hold the same element: a method call on [state[k]] rewrites
    the entry. *)
Definition update_widget (k : string) (f : widget -> widget) : M unit :=
  x <- get_widget k ;; setitem k (Widget (f x)).

Definition with_visible (b : bool) (x : widget) : widget :=
  {| elem := elem x; handler := handler x; value := value x;
     visible := b; enabled := enabled x; props := props x |}.

Definition with_enabled (b : bool) (x : widget) : widget :=
  {| elem := elem x; handler := handler x; value := value x;
     visible := visible x; enabled := b; props := props x |}.

Definition with_value (v : scalar) (x : widget) : widget :=
  {| elem := elem x; handler := handler x; value := v;
     visible := visible x; enabled := enabled x; props := props x |}.

Definition with_props (p : string) (x : widget) : widget :=
  {| elem := elem x; handler := handler x; value := value x;
     visible := visible x; enabled := enabled x;
     props := if bool_decide (p ∈ props x) then props x else props x ++ [p] |}.

Definition with_selected (sel : list record) (x : widget) : widget :=
  {| elem := match elem x with
             | Table cols rows _ => Table cols rows sel
             | e => e
             end;
     handler := handler x; value := value x;
     visible := visible x; enabled := enabled x; props := props x |}.

(** [state[k].set_visibility(b)] *)
Definition set_visibility (k : string) (b : bool) : M unit := update_widget k (with_visible b).

(** [state[k].set_enabled(b)] *)
Definition set_enabled (k : string) (b : bool) : M unit := update_widget k (with_enabled b).

(** [state[k].set_value(v)] *)
Definition set_value (k : string) (v : scalar) : M unit := update_widget k (with_value v).

(** [state[k].props(p)] *)
Definition add_props (k : string) (p : string) : M unit := update_widget k (with_props p).

(** [state[k].selected] *)
Definition selected_of (k : string) : M (list record) :=
  x <- get_widget k ;;
  match elem x with
  | Table _ _ sel => ret sel
  | _ => raise AttributeError
  end.

(** [state[k]] read as a list of records, a list of strings, a mapping or a
    dataloader; a value of another kind fails where it is used. *)
Definition get_records (k : string) : M (list record) :=
  o <- getitem k ;; match o with Records rs => ret rs | _ => raise TypeError end.

Definition get_strs (k : string) : M (list string) :=
  o <- getitem k ;; match o with Strs l => ret l | _ => raise TypeError end.

Definition get_mapping (k : string) : M (list (scalar * string)) :=
  o <- getitem k ;; match o with Mapping m => ret m | _ => raise AttributeError end.

Definition get_loader (k : string) : M loader :=
  o <- getitem k ;; match o with DataLoader l => ret l | _ => raise AttributeError end.

(** [ui.notify(msg)] *)
Definition notify (msg : string) : M unit := fun w => Ok tt (emit (Notify msg) w).

(** [spinner = ui.spinner(size='lg')] and [spinner.set_visibility(False)] *)
Definition spinner_show : M unit := fun w => Ok tt (emit SpinnerShown w).
Definition spinner_hide : M unit := fun w => Ok tt (emit SpinnerHidden w).

(** ** Asynchronous handlers

    An [async def] handler runs on the event loop until it awaits
    [run.io_bound(f)]; the loop is then free to run other handlers, and the
    handler resumes, on the dictionary as it is by then, when [f] has
    returned or raised in its worker thread. *)

Inductive call :=
| GetAllParams (cls : loader_class)
| GetOddsTypes (l : loader)
| ExtractTrainData (l : loader) (odds_type drop_na_thres : scalar)
| ExtractFixturesData (l : loader).

Inductive retval :=
| RetRecords (ps : list record)
| RetStrs (l : list string)
| RetTables (x y o : obj).

Inductive Async :=
| Finish (w : World)
| Throw (e : exn) (w : World)
| Await (w : World) (c : call) (k : exn + retval -> World -> Async).

Definition Coro : Type := World -> Async.

(** Runs synchronous code, then goes on with [k]. *)
Definition sync {A} (m : M A) (k : A -> Coro) : Coro :=
  fun w => match m w with
           | Ok a w' => k a w'
           | Err e w' => Throw e w'
           end.

(** Synchronous code that ends the handler. *)
Definition finish (m : M unit) : Coro := sync m (fun _ => Finish).

(** [await run.io_bound(c)]: an exception of the call is raised again at the
    await, uncaught. *)
Definition resumption (k : retval -> Coro) (r : exn + retval) : Coro :=
  match r with
  | inl e => Throw e
  | inr v => k v
  end.

Definition await (c : call) (k : retval -> Coro) : Coro :=
  fun w => Await w c (resumption k).

(** The data-loading service, for runs where each call is answered at once. *)
Record Env := {
  get_all_params : loader_class -> exn + list record;
  get_odds_types : loader -> exn + list string;
  extract_train_data : loader -> scalar -> scalar -> exn + (obj * obj * obj);
  extract_fixtures_data : loader -> exn + (obj * obj * obj)
}.

Definition tables (t : obj * obj * obj) : retval :=
  RetTables (fst (fst t)) (snd (fst t)) (snd t).

Definition reply {A} (f : A -> retval) (r : exn + A) : exn + retval :=
  match r with
  | inl e => inl e
  | inr a => inr (f a)
  end.

Definition answer (env : Env) (c : call) : exn + retval :=
  match c with
  | GetAllParams cls => reply RetRecords (get_all_params env cls)
  | GetOddsTypes l => reply RetStrs (get_odds_types env l)
  | ExtractTrainData l o t => reply tables (extract_train_data env l o t)
  | ExtractFixturesData l => reply tables (extract_fixtures_data env l)
  end.

(** Runs a handler to its end with nothing else scheduled in between. *)
Fixpoint run_alone (env : Env) (a : Async) : World * option exn :=
  match a with
  | Finish w => (w, None)
  | Throw e w => (w, Some e)
  | Await w c k => run_alone env (k (answer env c) w)
  end.

(** *** Handlers interleaved

    The event loop between two actions: the world, and the handlers that
    are suspended at an await, oldest first. *)

Record Task := { task_call : call; task_resume : exn + retval -> World -> Async }.

Record Loop := { world : World; pending : list Task }.

Definition settle (a : Async) (tasks : list Task) : Loop :=
  match a with
  | Finish w => {| world := w; pending := tasks |}
  | Throw _ w => {| world := w; pending := tasks |}
  | Await w c k => {| world := w; pending := tasks ++ [{| task_call := c; task_resume := k |}] |}
  end.

(** A click on a control bound to the handler [h]: the handler runs to its
    first await, or to its end. *)
Definition trigger (h : Coro) (s : Loop) : Loop := settle (h (world s)) (pending s).

(** The call of the pending handler number [i] returns or raises: the
    handler goes on, on the world as it is now. *)
Definition complete (i : nat) (r : exn + retval) (s : Loop) : Loop :=
  match pending s !! i with
  | Some t => settle (task_resume t r (world s)) (delete i (pending s))
  | None => s
  end.

(** ** What both wizards share *)

(** [DATALOADERS] *)
Definition DATALOADERS : list (scalar * loader_class) :=
  [(PStr "Soccer", SoccerDataLoader); (PStr "NBA", BaseDataLoader);
   (PStr "NFL", BaseDataLoader); (PStr "NHL", BaseDataLoader)].

(** [DATALOADERS[k]] *)
Definition dataloaders_getitem (k : scalar) : M loader_class :=
  match dict_get k DATALOADERS with
  | Some cls => ret cls
  | None => raise (KeyError k)
  end.

(** The hidden [id] column of the filter table. *)
Definition id_column : record :=
  [("name", PStr "id"); ("label", PStr "ID"); ("field", PStr "id");
   ("required", PBool true); ("classes", PStr "hidden"); ("headerClasses", PStr "hidden")].

(** The column of the filter table for one parameter name. *)
Definition param_column (name : string) : record :=
  [("name", PStr name); ("label", PStr (PyStr.title name)); ("field", PStr name);
   ("required", PBool false); ("sortable", PBool true)].

(** [next(tuple(param.keys()) for param in all_params)] *)
Definition params_names_of (all_params : list record) : M (list string) :=
  match all_params with
  | [] => raise StopIteration
  | param :: _ => ret (dict_keys param)
  end.

(** [[{**param, 'id': num + 1} for num, param in enumerate(all_params)]] *)
Definition filter_rows (all_params : list record) : list record :=
  imap (fun num param => dict_set "id" (PInt (Z.of_nat num + 1)) param) all_params.

(** [{name: [val] for name, val in param.items() if name != 'id'}]; the keys
    of [param] are distinct, so each pair is inserted once, in order. *)
Definition grid_of_row (param : record) : list (string * list scalar) :=
  map (fun nv => (fst nv, [snd nv])) (filter (fun nv => fst nv <> "id") param).

(** [[{...} for param in state['filter_ui'].selected]] *)
Definition make_param_grid (selected : list record) : list (list (string * list scalar)) :=
  map grid_of_row selected.

(** [" ".join([token.title() for token in odds_type.split('_')])] *)
Definition odds_label (odds_type : string) : string :=
  PyStr.join " " (map PyStr.title (PyStr.split "_" odds_type)).

(** [{odds_type: label for odds_type in odds_types}] *)
Definition odds_mapping (odds_types : list string) : list (scalar * string) :=
  dict_of (map (fun odds_type => (PStr odds_type, odds_label odds_type)) odds_types).

(** [odds_types[0]] *)
Definition first_odds_type (odds_types : list string) : M scalar :=
  match odds_types with
  | [] => raise IndexError
  | odds_type :: _ => ret (PStr odds_type)
  end.

Definition max_n_rows : nat := Z.to_nat 10000.

(** Label of an input column:
    [" ".join([token.title() for token in re.split('__?', col)])] *)
Definition input_label (col : string) : string :=
  PyStr.join " " (map PyStr.title (PyStr.re_split_us_opt col)).

(** Label of an output ([skip = 1]) or odds ([skip = 2]) column:
    [" ".join(re.split('_', " (".join([token.title() for token in
    re.split('__', col)[skip:]]) + ')'))] *)
Definition target_label (skip : nat) (col : string) : string :=
  PyStr.join " "
    (PyStr.split "_"
       (PyStr.join " (" (map PyStr.title (drop skip (PyStr.re_split_us2 col))) ++ ")")).

Definition data_column (label : string -> string) (col : string) : record :=
  [("name", PStr col); ("label", PStr (label col)); ("field", PStr col); ("required", PBool true)].

(** [df[:max_n_rows].to_dict('records')] *)
Definition head_records (f : DataFrame) : list record := take max_n_rows (df_records f).

(** [state[k]] read as a table: [.columns] of anything else fails. *)
Definition get_frame (k : string) : M DataFrame :=
  o <- getitem k ;; match o with Frame f => ret f | _ => raise AttributeError end.

(** [ui.table(columns, rows, ...)]; titles, pagination and classes are not
    kept. *)
Definition new_table (columns rows : list record) : widget :=
  new_widget (Table columns rows []) no_callback PNone.

Definition new_button (icon : string) (h : callback) : widget :=
  new_widget (Button icon) h PNone.

(** [ui.radio(list(DATALOADERS)).props('inline')] *)
Definition new_sport_radio : widget :=
  with_props "inline" (new_widget (Radio (dict_keys DATALOADERS)) no_callback PNone).

(** [ui.number(min=0.0, max=1.0, step=0.05, value=0.0, ...)] *)
Definition new_threshold : widget :=
  new_widget (Number (QArith_base.Qmake 0 1) (QArith_base.Qmake 1 1) (QArith_base.Qmake 1 20))
    no_callback (PFloat (QArith_base.Qmake 0 1)).

(** [ui.download(content, filename)] *)
Definition download (content : list ascii) (filename : string) : M unit :=
  fun w => Ok tt (emit (Download content filename) w).

(** The body shared by [select_download] and [download_data]: the
    dataloader is saved to a file of a temporary directory and the bytes of
    that file are sent; [save] stands for [dataloader.save] followed by the
    read of the file. *)
Definition download_dataloader (save : loader -> exn + list ascii) : M unit :=
  dl <- get_loader "dataloader" ;;
  match save dl with
  | inl e => raise e
  | inr content => download content "dataloader.pkl"
  end.

(** What the page does on its own when the user acts on an element. *)
Definition clickable (k : string) (w : World) : bool :=
  match state w !! k with
  | Some (Widget x) => visible x && enabled x
  | _ => false
  end.

Definition editable (k : string) (w : World) : bool :=
  match state w !! k with
  | Some (Widget x) => visible x && enabled x && bool_decide ("disabled" ∉ props x)
  | _ => false
  end.

Definition options_of (k : string) (w : World) : list scalar :=
  match state w !! k with
  | Some (Widget x) =>
      match elem x with
      | Toggle opts | Radio opts => opts
      | Select opts => dict_keys opts
      | _ => []
      end
  | _ => []
  end.

(** The value, the options and the rows an element shows. *)
Definition value_at (k : string) (w : World) : scalar :=
  match state w !! k with
  | Some (Widget x) => value x
  | _ => PNone
  end.

Definition rows_of (k : string) (w : World) : list record :=
  match state w !! k with
  | Some (Widget x) =>
      match elem x with
      | Table _ rows _ => rows
      | _ => []
      end
  | _ => []
  end.

(** The world a synchronous callback leaves, raised or not. *)
Definition after {A} (r : res A) : World :=
  match r with
  | Ok _ w => w
  | Err _ w => w
  end.

(** ** The wizard of [_data.py] and [_gui.py] *)

Module Data.

(** Modelled from the spec: [sportsbet.gui._state.state], imported by both
    files, is not under src/; the pipeline state is created empty at session
    start (app.py declares the same dictionary as [{}]). *)
Definition state0 : World := {| state := ∅; page := [] |}.

(** [buttons_ui], the local list of [set_buttons_visibility] *)
Definition buttons_ui : list string :=
  ["arrow_sport_ui"; "arrow_filter_ui"; "arrow_extraction_ui"; "download_ui"].

(** [buttons_ui.index(button_ui)] *)
Fixpoint index_of (x : string) (l : list string) : option Z :=
  match l with
  | [] => None
  | y :: l' => if decide (y = x) then Some 0%Z else Z.succ <$> index_of x l'
  end.

(** [set_buttons_visibility(index)] *)
Definition set_buttons_visibility (index : Z) : M unit :=
  for_each buttons_ui (fun button_ui =>
    match index_of button_ui buttons_ui with
    | Some pos => set_visibility button_ui (index =? pos)%Z
    | None => raise ValueError
    end).

(** [state['mode_ui'].value == 'Data'] *)
Definition mode_is_data : M bool :=
  mode <- value_of "mode_ui" ;; ret (bool_decide (mode = PStr "Data")).

(** [create_sport_ui] *)
Definition create_sport_ui : M unit :=
  data <- mode_is_data ;;
  if data then setitem "sport_ui" (Widget new_sport_radio) else ret tt.

(** [create_filter_ui] *)
Definition create_filter_ui : M unit :=
  data <- mode_is_data ;;
  has_columns <- has_key "filter_columns" ;;
  has_rows <- has_key "filter_rows" ;;
  if data && has_columns && has_rows then
    columns <- get_records "filter_columns" ;;
    rows <- get_records "filter_rows" ;;
    setitem "filter_ui" (Widget (new_table columns rows))
  else ret tt.

(** [create_extraction_ui] *)
Definition create_extraction_ui : M unit :=
  data <- mode_is_data ;;
  has_mapping <- has_key "odds_types_mapping" ;;
  has_types <- has_key "odds_types" ;;
  has_loader <- has_key "dataloader" ;;
  if data && has_mapping && has_types && has_loader then
    mapping <- get_mapping "odds_types_mapping" ;;
    odds_types <- get_strs "odds_types" ;;
    first <- first_odds_type odds_types ;;
    setitem "odds_type_ui" (Widget (new_widget (Select mapping) no_callback first)) ;;
    setitem "drop_na_thres_ui" (Widget new_threshold)
  else ret tt.

(** The odds table of [create_data_ui]: no columns and no rows when the
    table is [None]. *)
Definition odds_table (k : string) : M widget :=
  o <- getitem k ;;
  match o with
  | Frame f => ret (new_table (map (data_column (target_label 2)) (df_columns f)) (head_records f))
  | NoneObj => ret (new_table [] [])
  | _ => raise AttributeError
  end.

(** [create_data_ui] *)
Definition create_data_ui : M unit :=
  data <- mode_is_data ;;
  has_x <- has_key "X_train" ;;
  has_y <- has_key "Y_train" ;;
  has_o <- has_key "O_train" ;;
  has_xf <- has_key "X_fix" ;;
  has_yf <- has_key "Y_fix" ;;
  has_of <- has_key "O_fix" ;;
  if data && has_x && has_y && has_o && has_xf && has_yf && has_of then
    x_train <- get_frame "X_train" ;;
    setitem "X_train_ui"
      (Widget (new_table (map (data_column input_label) (df_columns x_train)) (head_records x_train))) ;;
    y_train <- get_frame "Y_train" ;;
    setitem "Y_train_ui"
      (Widget (new_table (map (data_column (target_label 1)) (df_columns y_train)) (head_records y_train))) ;;
    o_train_ui <- odds_table "O_train" ;;
    setitem "O_train_ui" (Widget o_train_ui) ;;
    x_fix <- get_frame "X_fix" ;;
    setitem "X_fix_ui"
      (Widget (new_table (map (data_column input_label) (df_columns x_fix)) (head_records x_fix))) ;;
    y_train' <- get_frame "Y_train" ;;
    setitem "Y_fix_ui"
      (Widget (new_table (map (data_column (target_label 1)) (df_columns y_train')) [])) ;;
    o_fix_ui <- odds_table "O_fix" ;;
    setitem "O_fix_ui" (Widget o_fix_ui)
  else ret tt.

(** [create_control_ui] *)
Definition create_control_ui : M unit :=
  data <- mode_is_data ;;
  if data then
    setitem "arrow_sport_ui" (Widget (new_button "play_arrow" on_select_sport)) ;;
    setitem "arrow_filter_ui" (Widget (new_button "play_arrow" on_select_filter)) ;;
    setitem "arrow_extraction_ui" (Widget (new_button "play_arrow" on_select_extraction)) ;;
    setitem "download_ui" (Widget (new_button "download" on_select_download))
  else ret tt.

(** The part of [select_sport] that follows the await. *)
Definition show_filter (all_params : list record) : M unit :=
  spinner_hide ;;
  params_names <- params_names_of all_params ;;
  setitem "filter_columns" (Records [id_column]) ;;
  columns <- get_records "filter_columns" ;;
  setitem "filter_columns" (Records (columns ++ map param_column params_names)) ;;
  setitem "filter_rows" (Records (filter_rows all_params)) ;;
  create_filter_ui ;;
  create_control_ui ;;
  set_buttons_visibility 1 ;;
  set_enabled "sport_ui" false.

(** What [select_sport] does with the value of the await. *)
Definition resume_sport (r : retval) : Coro :=
  match r with
  | RetRecords all_params => finish (show_filter all_params)
  | _ => finish (raise TypeError)
  end.

(** [select_sport].  The lambda handed to [run.io_bound] reads
    [state['sport_ui'].value] in the worker thread; it is evaluated here
    where the call is issued. *)
Definition select_sport : Coro :=
  sync (value_of "sport_ui") (fun dataloader_name =>
  if decide (dataloader_name = PStr "Soccer") then
    sync (spinner_show ;; name <- value_of "sport_ui" ;; dataloaders_getitem name) (fun cls =>
    await (GetAllParams cls) resume_sport)
  else if decide (dataloader_name <> PStr "Soccer" /\ dataloader_name <> PNone) then
    finish (notify "Soccer is the only currently available sport.")
  else
    finish (notify "Please select a sport to proceed.")).

(** The part of [select_filter] that follows the await. *)
Definition show_extraction (odds_types : list string) : M unit :=
  setitem "odds_types" (Strs odds_types) ;;
  spinner_hide ;;
  odds_types' <- get_strs "odds_types" ;;
  setitem "odds_types_mapping" (Mapping (odds_mapping odds_types')) ;;
  mapping <- get_mapping "odds_types_mapping" ;;
  setitem "odds_types_mapping" (Mapping (dict_update mapping [(PNone, "No Odds")])) ;;
  create_extraction_ui ;;
  create_control_ui ;;
  set_buttons_visibility 2 ;;
  add_props "filter_ui" "disabled".

(** The part of [select_filter] that precedes the await. *)
Definition build_dataloader (selected : list record) : M loader :=
  name <- value_of "sport_ui" ;;
  cls <- dataloaders_getitem name ;;
  setitem "dataloader"
    (DataLoader {| loader_cls := cls; param_grid := make_param_grid selected |}) ;;
  spinner_show ;;
  get_loader "dataloader".

(** What [select_filter] does with the value of the await. *)
Definition resume_filter (r : retval) : Coro :=
  match r with
  | RetStrs odds_types => finish (show_extraction odds_types)
  | _ => finish (raise TypeError)
  end.

(** [select_filter] *)
Definition select_filter : Coro :=
  sync (selected_of "filter_ui") (fun selected =>
  match selected with
  | _ :: _ =>
      sync (build_dataloader selected) (fun dl =>
      await (GetOddsTypes dl) resume_filter)
  | [] => finish (notify "Please select at least one row of filter table.")
  end).

(** The arguments of [extract_train_data], read from the dictionary. *)
Definition train_call : M call :=
  dl <- get_loader "dataloader" ;;
  odds_type <- value_of "odds_type_ui" ;;
  drop_na_thres <- value_of "drop_na_thres_ui" ;;
  ret (ExtractTrainData dl odds_type drop_na_thres).

(** The argument of [extract_fixtures_data]. *)
Definition fixtures_call : M call :=
  dl <- get_loader "dataloader" ;; ret (ExtractFixturesData dl).

(** [state[kx], state[ky], state[ko] = x, y, o] *)
Definition store_tables (kx ky ko : string) (x y o : obj) : M unit :=
  setitem kx x ;; setitem ky y ;; setitem ko o.

(** The part of [select_extraction] that follows the second await. *)
Definition show_data : M unit :=
  spinner_hide ;;
  create_data_ui ;;
  create_control_ui ;;
  set_buttons_visibility 3 ;;
  set_enabled "odds_type_ui" false ;;
  set_enabled "drop_na_thres_ui" false.

(** What [select_extraction] does with the value of the second await. *)
Definition resume_fixtures (r : retval) : Coro :=
  match r with
  | RetTables x y o => finish (store_tables "X_fix" "Y_fix" "O_fix" x y o ;; show_data)
  | _ => finish (raise TypeError)
  end.

(** What [select_extraction] does with the value of the first await. *)
Definition resume_train (r : retval) : Coro :=
  match r with
  | RetTables x y o =>
      sync (store_tables "X_train" "Y_train" "O_train" x y o ;; fixtures_call) (fun c =>
      await c resume_fixtures)
  | _ => finish (raise TypeError)
  end.

(** [select_extraction] *)
Definition select_extraction : Coro :=
  sync (spinner_show ;; train_call) (fun c => await c resume_train).

(** [select_download] *)
Definition select_download (save : loader -> exn + list ascii) : M unit :=
  download_dataloader save.

(** [create_mode_ui] *)
Definition create_mode_ui : M unit :=
  setitem "mode_ui"
    (Widget (new_widget (Toggle [PStr "Data"; PStr "Betting"]) on_select_mode PNone)).

(** [create_cancel_ui] *)
Definition create_cancel_ui : M unit :=
  mode <- value_of "mode_ui" ;;
  if bool_decide (mode ∈ [PStr "Data"; PStr "Betting"]) then
    setitem "cancel_ui" (Widget (new_button "cancel" on_select_cancel))
  else ret tt.

(** [select_mode] *)
Definition select_mode : M unit :=
  mode <- value_of "mode_ui" ;;
  has_sport <- has_key "sport_ui" ;;
  if bool_decide (mode = PStr "Data") && negb has_sport then
    create_sport_ui ;;
    create_control_ui ;;
    create_cancel_ui ;;
    set_buttons_visibility 0
  else ret tt.

(** [select_cancel] *)
Definition select_cancel : M unit :=
  keys <- keys_copy ;;
  for_each keys (fun key => if decide (key <> "mode_ui") then popitem key else ret tt) ;;
  create_mode_ui ;;
  create_sport_ui ;;
  create_filter_ui ;;
  create_extraction_ui ;;
  create_data_ui ;;
  create_control_ui ;;
  create_cancel_ui.

(** [main], up to [ui.run]: the first rendering of the page. *)
Definition main : M unit :=
  create_mode_ui ;;
  create_sport_ui ;;
  create_filter_ui ;;
  create_extraction_ui ;;
  create_control_ui ;;
  create_cancel_ui ;;
  create_data_ui.

(** *** The session: what the user does, one action after the other *)

Inductive event :=
| ToggleMode (v : scalar)
| PickSport (v : scalar)
| SelectRows (rows : list record)
| PickOddsType (k : scalar)
| SetThreshold (v : scalar)
| ClickSport (env : Env)
| ClickFilter (env : Env)
| ClickExtraction (env : Env)
| ClickDownload (save : loader -> exn + list ascii)
| ClickCancel.

(** One action, with every handler run to its end before the next action.
    An action on an element that is absent, hidden or disabled does
    nothing, and the toggle calls [select_mode] when its value changes; an
    exception of a handler is logged by the event loop and the dictionary
    stays as the handler left it. *)
Definition step (w : World) (ev : event) : World :=
  match ev with
  | ToggleMode v =>
      if editable "mode_ui" w && bool_decide (v ∈ options_of "mode_ui" w)
         && bool_decide (v <> value_at "mode_ui" w) then
        after ((set_value "mode_ui" v ;; select_mode) w)
      else w
  | PickSport v =>
      if editable "sport_ui" w && bool_decide (v ∈ options_of "sport_ui" w) then
        after (set_value "sport_ui" v w)
      else w
  | SelectRows rows =>
      if editable "filter_ui" w && forallb (fun r => bool_decide (r ∈ rows_of "filter_ui" w)) rows then
        after (update_widget "filter_ui" (with_selected rows) w)
      else w
  | PickOddsType k =>
      if editable "odds_type_ui" w && bool_decide (k ∈ options_of "odds_type_ui" w) then
        after (set_value "odds_type_ui" k w)
      else w
  | SetThreshold v =>
      if editable "drop_na_thres_ui" w then after (set_value "drop_na_thres_ui" v w) else w
  | ClickSport env =>
      if clickable "arrow_sport_ui" w then fst (run_alone env (select_sport w)) else w
  | ClickFilter env =>
      if clickable "arrow_filter_ui" w then fst (run_alone env (select_filter w)) else w
  | ClickExtraction env =>
      if clickable "arrow_extraction_ui" w then fst (run_alone env (select_extraction w)) else w
  | ClickDownload save =>
      if clickable "download_ui" w then after (select_download save w) else w
  | ClickCancel =>
      if clickable "cancel_ui" w then after (select_cancel w) else w
  end.

(** The page once [main] has rendered it. *)
Definition boot : World := after (main state0).

Definition session (evs : list event) : World := foldl step boot evs.

End Data.

(** ** The wizard of [app.py] *)

Module App.

(** [state: dict[str, Any] = {}] *)
Definition state0 : World := {| state := ∅; page := [] |}.

(** [create_sport_ui] *)
Definition create_sport_ui : M unit :=
  setitem "sport_ui" (Widget new_sport_radio).

(** [create_filter_ui] *)
Definition create_filter_ui : M unit :=
  has_params <- has_key "all_params" ;;
  if has_params then
    all_params <- get_records "all_params" ;;
    params_names <- params_names_of all_params ;;
    setitem "filter_ui"
      (Widget (new_table ([id_column] ++ map param_column params_names) (filter_rows all_params)))
  else ret tt.

(** [create_extraction_ui] *)
Definition create_extraction_ui : M unit :=
  has_types <- has_key "odds_types" ;;
  if has_types then
    odds_types <- get_strs "odds_types" ;;
    first <- first_odds_type odds_types ;;
    setitem "odds_type_ui"
      (Widget (new_widget (Select (odds_mapping odds_types)) no_callback first)) ;;
    setitem "drop_na_thres_ui" (Widget new_threshold)
  else ret tt.

(** [create_data_ui]: the six tables are drawn and not kept in [state];
    what is left of them here is that each table read must be a table. *)
Definition create_data_ui : M unit :=
  has_x <- has_key "X_train" ;;
  if has_x then
    _ <- get_frame "X_train" ;;
    _ <- get_frame "Y_train" ;;
    _ <- get_frame "O_train" ;;
    _ <- get_frame "X_fix" ;;
    _ <- get_frame "Y_train" ;;
    _ <- get_frame "O_fix" ;;
    ret tt
  else ret tt.

(** [select_sport], after the await *)
Definition show_filter (all_params : list record) : M unit :=
  setitem "all_params" (Records all_params) ;;
  spinner_hide ;;
  create_filter_ui ;;
  set_visibility "arrow_sport_ui" false ;;
  set_visibility "arrow_filter_ui" true ;;
  set_enabled "sport_ui" false.

(** What [select_sport] does with the value of the await. *)
Definition resume_sport (r : retval) : Coro :=
  match r with
  | RetRecords all_params => finish (show_filter all_params)
  | _ => finish (raise TypeError)
  end.

(** [select_sport]; [get_params] is evaluated where the call is issued. *)
Definition select_sport : Coro :=
  sync (value_of "sport_ui") (fun dataloader_name =>
  if decide (dataloader_name = PStr "Soccer") then
    sync (spinner_show ;; name <- value_of "sport_ui" ;; dataloaders_getitem name) (fun cls =>
    await (GetAllParams cls) resume_sport)
  else if decide (dataloader_name <> PStr "Soccer" /\ dataloader_name <> PNone) then
    finish (notify "Soccer is the only currently available sport.")
  else
    finish (notify "Please select a sport to proceed.")).

(** [select_filter], after the await *)
Definition show_extraction (odds_types : list string) : M unit :=
  setitem "odds_types" (Strs odds_types) ;;
  spinner_hide ;;
  create_extraction_ui ;;
  set_visibility "arrow_filter_ui" false ;;
  set_visibility "arrow_extraction_ui" true ;;
  add_props "filter_ui" "disabled".

(** [select_filter], before the await *)
Definition build_dataloader (selected : list record) : M loader :=
  name <- value_of "sport_ui" ;;
  cls <- dataloaders_getitem name ;;
  setitem "dataloader"
    (DataLoader {| loader_cls := cls; param_grid := make_param_grid selected |}) ;;
  spinner_show ;;
  get_loader "dataloader".

(** What [select_filter] does with the value of the await. *)
Definition resume_filter (r : retval) : Coro :=
  match r with
  | RetStrs odds_types => finish (show_extraction odds_types)
  | _ => finish (raise TypeError)
  end.

(** [select_filter] *)
Definition select_filter : Coro :=
  sync (selected_of "filter_ui") (fun selected =>
  match selected with
  | _ :: _ =>
      sync (build_dataloader selected) (fun dl =>
      await (GetOddsTypes dl) resume_filter)
  | [] => finish (notify "Please select at least one row of filter table.")
  end).

(** [get_train_data] *)
Definition get_train_data : M call :=
  dl <- get_loader "dataloader" ;;
  odds_type <- value_of "odds_type_ui" ;;
  drop_na_thres <- value_of "drop_na_thres_ui" ;;
  ret (ExtractTrainData dl odds_type drop_na_thres).

(** [get_fixtures_data] *)
Definition get_fixtures_data : M call :=
  dl <- get_loader "dataloader" ;; ret (ExtractFixturesData dl).

(** [state[kx], state[ky], state[ko] = x, y, o] *)
Definition store_tables (kx ky ko : string) (x y o : obj) : M unit :=
  setitem kx x ;; setitem ky y ;; setitem ko o.

(** [select_extraction], after the second await *)
Definition show_data : M unit :=
  spinner_hide ;;
  create_data_ui ;;
  set_visibility "arrow_extraction_ui" false ;;
  add_props "odds_type_ui" "disabled" ;;
  set_enabled "drop_na_thres_ui" false ;;
  set_visibility "download_ui" true.

(** What [select_extraction] does with the value of the second await. *)
Definition resume_fixtures (r : retval) : Coro :=
  match r with
  | RetTables x y o => finish (store_tables "X_fix" "Y_fix" "O_fix" x y o ;; show_data)
  | _ => finish (raise TypeError)
  end.

(** What [select_extraction] does with the value of the first await. *)
Definition resume_train (r : retval) : Coro :=
  match r with
  | RetTables x y o =>
      sync (store_tables "X_train" "Y_train" "O_train" x y o ;; get_fixtures_data) (fun c =>
      await c resume_fixtures)
  | _ => finish (raise TypeError)
  end.

(** [select_extraction] *)
Definition select_extraction : Coro :=
  sync (spinner_show ;; get_train_data) (fun c => await c resume_train).

(** [download_data] *)
Definition download_data (save : loader -> exn + list ascii) : M unit :=
  download_dataloader save.

(** The test of the loop of [refresh_ui]:
    [not key.startswith(('arrow', 'download')) and key not in 'sport_ui'];
    the second half is a substring test on the text ['sport_ui']. *)
Definition dropped (key : string) : bool :=
  negb (PyStr.startswith "arrow" key || PyStr.startswith "download" key)
  && negb (PyStr.contains key "sport_ui").

(** The [else] branch of the loop of [refresh_ui] *)
Definition restore_controls : M unit :=
  set_visibility "arrow_sport_ui" true ;;
  set_visibility "arrow_filter_ui" false ;;
  set_visibility "arrow_extraction_ui" false ;;
  set_visibility "download_ui" false ;;
  set_enabled "sport_ui" true ;;
  set_value "sport_ui" PNone.

(** [refresh_ui] *)
Definition refresh_ui : M unit :=
  keys <- keys_copy ;;
  for_each keys (fun key => if dropped key then popitem key else restore_controls) ;;
  create_filter_ui ;;
  create_filter_ui ;;
  create_extraction_ui ;;
  create_data_ui.

(** [create_control_ui]: the four buttons; the cancel button that calls
    [refresh_ui] is drawn and not kept in [state]. *)
Definition create_control_ui : M unit :=
  setitem "arrow_sport_ui" (Widget (new_button "play_arrow" on_select_sport)) ;;
  setitem "arrow_filter_ui" (Widget (new_button "play_arrow" on_select_filter)) ;;
  setitem "arrow_extraction_ui" (Widget (new_button "play_arrow" on_select_extraction)) ;;
  setitem "download_ui" (Widget (new_button "download" on_select_download)) ;;
  set_visibility "arrow_filter_ui" false ;;
  set_visibility "arrow_extraction_ui" false ;;
  set_visibility "download_ui" false.

(** The module-level script, up to [ui.run]. *)
Definition main : M unit :=
  create_sport_ui ;;
  create_filter_ui ;;
  create_extraction_ui ;;
  create_control_ui ;;
  create_data_ui.

Inductive event :=
| PickSport (v : scalar)
| SelectRows (rows : list record)
| PickOddsType (k : scalar)
| SetThreshold (v : scalar)
| ClickSport (env : Env)
| ClickFilter (env : Env)
| ClickExtraction (env : Env)
| ClickDownload (save : loader -> exn + list ascii)
| ClickCancel.

Definition step (w : World) (ev : event) : World :=
  match ev with
  | PickSport v =>
      if editable "sport_ui" w && bool_decide (v ∈ options_of "sport_ui" w) then
        after (set_value "sport_ui" v w)
      else w
  | SelectRows rows =>
      if editable "filter_ui" w && forallb (fun r => bool_decide (r ∈ rows_of "filter_ui" w)) rows then
        after (update_widget "filter_ui" (with_selected rows) w)
      else w
  | PickOddsType k =>
      if editable "odds_type_ui" w && bool_decide (k ∈ options_of "odds_type_ui" w) then
        after (set_value "odds_type_ui" k w)
      else w
  | SetThreshold v =>
      if editable "drop_na_thres_ui" w then after (set_value "drop_na_thres_ui" v w) else w
  | ClickSport env =>
      if clickable "arrow_sport_ui" w then fst (run_alone env (select_sport w)) else w
  | ClickFilter env =>
      if clickable "arrow_filter_ui" w then fst (run_alone env (select_filter w)) else w
  | ClickExtraction env =>
      if clickable "arrow_extraction_ui" w then fst (run_alone env (select_extraction w)) else w
  | ClickDownload save =>
      if clickable "download_ui" w then after (download_data save w) else w
  | ClickCancel => after (refresh_ui w)
  end.

Definition boot : World := after (main state0).

Definition session (evs : list event) : World := foldl step boot evs.

End App.

(** * The vocabulary of the properties *)

(** ** Invariants of the dictionary *)

(** [guards I m]: the code [m] takes a dictionary that satisfies [I] to one
    that satisfies [I], whether it returns or raises. *)
Definition guards (I : gmap string obj -> Prop) {A} (m : M A) : Prop :=
  forall w, I (state w) -> I (state (after (m w))).

(** The worlds a handler publishes, where it suspends, ends or raises, all
    satisfy [I]; it may be resumed on any world that satisfies [I]. *)
Fixpoint settles (I : gmap string obj -> Prop) (a : Async) : Prop :=
  match a with
  | Finish w => I (state w)
  | Throw _ w => I (state w)
  | Await w _ k => I (state w) /\ forall r w', I (state w') -> settles I (k r w')
  end.

(** A handler started on a world that satisfies [I] publishes only worlds
    that satisfy [I]. *)
Definition cguards (I : gmap string obj -> Prop) (c : Coro) : Prop :=
  forall w, I (state w) -> settles I (c w).

(** ** The control buttons *)

(** The visibility of the four control buttons, in the order of
    [buttons_ui]; [None] for a button that is not in [state]. *)
Definition visibility (m : gmap string obj) : list (option bool) :=
  map (fun k => match m !! k with
                | Some (Widget x) => Some (visible x)
                | _ => None
                end) Data.buttons_ui.

(** The same, of a world. *)
Definition shown (w : World) : list (option bool) := visibility (state w).

(** The control at index [i] is visible and the three others are hidden. *)
Definition cursor_at (i : nat) (w : World) : Prop :=
  shown w = map (fun j => Some (bool_decide (j = i))) [0; 1; 2; 3]%nat.

(** The four control buttons are in [state]. *)
Definition has_buttons (w : World) : Prop :=
  Forall (fun v => is_Some v) (shown w).

(** The element under [k] is disabled. *)
Definition disabled (k : string) (w : World) : Prop :=
  exists x, state w !! k = Some (Widget x) /\ enabled x = false.

(** Exactly one of the four control buttons is visible. *)
Definition one_visible (m : gmap string obj) : Prop :=
  exists i : nat,
    (i < 4)%nat /\ visibility m = map (fun j => Some (bool_decide (j = i))) [0; 1; 2; 3]%nat.

(** ** Notifications *)

(** The texts of the three calls of [ui.notify]. *)
Definition not_yet_supported : string := "Soccer is the only currently available sport.".
Definition no_sport_selected : string := "Please select a sport to proceed.".
Definition no_row_selected : string := "Please select at least one row of filter table.".

(** The notifications sent to the page so far. *)
Definition notifications (w : World) : list string :=
  omap (fun e => match e with Notify msg => Some msg | _ => None end) (page w).

(** ** The filter rows and the displayed odds types *)

(** ['filter_rows'] holds [rows]. *)
Definition keeps_rows (rows : list record) (m : gmap string obj) : Prop :=
  m !! "filter_rows" = Some (Records rows).

(** The mapping the odds-type selector displays: the labels of the fetched
    odds types and the sentinel. *)
Definition displayed_mapping (odds_types : list string) : list (scalar * string) :=
  dict_update (odds_mapping odds_types) [(PNone, "No Odds")].

(** ** Reset *)

(** The loop of [select_cancel] *)
Definition cancel_body (key : string) : M unit :=
  if decide (key <> "mode_ui") then popitem key else ret tt.

(** The mode toggle as [create_mode_ui] draws it. *)
Definition mode_toggle : widget :=
  new_widget (Toggle [PStr "Data"; PStr "Betting"]) on_select_mode PNone.

(** The keys [app.py] creates at start and never removes. *)
Definition controls : list string := "sport_ui" :: Data.buttons_ui.

(** The four buttons as [create_control_ui] draws them. *)
Definition sport_arrow : widget := new_button "play_arrow" on_select_sport.
Definition filter_arrow : widget := new_button "play_arrow" on_select_filter.
Definition extraction_arrow : widget := new_button "play_arrow" on_select_extraction.
Definition download_button : widget := new_button "download" on_select_download.

(** What holds of [state] all along a session of [app.py]: the five
    controls are there, changed at most in value, enabledness and
    visibility, and every other key is one the loop of [refresh_ui] pops. *)
Record app_inv (m : gmap string obj) : Prop := {
  inv_sport : exists x, m !! "sport_ui" = Some (Widget x)
                        /\ with_value PNone (with_enabled true x) = new_sport_radio;
  inv_sport_arrow : exists x, m !! "arrow_sport_ui" = Some (Widget x)
                              /\ with_visible true x = sport_arrow;
  inv_filter_arrow : exists x, m !! "arrow_filter_ui" = Some (Widget x)
                               /\ with_visible true x = filter_arrow;
  inv_extraction_arrow : exists x, m !! "arrow_extraction_ui" = Some (Widget x)
                                   /\ with_visible true x = extraction_arrow;
  inv_download : exists x, m !! "download_ui" = Some (Widget x)
                           /\ with_visible true x = download_button;
  inv_dom : forall k, is_Some (m !! k) -> k ∉ controls -> App.dropped k = true
}.

(** The controls as [app.py] first draws them. *)
Record controls_reset (m : gmap string obj) : Prop := {
  reset_sport : m !! "sport_ui" = Some (Widget new_sport_radio);
  reset_sport_arrow : m !! "arrow_sport_ui" = Some (Widget sport_arrow);
  reset_filter_arrow : m !! "arrow_filter_ui" = Some (Widget (with_visible false filter_arrow));
  reset_extraction_arrow :
    m !! "arrow_extraction_ui" = Some (Widget (with_visible false extraction_arrow));
  reset_download : m !! "download_ui" = Some (Widget (with_visible false download_button))
}.

(** The loop of [refresh_ui] *)
Definition refresh_body (key : string) : M unit :=
  if App.dropped key then popitem key else App.restore_controls.

(** ** Fetches in flight *)

(** The stages that fetch, and the stage each external call belongs to. *)
Inductive stage := SportSelect | FilterSelect | ExtractionConfig.

#[global] Instance stage_eq_dec : EqDecision stage.
Proof. solve_decision. Defined.

Definition stage_of (c : call) : stage :=
  match c with
  | GetAllParams _ => SportSelect
  | GetOddsTypes _ => FilterSelect
  | ExtractTrainData _ _ _ => ExtractionConfig
  | ExtractFixturesData _ => ExtractionConfig
  end.

(** The number of fetches of a stage that are pending. *)
Definition in_flight (st : stage) (s : Loop) : nat :=
  length (filter (fun t => stage_of (task_call t) = st) (pending s)).

(** The single-flight guard of the specification: a trigger of a stage that
    has a fetch pending starts no fetch. *)
Definition single_flight (h : Coro) (st : stage) : Prop :=
  forall s, (1 <= in_flight st s)%nat -> in_flight st (trigger h s) = in_flight st s.

(** ** Scenarios *)

(** Scenario A of the specification. *)
Definition scenario_a : list record := [[("league", PStr "E0")]; [("league", PStr "E1")]].

(** Scenario B of the specification: ["NBA"] is selected. *)
Definition scenario_b : World :=
  Data.session [Data.ToggleMode (PStr "Data"); Data.PickSport (PStr "NBA")].

(** A service that answers every call. *)
Definition env_a : Env := {|
  get_all_params := fun _ => inr scenario_a;
  get_odds_types := fun _ => inr ["market_average"; "market_maximum"];
  extract_train_data := fun _ _ _ =>
    inr (Frame {| df_columns := ["home_team__points"]; df_records := [] |},
         Frame {| df_columns := ["output__home_win__full_time_goals"]; df_records := [] |},
         NoneObj);
  extract_fixtures_data := fun _ =>
    inr (Frame {| df_columns := ["home_team__points"]; df_records := [] |}, NoneObj, NoneObj)
|}.

(** Scenario C of the specification: the wizard at FilterSelect with no row
    selected. *)
Definition at_filter : World :=
  Data.session [Data.ToggleMode (PStr "Data"); Data.PickSport (PStr "Soccer");
                Data.ClickSport env_a].

Definition row_e1 : record := [("league", PStr "E1"); ("id", PInt 2)].

(** The same with one row selected. *)
Definition at_filter_chosen : World := Data.step at_filter (Data.SelectRows [row_e1]).

(** Scenario E of the specification: the wizard at ExtractionConfig. *)
Definition at_extraction : World :=
  Data.session [Data.ToggleMode (PStr "Data"); Data.PickSport (PStr "Soccer");
                Data.ClickSport env_a; Data.SelectRows [row_e1]; Data.ClickFilter env_a].

(** The dataloader of the row selected above. *)
Definition loader_e1 : loader :=
  {| loader_cls := SoccerDataLoader; param_grid := [[("league", [PStr "E1"])]] |}.

(** The wizard with the tables extracted. *)
Definition at_export : World :=
  Data.session [Data.ToggleMode (PStr "Data"); Data.PickSport (PStr "Soccer");
                Data.ClickSport env_a; Data.SelectRows [row_e1]; Data.ClickFilter env_a;
                Data.ClickExtraction env_a].

(** A serializer that writes the text of the class name. *)
Definition save_name (dl : loader) : exn + list ascii :=
  inr (match loader_cls dl with
       | SoccerDataLoader => ["S"%char]
       | BaseDataLoader => ["B"%char]
       end).

(** A service whose fixtures call fails after the training call succeeded. *)
Definition env_fixtures_fail : Env := {|
  get_all_params := get_all_params env_a;
  get_odds_types := get_odds_types env_a;
  extract_train_data := extract_train_data env_a;
  extract_fixtures_data := fun _ => inl (ExternalError "fixtures")
|}.

(** The wizard of [_data.py] suspended in [select_filter]: the world on
    which the odds-type fetch is awaited. *)
Definition awaiting_odds_types : World :=
  emit SpinnerShown (with_state (insert "dataloader" (DataLoader loader_e1)) at_filter_chosen).

(** A service with no odds type. *)
Definition env_no_odds : Env := {|
  get_all_params := get_all_params env_a;
  get_odds_types := fun _ => inr [];
  extract_train_data := extract_train_data env_a;
  extract_fixtures_data := extract_fixtures_data env_a
|}.

(** One row selected, then the mode toggle moved to ['Betting']. *)
Definition at_filter_betting : World :=
  Data.step at_filter_chosen (Data.ToggleMode (PStr "Betting")).

(** The wizard of [_data.py] with ['Soccer'] selected and nothing pending. *)
Definition at_sport : Loop :=
  {| world := Data.session [Data.ToggleMode (PStr "Data"); Data.PickSport (PStr "Soccer")];
     pending := [] |}.

(** Another answer of the parameter fetch. *)
Definition other_params : list record := [[("league", PStr "SP1")]].

(** ** Records, grids and labels *)

(** A record as a parameter grid holds it: every value in a list of one. *)
Definition singletons (param : record) : list (string * list scalar) :=
  map (fun nv => (fst nv, [snd nv])) param.

(** The label the odds-type mapping gives a key. *)
Definition label_of (k : scalar) : string :=
  match k with
  | PStr odds_type => odds_label odds_type
  | _ => EmptyString
  end.


(** The columns of the filter table for the records [p :: _]. *)
Definition filter_columns_of (p : record) : list record :=
  id_column :: map param_column (dict_keys p).

(** ** Tables *)

(** The columns an element shows. *)
Definition columns_of (k : string) (w : World) : list record :=
  match state w !! k with
  | Some (Widget x) =>
      match elem x with
      | Table columns _ _ => columns
      | _ => []
      end
  | _ => []
  end.

(** An odds table as the dataloader returns it: a table or [None]. *)
Definition frame_or_none (o : option DataFrame) : obj :=
  match o with
  | Some f => Frame f
  | None => NoneObj
  end.

(** The keys under which [create_data_ui] of [_data.py] keeps its tables. *)
Definition data_tables : list string :=
  ["X_train_ui"; "Y_train_ui"; "O_train_ui"; "X_fix_ui"; "Y_fix_ui"; "O_fix_ui"].

(** The element under [k] carries the property [p]. *)
Definition has_prop (p k : string) (w : World) : Prop :=
  exists x, state w !! k = Some (Widget x) /\ p ∈ props x.

(** What [show_data] of [_data.py] does once the tables are drawn. *)
Definition data_controls_end : M unit :=
  Data.create_control_ui ;;
  Data.set_buttons_visibility 3 ;;
  set_enabled "odds_type_ui" false ;;
  set_enabled "drop_na_thres_ui" false.

(** What [show_data] of [app.py] does once the tables are drawn. *)
Definition app_controls_end : M unit :=
  set_visibility "arrow_extraction_ui" false ;;
  add_props "odds_type_ui" "disabled" ;;
  set_enabled "drop_na_thres_ui" false ;;
  set_visibility "download_ui" true.

(** ** Handlers up to their first await *)

(** The world a handler publishes when it first gives control back, and
    the call it then awaits, if any. *)
Definition first_phase (a : Async) : World * option call :=
  match a with
  | Finish w => (w, None)
  | Throw _ w => (w, None)
  | Await w c _ => (w, Some c)
  end.

(** ** The session of [_gui.py] *)

(** The cancel button as [create_cancel_ui] draws it. *)
Definition cancel_button : widget := new_button "cancel" on_select_cancel.

(** Before the mode ['Data'] is first chosen: [state] holds the mode toggle
    alone, without a value or on ['Betting']. *)
Definition not_started (m : gmap string obj) : Prop :=
  exists v, (v = PNone \/ v = PStr "Betting")
            /\ m = <["mode_ui" := Widget (with_value v mode_toggle)]> ∅.

(** What the stage handlers leave alone: the mode toggle, on ['Data'] or
    ['Betting'], the sport control as an element of the page, and the
    cancel button. *)
Record frame_kept (m : gmap string obj) : Prop := {
  kept_mode : exists v, (v = PStr "Data" \/ v = PStr "Betting")
                        /\ m !! "mode_ui" = Some (Widget (with_value v mode_toggle));
  kept_sport : exists s, m !! "sport_ui" = Some (Widget s);
  kept_cancel : m !! "cancel_ui" = Some (Widget cancel_button)
}.

(** Once the mode ['Data'] was chosen: besides, one control is visible. *)
Definition started (m : gmap string obj) : Prop := frame_kept m /\ one_visible m.

(** ** The dataloader and the stages that need it *)

(** [state] holds a dataloader built from at least one selected row. *)
Definition has_loader (m : gmap string obj) : Prop :=
  exists dl, m !! "dataloader" = Some (DataLoader dl) /\ param_grid dl <> [].

(** The button under [k] is in [state] and hidden. *)
Definition hidden (k : string) (m : gmap string obj) : Prop :=
  exists x, m !! k = Some (Widget x) /\ visible x = false.

(** The wizard has not reached the extraction: the extraction arrow and the
    download button are hidden. *)
Definition before_extraction (m : gmap string obj) : Prop :=
  hidden "arrow_extraction_ui" m /\ hidden "download_ui" m.

(** The dataloader is there unless the extraction is still out of reach. *)
Definition loader_when_needed (m : gmap string obj) : Prop :=
  has_loader m \/ before_extraction m.

(** One control is visible, and the dataloader is there when needed. *)
Definition staged (m : gmap string obj) : Prop := one_visible m /\ loader_when_needed m.

(** ** More scenarios *)

(** A service whose parameter fetch returns no record. *)
Definition env_no_params : Env := {|
  get_all_params := fun _ => inr [];
  get_odds_types := get_odds_types env_a;
  extract_train_data := extract_train_data env_a;
  extract_fixtures_data := extract_fixtures_data env_a
|}.

(** The tables of [env_a]. *)
Definition frame_points : DataFrame :=
  {| df_columns := ["home_team__points"]; df_records := [] |}.

Definition frame_goals : DataFrame :=
  {| df_columns := ["output__home_win__full_time_goals"]; df_records := [] |}.

(** The wizard of [_data.py] suspended in [select_extraction]: the world on
    which the fixtures fetch is awaited. *)
Definition awaiting_fixtures : World :=
  with_state (insert "O_train" NoneObj)
    (with_state (insert "Y_train" (Frame frame_goals))
       (with_state (insert "X_train" (Frame frame_points)) (emit SpinnerShown at_extraction))).

(** The same for [app.py]. *)
Definition app_awaiting_fixtures : World :=
  with_state (insert "O_train" NoneObj)
    (with_state (insert "Y_train" (Frame frame_goals))
       (with_state (insert "X_train" (Frame frame_points))
          (emit SpinnerShown
             (App.session [App.PickSport (PStr "Soccer"); App.ClickSport env_a;
                           App.SelectRows [row_e1]; App.ClickFilter env_a])))).

(** ** The odds type [app.py] asks for *)

(** The odds-type selector, when it is in [state], offers the labels of a
    fetched list and has one of the fetched odds types as its value. *)
Definition odds_picked (m : gmap string obj) : Prop :=
  forall sel, m !! "odds_type_ui" = Some (Widget sel) ->
    exists l ot, elem sel = Select (odds_mapping l) /\ value sel = PStr ot /\ ot ∈ l.

(** * Properties *)

(** ** Records *)

Section pydict_facts.
Context {K V : Type} `{EqDecision K}.
Implicit Types (k : K) (v : V) (d : list (K * V)).

Lemma dict_get_nil k : dict_get k ([] : list (K * V)) = None.
Proof. reflexivity. Qed.

Lemma dict_get_cons k k' v d :
  dict_get k ((k', v) :: d) = if decide (k' = k) then Some v else dict_get k d.
Proof.
  unfold dict_get; simpl.
  destruct (decide (k' = k)) as [Heq | Hne].
  - rewrite bool_decide_eq_true_2 by done. reflexivity.
  - rewrite bool_decide_eq_false_2 by done. reflexivity.
Qed.

Lemma dict_get_set_eq k v d : dict_get k (dict_set k v d) = Some v.
Proof.
  induction d as [| [k' v'] d IH]; simpl.
  - rewrite dict_get_cons. by rewrite decide_True.
  - destruct (decide (k' = k)) as [-> | Hne].
    + rewrite dict_get_cons. by rewrite decide_True.
    + rewrite dict_get_cons. by rewrite decide_False.
Qed.

Lemma dict_get_set_ne k k' v d : k' <> k -> dict_get k' (dict_set k v d) = dict_get k' d.
Proof.
  intros Hne. induction d as [| [k0 v0] d IH]; simpl.
  - rewrite dict_get_cons. by rewrite decide_False.
  - destruct (decide (k0 = k)) as [-> | Hk0].
    + rewrite !dict_get_cons. by rewrite !decide_False.
    + rewrite !dict_get_cons. by rewrite IH.
Qed.

Lemma dict_keys_set_in k v d : k ∈ dict_keys (dict_set k v d).
Proof.
  induction d as [| [k' v'] d IH]; simpl.
  - apply list_elem_of_here.
  - destruct (decide (k' = k)) as [-> | Hne]; simpl.
    + apply list_elem_of_here.
    + by apply list_elem_of_further.
Qed.

Lemma dict_get_None k d : dict_get k d = None <-> k ∉ dict_keys d.
Proof.
  induction d as [| [k' v'] d IH].
  - split; [intros _; apply not_elem_of_nil | done].
  - rewrite dict_get_cons. simpl. rewrite not_elem_of_cons.
    destruct (decide (k' = k)) as [-> | Hne].
    + split; [done | intros [? _]; done].
    + rewrite IH. split; [intros ?; split; [congruence | done] | intros [_ ?]; done].
Qed.

End pydict_facts.

Lemma list_lookup_map {A B} (f : A -> B) (l : list A) (i : nat) :
  map f l !! i = f <$> l !! i.
Proof. exact (list_lookup_fmap f l i). Qed.

Lemma list_elem_of_map {A B} (f : A -> B) (l : list A) (y : B) :
  y ∈ map f l <-> exists x, y = f x /\ x ∈ l.
Proof. exact (list_elem_of_fmap f l y). Qed.

(** ** The filter table *)

Lemma filter_rows_length all_params : length (filter_rows all_params) = length all_params.
Proof. unfold filter_rows. apply length_imap. Qed.

Lemma filter_rows_lookup all_params (i : nat) :
  filter_rows all_params !! i
  = dict_set "id" (PInt (Z.of_nat i + 1)) <$> all_params !! i.
Proof. unfold filter_rows. by rewrite list_lookup_imap. Qed.

Lemma filter_rows_ids all_params :
  map (dict_get "id") (filter_rows all_params)
  = map (fun i => Some (PInt (Z.of_nat i))) (seq 1 (length all_params)).
Proof.
  unfold filter_rows.
  cut (forall (n : nat) (l : list record),
          map (dict_get "id") (imap (fun num param => dict_set "id" (PInt (Z.of_nat (n + num) + 1)) param) l)
          = map (fun i => Some (PInt (Z.of_nat i))) (seq (S n) (length l))).
  { intros Hgen. apply (Hgen 0%nat). }
  intros n l. revert n.
  induction l as [| param l IH]; intros n; simpl; [reflexivity |].
  rewrite dict_get_set_eq. f_equal.
  - do 2 f_equal. lia.
  - rewrite <- IH. f_equal. apply imap_ext. intros i x _. simpl.
    do 3 f_equal. lia.
Qed.

(** ** Running the primitives *)

Lemma getitem_Some k o w : state w !! k = Some o -> getitem k w = Ok o w.
Proof. unfold getitem. by intros ->. Qed.

Lemma getitem_None k w : state w !! k = None -> getitem k w = Err (KeyError (PStr k)) w.
Proof. unfold getitem. by intros ->. Qed.

Lemma get_widget_Some k x w : state w !! k = Some (Widget x) -> get_widget k w = Ok x w.
Proof. intros H. unfold get_widget, bind. by rewrite (getitem_Some _ _ _ H). Qed.

Lemma value_of_Some k x w : state w !! k = Some (Widget x) -> value_of k w = Ok (value x) w.
Proof. intros H. unfold value_of, bind. by rewrite (get_widget_Some _ _ _ H). Qed.

Lemma update_widget_Some k f x w :
  state w !! k = Some (Widget x) ->
  update_widget k f w = Ok tt (with_state (insert k (Widget (f x))) w).
Proof. intros H. unfold update_widget, bind. by rewrite (get_widget_Some _ _ _ H). Qed.

Lemma get_widget_inv k w x w' : get_widget k w = Ok x w' -> w' = w /\ state w !! k = Some (Widget x).
Proof.
  unfold get_widget, bind, getitem.
  destruct (state w !! k) as [[]|]; simpl; intros [=]; by subst.
Qed.

Lemma get_widget_err k w e w' : get_widget k w = Err e w' -> w' = w.
Proof.
  unfold get_widget, bind, getitem.
  destruct (state w !! k) as [[]|]; simpl; intros [=]; by subst.
Qed.

(** ** Invariants of the dictionary *)

Section guards.
Context (I : gmap string obj -> Prop).

Lemma guards_ret {A} (a : A) : guards I (ret a).
Proof. by intros w. Qed.

Lemma guards_raise {A} e : guards I (@raise A e).
Proof. by intros w. Qed.

Lemma guards_bind {A B} (m : M A) (k : A -> M B) :
  guards I m -> (forall a, guards I (k a)) -> guards I (bind m k).
Proof.
  intros Hm Hk w HI. unfold bind. specialize (Hm w HI).
  destruct (m w) as [a w' | e w']; simpl in *; [by apply Hk | done].
Qed.

Lemma guards_for_each {A} (l : list A) (body : A -> M unit) :
  (forall x, x ∈ l -> guards I (body x)) -> guards I (for_each l body).
Proof.
  induction l as [| x l IH]; intros Hbody; simpl.
  - apply guards_ret.
  - apply guards_bind.
    + apply Hbody, list_elem_of_here.
    + intros _. apply IH. intros y Hy. by apply Hbody, list_elem_of_further.
Qed.

Lemma guards_has_key k : guards I (has_key k).
Proof. by intros w. Qed.

Lemma guards_getitem k : guards I (getitem k).
Proof. intros w HI. unfold getitem. by destruct (state w !! k). Qed.

Lemma guards_keys_copy : guards I keys_copy.
Proof. by intros w. Qed.

Lemma guards_emit {A} (a : A) e : guards I (fun w => Ok a (emit e w)).
Proof. by intros w. Qed.

Lemma guards_setitem k o : (forall m, I m -> I (<[k:=o]> m)) -> guards I (setitem k o).
Proof. intros H w HI. by apply H. Qed.

Lemma guards_popitem k : (forall m, I m -> I (delete k m)) -> guards I (popitem k).
Proof.
  intros H w HI. unfold popitem. destruct (state w !! k); simpl; [by apply H | done].
Qed.

Lemma guards_get_widget k : guards I (get_widget k).
Proof.
  unfold get_widget. apply guards_bind; [apply guards_getitem |].
  intros []; first [apply guards_ret | apply guards_raise].
Qed.

Lemma guards_update_widget k f :
  (forall m x, I m -> m !! k = Some (Widget x) -> I (<[k:=Widget (f x)]> m)) ->
  guards I (update_widget k f).
Proof.
  intros H w HI. unfold update_widget, bind.
  destruct (get_widget k w) as [x w' | e w'] eqn:Hget; simpl.
  - apply get_widget_inv in Hget as [-> Hk]. by apply H.
  - apply get_widget_err in Hget as ->. done.
Qed.

Lemma cguards_sync {A} (m : M A) (k : A -> Coro) :
  guards I m -> (forall a, cguards I (k a)) -> cguards I (sync m k).
Proof.
  intros Hm Hk w HI. unfold sync. specialize (Hm w HI).
  destruct (m w) as [a w' | e w']; simpl in *; [by apply Hk | done].
Qed.

Lemma cguards_finish (m : M unit) : guards I m -> cguards I (finish m).
Proof. intros Hm. apply cguards_sync; [done |]. by intros _ w. Qed.

Lemma cguards_await c (k : retval -> Coro) :
  (forall v, cguards I (k v)) -> cguards I (await c k).
Proof.
  intros Hk w HI. simpl. split; [done |].
  intros [e | v] w' HI'; simpl; [done | by apply Hk].
Qed.

Lemma settles_run_alone env a : settles I a -> I (state (fst (run_alone env a))).
Proof.
  induction a as [w | e w | w c k IH]; simpl; [done | done |].
  intros [HI Hk]. apply IH. by apply Hk.
Qed.

End guards.

#[global] Arguments filter_rows : simpl never.
#[global] Arguments param_column : simpl never.
#[global] Arguments make_param_grid : simpl never.
#[global] Arguments odds_mapping : simpl never.

(** Definitions the automation below looks through. *)
Create HintDb py discriminated.

#[global] Hint Unfold value_of selected_of get_records get_strs get_mapping get_loader get_frame
  notify spinner_show spinner_hide download download_dataloader dataloaders_getitem
  params_names_of first_odds_type set_visibility set_enabled set_value add_props : py.

#[global] Hint Unfold Data.mode_is_data Data.create_sport_ui Data.create_filter_ui
  Data.create_extraction_ui Data.odds_table Data.create_data_ui Data.create_control_ui
  Data.show_filter Data.show_extraction Data.build_dataloader Data.train_call
  Data.fixtures_call Data.store_tables Data.show_data Data.select_download
  Data.create_mode_ui Data.create_cancel_ui Data.select_mode Data.main : py.

#[global] Hint Unfold App.create_sport_ui App.create_filter_ui App.create_extraction_ui
  App.create_data_ui App.show_filter App.show_extraction App.build_dataloader
  App.get_train_data App.get_fixtures_data App.store_tables App.show_data
  App.download_data App.restore_controls App.create_control_ui App.main : py.

(** Reduces [guards I m] to one goal per write of [m]. *)
Ltac guards_step :=
  lazymatch goal with
  | |- guards _ (bind _ _) => apply guards_bind; [| intros ?]
  | |- guards _ (ret _) => apply guards_ret
  | |- guards _ (raise _) => apply guards_raise
  | |- guards _ (has_key _) => apply guards_has_key
  | |- guards _ (getitem _) => apply guards_getitem
  | |- guards _ (get_widget _) => apply guards_get_widget
  | |- guards _ keys_copy => apply guards_keys_copy
  | |- guards _ (fun w => Ok _ (emit _ w)) => apply guards_emit
  | |- guards _ (setitem _ _) => apply guards_setitem
  | |- guards _ (popitem _) => apply guards_popitem
  | |- guards _ (update_widget _ _) => apply guards_update_widget
  | |- guards _ (Data.set_buttons_visibility _) => unfold Data.set_buttons_visibility; simpl
  | |- guards _ (for_each _ _) => apply guards_for_each; intros ? ?
  | |- guards _ (if ?b then _ else _) => destruct b
  | |- guards _ (match ?x with _ => _ end) => destruct x
  | |- guards _ _ => progress autounfold with py
  end.

Ltac guards_writes := repeat guards_step.

Ltac cguards_step :=
  lazymatch goal with
  | |- cguards _ (sync _ _) => apply cguards_sync; [| intros ?]
  | |- cguards _ (finish _) => apply cguards_finish
  | |- cguards _ (await _ _) => apply cguards_await; intros ?
  | |- cguards _ (if ?b then _ else _) => destruct b
  | |- cguards _ (match ?x with _ => _ end) => destruct x
  end.

(** ** The SportSelect transition *)

Lemma keeps_rows_insert rows k o m :
  k <> "filter_rows" -> keeps_rows rows m -> keeps_rows rows (<[k:=o]> m).
Proof. intros Hk Hm. unfold keeps_rows. by rewrite lookup_insert_ne. Qed.

Lemma data_show_filter_rows p ps w :
  state (after (Data.show_filter (p :: ps) w)) !! "filter_rows"
  = Some (Records (filter_rows (p :: ps))).
Proof.
  set (w1 := with_state (insert "filter_rows" (Records (filter_rows (p :: ps))))
              (with_state (insert "filter_columns" (Records ([id_column] ++ map param_column (dict_keys p))))
                (with_state (insert "filter_columns" (Records [id_column])) (emit SpinnerHidden w)))).
  assert (Hrun : Data.show_filter (p :: ps) w
                 = (Data.create_filter_ui ;; Data.create_control_ui ;;
                    Data.set_buttons_visibility 1 ;; set_enabled "sport_ui" false) w1).
  { unfold Data.show_filter, bind at 1 2 3 4 5 6, spinner_hide, params_names_of, ret, setitem, get_records.
    unfold bind at 1, getitem. simpl. rewrite lookup_insert_eq. reflexivity. }
  rewrite Hrun.
  assert (Hg : guards (keeps_rows (filter_rows (p :: ps)))
                 (Data.create_filter_ui ;; Data.create_control_ui ;;
                  Data.set_buttons_visibility 1 ;; set_enabled "sport_ui" false)).
  { guards_writes; intros; apply keeps_rows_insert; done. }
  apply (Hg w1). unfold keeps_rows, w1. simpl. by rewrite lookup_insert_eq.
Qed.

Lemma app_show_filter_rows p ps w :
  state (after (App.show_filter (p :: ps) w)) !! "filter_ui"
  = Some (Widget (new_table ([id_column] ++ map param_column (dict_keys p)) (filter_rows (p :: ps)))).
Proof.
  set (tbl := Widget (new_table ([id_column] ++ map param_column (dict_keys p)) (filter_rows (p :: ps)))).
  set (w1 := with_state (insert "filter_ui" tbl)
              (emit SpinnerHidden (with_state (insert "all_params" (Records (p :: ps))) w))).
  assert (Hrun : App.show_filter (p :: ps) w
                 = (set_visibility "arrow_sport_ui" false ;; set_visibility "arrow_filter_ui" true ;;
                    set_enabled "sport_ui" false) w1).
  { unfold App.show_filter, bind at 1 2 3, setitem, spinner_hide, App.create_filter_ui.
    unfold bind at 1 2 3, has_key, get_records, params_names_of.
    unfold bind at 1, getitem, setitem, ret. simpl.
    repeat (rewrite lookup_insert_eq; simpl). reflexivity. }
  rewrite Hrun.
  assert (Hg : guards (fun m => m !! "filter_ui" = Some tbl)
                 (set_visibility "arrow_sport_ui" false ;; set_visibility "arrow_filter_ui" true ;;
                  set_enabled "sport_ui" false)).
  { guards_writes; intros; by rewrite lookup_insert_ne. }
  apply (Hg w1). unfold w1. simpl. by rewrite lookup_insert_eq.
Qed.

(** C4. For a fetched parameter-record sequence of length [n], the filter
    rows carry the ids [1..n] in input order, each row being the input
    record with its id set (for every [n], 0 included); and these are the
    rows the SportSelect transition produces from a non-empty sequence: the
    rows stored under ['filter_rows'] by [_data.py] and the rows of the
    table built by [app.py]. *)
Theorem filter_rows_dense_ids (all_params : list record) :
  length (filter_rows all_params) = length all_params
  /\ map (dict_get "id") (filter_rows all_params)
     = map (fun i => Some (PInt (Z.of_nat i))) (seq 1 (length all_params))
  /\ (forall (i : nat) (param : record), all_params !! i = Some param ->
        filter_rows all_params !! i = Some (dict_set "id" (PInt (Z.of_nat i + 1)) param)
        /\ forall k, k <> "id" ->
             dict_get k (dict_set "id" (PInt (Z.of_nat i + 1)) param) = dict_get k param)
  /\ (all_params <> [] ->
        (forall w, state (after (Data.show_filter all_params w)) !! "filter_rows"
                   = Some (Records (filter_rows all_params)))
        /\ (forall w, rows_of "filter_ui" (after (App.show_filter all_params w))
                      = filter_rows all_params)).
Proof.
  split; [apply filter_rows_length |].
  split; [apply filter_rows_ids |].
  split.
  - intros i param Hi. split.
    + rewrite filter_rows_lookup, Hi. reflexivity.
    + intros k Hk. by apply dict_get_set_ne.
  - intros Hne. destruct all_params as [| p ps]; [done |]. split; intros w.
    + apply data_show_filter_rows.
    + unfold rows_of. by rewrite app_show_filter_rows.
Qed.

Lemma filter_rows_dense_ids_witness :
  filter_rows scenario_a = [[("league", PStr "E0"); ("id", PInt 1)]; [("league", PStr "E1"); ("id", PInt 2)]]
  /\ state (after (Data.show_filter scenario_a Data.boot)) !! "filter_rows"
     = Some (Records (filter_rows scenario_a))
  /\ rows_of "filter_ui" (after (App.show_filter scenario_a App.boot)) = filter_rows scenario_a.
Proof.
  split; [reflexivity |].
  destruct (proj2 (proj2 (proj2 (filter_rows_dense_ids scenario_a)))) as [Hdata Happ];
    [discriminate |].
  split; [apply Hdata | apply Happ].
Defined.

(** ** SportSelect: the three outcomes *)

Lemma issue_params_call x w :
  state w !! "sport_ui" = Some (Widget x) -> value x = PStr "Soccer" ->
  (spinner_show ;; name <- value_of "sport_ui" ;; dataloaders_getitem name) w
  = Ok SoccerDataLoader (emit SpinnerShown w).
Proof.
  intros Hx Hv. unfold bind at 1, spinner_show. unfold bind.
  rewrite (value_of_Some "sport_ui" x) by done. rewrite Hv. reflexivity.
Qed.

Lemma data_select_sport_soccer x w :
  state w !! "sport_ui" = Some (Widget x) -> value x = PStr "Soccer" ->
  Data.select_sport w
  = await (GetAllParams SoccerDataLoader) Data.resume_sport (emit SpinnerShown w).
Proof.
  intros Hx Hv. unfold Data.select_sport, sync at 1.
  rewrite (value_of_Some _ _ _ Hx), Hv. rewrite decide_True by done.
  unfold sync at 1. rewrite (issue_params_call x) by done. reflexivity.
Qed.

Lemma app_select_sport_soccer x w :
  state w !! "sport_ui" = Some (Widget x) -> value x = PStr "Soccer" ->
  App.select_sport w
  = await (GetAllParams SoccerDataLoader) App.resume_sport (emit SpinnerShown w).
Proof.
  intros Hx Hv. unfold App.select_sport, sync at 1.
  rewrite (value_of_Some _ _ _ Hx), Hv. rewrite decide_True by done.
  unfold sync at 1. rewrite (issue_params_call x) by done. reflexivity.
Qed.

Lemma select_sport_other x w :
  state w !! "sport_ui" = Some (Widget x) -> value x <> PStr "Soccer" -> value x <> PNone ->
  Data.select_sport w = Finish (emit (Notify not_yet_supported) w)
  /\ App.select_sport w = Finish (emit (Notify not_yet_supported) w).
Proof.
  intros Hx Hs Hn. unfold Data.select_sport, App.select_sport, sync at 1 3.
  rewrite (value_of_Some _ _ _ Hx).
  destruct (decide (value x = PStr "Soccer")); [done |].
  destruct (decide (value x <> PStr "Soccer" /\ value x <> PNone)) as [_ | Hno]; [done |].
  exfalso. by apply Hno.
Qed.

Lemma select_sport_none x w :
  state w !! "sport_ui" = Some (Widget x) -> value x = PNone ->
  Data.select_sport w = Finish (emit (Notify no_sport_selected) w)
  /\ App.select_sport w = Finish (emit (Notify no_sport_selected) w).
Proof.
  intros Hx Hn. unfold Data.select_sport, App.select_sport, sync at 1 3.
  rewrite (value_of_Some _ _ _ Hx), Hn.
  destruct (decide (PNone = PStr "Soccer")); [done |].
  destruct (decide (PNone <> PStr "Soccer" /\ PNone <> PNone)) as [[_ ?] | _]; done.
Qed.

(** ** The control buttons *)

Ltac use_lookups :=
  repeat match goal with
         | H : state ?w !! ?k = _ |- context [state ?w !! ?k] => rewrite H
         | H : ?m !! ?k = _ |- context [?m !! ?k] => rewrite H
         end.

Ltac run_lookups :=
  repeat (progress
    (rewrite ?lookup_insert_eq;
     rewrite ?lookup_insert_ne by discriminate;
     use_lookups;
     rewrite ?bool_decide_eq_true_2 by assumption;
     rewrite ?bool_decide_eq_false_2 by assumption;
     simpl)).

Ltac run :=
  repeat (progress
    (autounfold with py;
     unfold bind, ret, raise, has_key, getitem, setitem, popitem, get_widget, update_widget,
       with_state, emit;
     simpl; run_lookups)).

Lemma has_buttons_inv w :
  has_buttons w ->
  exists a b c d,
    state w !! "arrow_sport_ui" = Some (Widget a)
    /\ state w !! "arrow_filter_ui" = Some (Widget b)
    /\ state w !! "arrow_extraction_ui" = Some (Widget c)
    /\ state w !! "download_ui" = Some (Widget d).
Proof.
  unfold has_buttons, shown, visibility. simpl. intros H.
  apply Forall_cons in H as [Ha H]. apply Forall_cons in H as [Hb H].
  apply Forall_cons in H as [Hc H]. apply Forall_cons in H as [Hd _].
  destruct (state w !! "arrow_sport_ui") as [[a| | | | | |]|]; try by destruct Ha.
  destruct (state w !! "arrow_filter_ui") as [[b| | | | | |]|]; try by destruct Hb.
  destruct (state w !! "arrow_extraction_ui") as [[c| | | | | |]|]; try by destruct Hc.
  destruct (state w !! "download_ui") as [[d| | | | | |]|]; try by destruct Hd.
  by exists a, b, c, d.
Qed.

Lemma data_show_filter_advances p ps m x w :
  state w !! "mode_ui" = Some (Widget m) ->
  state w !! "sport_ui" = Some (Widget x) ->
  has_buttons w ->
  exists w', Data.show_filter (p :: ps) w = Ok tt w'
             /\ cursor_at 1 w' /\ disabled "sport_ui" w'.
Proof.
  intros Hm Hx (a & b & c & d & Ha & Hb & Hc & Hd)%has_buttons_inv.
  destruct w as [st pg]. simpl in *.
  unfold Data.show_filter, Data.set_buttons_visibility.
  destruct (decide (value m = PStr "Data")); run;
    (eexists; split; [reflexivity |]); split.
  all: unfold cursor_at, shown, visibility, disabled; simpl; run_lookups; try reflexivity.
  all: eexists; split; [reflexivity | done].
Qed.

Lemma app_show_filter_advances p ps x w :
  state w !! "sport_ui" = Some (Widget x) ->
  cursor_at 0 w ->
  exists w', App.show_filter (p :: ps) w = Ok tt w'
             /\ cursor_at 1 w' /\ disabled "sport_ui" w'.
Proof.
  intros Hx Hcur.
  assert (Hb : has_buttons w).
  { unfold has_buttons. rewrite Hcur. repeat constructor; eexists; reflexivity. }
  destruct (has_buttons_inv w Hb) as (a & b & c & d & Ha & Hb' & Hc & Hd).
  unfold cursor_at, shown, visibility in Hcur. simpl in Hcur. rewrite Ha, Hb', Hc, Hd in Hcur.
  injection Hcur as Hva Hvb Hvc Hvd.
  destruct w as [st pg]. simpl in *.
  unfold App.show_filter. run.
  eexists; split; [reflexivity |]. split.
  - unfold cursor_at, shown, visibility; simpl; run_lookups. by rewrite Hvc, Hvd.
  - unfold disabled; simpl; run_lookups. eexists; split; [reflexivity | done].
Qed.

(** C3. The advance of SportSelect has three outcomes, by the value of the
    sport control: ['Soccer'] issues the parameter fetch, and its records
    (at least one) move the cursor to the filter stage and disable the sport
    control; any other value that is not [None] only notifies that Soccer is
    the one available sport; [None] only notifies that a sport must be
    selected.  The two notifying outcomes leave [state] as it was. *)
Theorem select_sport_trichotomy (x : widget) (w : World) :
  state w !! "sport_ui" = Some (Widget x) ->
  (value x = PStr "Soccer" ->
     Data.select_sport w
     = await (GetAllParams SoccerDataLoader) Data.resume_sport (emit SpinnerShown w)
     /\ App.select_sport w
        = await (GetAllParams SoccerDataLoader) App.resume_sport (emit SpinnerShown w)
     /\ (forall p ps m x' w',
           state w' !! "mode_ui" = Some (Widget m) ->
           state w' !! "sport_ui" = Some (Widget x') ->
           has_buttons w' ->
           exists w'', Data.resume_sport (RetRecords (p :: ps)) w' = Finish w''
                       /\ cursor_at 1 w'' /\ disabled "sport_ui" w'')
     /\ (forall p ps x' w',
           state w' !! "sport_ui" = Some (Widget x') ->
           cursor_at 0 w' ->
           exists w'', App.resume_sport (RetRecords (p :: ps)) w' = Finish w''
                       /\ cursor_at 1 w'' /\ disabled "sport_ui" w''))
  /\ (value x <> PStr "Soccer" -> value x <> PNone ->
        Data.select_sport w = Finish (emit (Notify not_yet_supported) w)
        /\ App.select_sport w = Finish (emit (Notify not_yet_supported) w))
  /\ (value x = PNone ->
        Data.select_sport w = Finish (emit (Notify no_sport_selected) w)
        /\ App.select_sport w = Finish (emit (Notify no_sport_selected) w)).
Proof.
  intros Hx. split; [| split].
  - intros Hv.
    split; [by apply (data_select_sport_soccer x) |].
    split; [by apply (app_select_sport_soccer x) |].
    split.
    + intros p ps m x' w' Hm Hx' Hb.
      destruct (data_show_filter_advances p ps m x' w' Hm Hx' Hb) as (w'' & Hrun & Hcur & Hdis).
      exists w''. split; [| done].
      unfold Data.resume_sport, finish, sync. by rewrite Hrun.
    + intros p ps x' w' Hx' Hcur.
      destruct (app_show_filter_advances p ps x' w' Hx' Hcur) as (w'' & Hrun & Hcur' & Hdis).
      exists w''. split; [| done].
      unfold App.resume_sport, finish, sync. by rewrite Hrun.
  - intros Hs Hn. by apply (select_sport_other x).
  - intros Hn. by apply (select_sport_none x).
Qed.

Lemma select_sport_trichotomy_witness :
  Data.select_sport scenario_b = Finish (emit (Notify not_yet_supported) scenario_b)
  /\ shown (emit (Notify not_yet_supported) scenario_b) = shown scenario_b.
Proof.
  split; [| reflexivity].
  apply (proj1 (proj2 (select_sport_trichotomy
                         (with_value (PStr "NBA") new_sport_radio) scenario_b eq_refl)));
    discriminate.
Defined.

(** ** FilterSelect: the selection and the parameter grid *)

Lemma grid_of_row_get name (row : record) :
  dict_get name (grid_of_row row)
  = if decide (name = "id") then None else (fun v => [v]) <$> dict_get name row.
Proof.
  unfold grid_of_row. induction row as [| [k v] row IH].
  - simpl. by destruct (decide (name = "id")).
  - rewrite filter_cons. simpl. rewrite (dict_get_cons name k v row).
    destruct (decide (k <> "id")) as [Hk | Hk].
    + simpl. rewrite dict_get_cons, IH.
      destruct (decide (k = name)) as [<- | Hne]; [by rewrite decide_False | done].
    + apply dec_stable in Hk. subst k. rewrite IH.
      destruct (decide (name = "id")) as [-> | Hne]; [done |].
      by rewrite decide_False.
Qed.

Lemma select_filter_empty x cols rows w :
  state w !! "filter_ui" = Some (Widget x) -> elem x = Table cols rows [] ->
  Data.select_filter w = Finish (emit (Notify no_row_selected) w)
  /\ App.select_filter w = Finish (emit (Notify no_row_selected) w).
Proof.
  intros Hx He. unfold Data.select_filter, App.select_filter, sync at 1 3, selected_of, bind.
  rewrite (get_widget_Some _ _ _ Hx), He. done.
Qed.

Lemma build_dataloader_run s cls sel w :
  state w !! "sport_ui" = Some (Widget s) ->
  dict_get (value s) DATALOADERS = Some cls ->
  let dl := {| loader_cls := cls; param_grid := make_param_grid sel |} in
  Data.build_dataloader sel w
  = Ok dl (emit SpinnerShown (with_state (insert "dataloader" (DataLoader dl)) w))
  /\ App.build_dataloader sel w
     = Ok dl (emit SpinnerShown (with_state (insert "dataloader" (DataLoader dl)) w)).
Proof.
  intros Hs Hcls dl. destruct w as [st pg]. simpl in *.
  unfold Data.build_dataloader, App.build_dataloader. run. rewrite Hcls. run. done.
Qed.

Lemma select_filter_chosen x cols rows r sel s cls w :
  state w !! "filter_ui" = Some (Widget x) -> elem x = Table cols rows (r :: sel) ->
  state w !! "sport_ui" = Some (Widget s) ->
  dict_get (value s) DATALOADERS = Some cls ->
  let dl := {| loader_cls := cls; param_grid := make_param_grid (r :: sel) |} in
  let w1 := emit SpinnerShown (with_state (insert "dataloader" (DataLoader dl)) w) in
  Data.select_filter w = await (GetOddsTypes dl) Data.resume_filter w1
  /\ App.select_filter w = await (GetOddsTypes dl) App.resume_filter w1.
Proof.
  intros Hx He Hs Hcls dl w1.
  destruct (build_dataloader_run s cls (r :: sel) w Hs Hcls) as [HD HA].
  unfold Data.select_filter, App.select_filter, sync at 1 3, selected_of, bind.
  rewrite (get_widget_Some _ _ _ Hx), He. simpl.
  unfold sync. rewrite HD, HA. done.
Qed.

(** C5. The advance of FilterSelect needs a selected row.  With no row
    selected it only notifies that a row must be selected: [state] is as
    before and no dataloader is built.  With at least one row selected it
    stores the dataloader of the selected sport built from the parameter
    grid and issues the odds-type fetch; the grid has one entry per selected
    row, in which every field of the row but ['id'] is mapped, under its own
    name, to the list of its one value. *)
Theorem select_filter_requires_rows (x : widget) (cols rows sel : list record) (w : World) :
  state w !! "filter_ui" = Some (Widget x) -> elem x = Table cols rows sel ->
  (sel = [] ->
     Data.select_filter w = Finish (emit (Notify no_row_selected) w)
     /\ App.select_filter w = Finish (emit (Notify no_row_selected) w))
  /\ (sel <> [] -> forall s cls,
        state w !! "sport_ui" = Some (Widget s) ->
        dict_get (value s) DATALOADERS = Some cls ->
        let dl := {| loader_cls := cls; param_grid := make_param_grid sel |} in
        let w1 := emit SpinnerShown (with_state (insert "dataloader" (DataLoader dl)) w) in
        Data.select_filter w = await (GetOddsTypes dl) Data.resume_filter w1
        /\ App.select_filter w = await (GetOddsTypes dl) App.resume_filter w1
        /\ length (param_grid dl) = length sel
        /\ forall (i : nat) (row : record), sel !! i = Some row ->
             exists g, param_grid dl !! i = Some g
                       /\ dict_get "id" g = None
                       /\ forall name, name <> "id" ->
                            dict_get name g = (fun v => [v]) <$> dict_get name row).
Proof.
  intros Hx He. split.
  - intros ->. by apply (select_filter_empty x cols rows).
  - intros Hne s cls Hs Hcls dl w1. destruct sel as [| r sel]; [done |].
    destruct (select_filter_chosen x cols rows r sel s cls w Hx He Hs Hcls) as [HD HA].
    split; [exact HD |]. split; [exact HA |]. split.
    + unfold dl, make_param_grid. simpl. by rewrite length_map.
    + intros i row Hi. exists (grid_of_row row). split.
      * change (param_grid dl) with (map grid_of_row (r :: sel)).
        by rewrite list_lookup_map, Hi.
      * split; [by rewrite grid_of_row_get |].
        intros name Hname. rewrite grid_of_row_get. by rewrite decide_False.
Qed.

Lemma select_filter_requires_rows_witness :
  (Data.select_filter at_filter = Finish (emit (Notify no_row_selected) at_filter))
  /\ exists w1,
       Data.select_filter at_filter_chosen
       = await (GetOddsTypes {| loader_cls := SoccerDataLoader;
                                param_grid := [[("league", [PStr "E1"])]] |})
           Data.resume_filter w1.
Proof.
  split.
  - destruct (select_filter_requires_rows
                (new_table ([id_column] ++ map param_column ["league"]) (filter_rows scenario_a))
                ([id_column] ++ map param_column ["league"]) (filter_rows scenario_a) []
                at_filter eq_refl eq_refl) as [Hempty _].
    apply Hempty. reflexivity.
  - destruct (select_filter_requires_rows
                (with_selected [row_e1]
                   (new_table ([id_column] ++ map param_column ["league"]) (filter_rows scenario_a)))
                ([id_column] ++ map param_column ["league"]) (filter_rows scenario_a) [row_e1]
                at_filter_chosen eq_refl eq_refl) as [_ Hsel].
    destruct (Hsel ltac:(discriminate)
                (with_enabled false (with_value (PStr "Soccer") new_sport_radio))
                SoccerDataLoader eq_refl eq_refl) as [HD _].
    eexists. exact HD.
Defined.

(** ** The odds-type sentinel *)

Section dict_keys_facts.
Context {K V : Type} `{EqDecision K}.

Lemma dict_keys_set k k' (v : V) (d : list (K * V)) :
  k' ∈ dict_keys (dict_set k v d) -> k' = k \/ k' ∈ dict_keys d.
Proof.
  induction d as [| [k0 v0] d IH]; simpl.
  - intros ->%list_elem_of_singleton. by left.
  - destruct (decide (k0 = k)) as [-> | Hne]; simpl.
    + intros [-> | Hin]%elem_of_cons; [by left | right; by apply list_elem_of_further].
    + intros [-> | Hin]%elem_of_cons; [right; apply list_elem_of_here |].
      destruct (IH Hin) as [-> | Hd]; [by left | right; by apply list_elem_of_further].
Qed.

Lemma dict_keys_update k' (d e : list (K * V)) :
  k' ∈ dict_keys (dict_update d e) -> k' ∈ dict_keys d \/ k' ∈ dict_keys e.
Proof.
  unfold dict_update. revert d. induction e as [| [k v] e IH]; intros d; simpl.
  - by left.
  - intros Hin. destruct (IH _ Hin) as [Hd | He].
    + destruct (dict_keys_set _ _ _ _ Hd) as [-> | Hd'].
      * right. apply list_elem_of_here.
      * by left.
    + right. by apply list_elem_of_further.
Qed.

End dict_keys_facts.

Lemma odds_mapping_no_none odds_types : dict_get PNone (odds_mapping odds_types) = None.
Proof.
  apply dict_get_None. intros Hin.
  destruct (dict_keys_update _ _ _ Hin) as [Hnil | Hmap].
  - by apply elem_of_nil in Hnil.
  - unfold dict_keys in Hmap. rewrite map_map in Hmap. simpl in Hmap.
    apply list_elem_of_map in Hmap as (ot & Hot & _). discriminate.
Qed.

Lemma data_show_extraction_writes odds_types w :
  state (after (Data.show_extraction odds_types w)) !! "odds_types" = Some (Strs odds_types)
  /\ state (after (Data.show_extraction odds_types w)) !! "odds_types_mapping"
     = Some (Mapping (displayed_mapping odds_types)).
Proof.
  set (I := fun m : gmap string obj =>
              m !! "odds_types" = Some (Strs odds_types)
              /\ m !! "odds_types_mapping" = Some (Mapping (displayed_mapping odds_types))).
  set (w1 := with_state (insert "odds_types_mapping" (Mapping (displayed_mapping odds_types)))
              (with_state (insert "odds_types_mapping" (Mapping (odds_mapping odds_types)))
                (emit SpinnerHidden (with_state (insert "odds_types" (Strs odds_types)) w)))).
  assert (Hrun : Data.show_extraction odds_types w
                 = (Data.create_extraction_ui ;; Data.create_control_ui ;;
                    Data.set_buttons_visibility 2 ;; add_props "filter_ui" "disabled") w1).
  { destruct w as [st pg]. unfold Data.show_extraction, w1.
    unfold bind at 1 2 3 4 5 6, setitem, spinner_hide, get_strs, get_mapping.
    unfold bind at 1 2, getitem. simpl. run_lookups. reflexivity. }
  rewrite Hrun.
  assert (Hg : guards I (Data.create_extraction_ui ;; Data.create_control_ui ;;
                         Data.set_buttons_visibility 2 ;; add_props "filter_ui" "disabled")).
  { guards_writes; unfold I; intros; destruct_and!; split; by rewrite lookup_insert_ne. }
  apply (Hg w1). unfold I, w1. simpl. run_lookups. done.
Qed.

Lemma select_extraction_issues dl sel t w :
  state w !! "dataloader" = Some (DataLoader dl) ->
  state w !! "odds_type_ui" = Some (Widget sel) ->
  state w !! "drop_na_thres_ui" = Some (Widget t) ->
  Data.select_extraction w
  = await (ExtractTrainData dl (value sel) (value t)) Data.resume_train (emit SpinnerShown w)
  /\ App.select_extraction w
     = await (ExtractTrainData dl (value sel) (value t)) App.resume_train (emit SpinnerShown w).
Proof.
  intros Hdl Hsel Ht. destruct w as [st pg]. simpl in *.
  unfold Data.select_extraction, App.select_extraction, sync.
  assert (HD : (spinner_show ;; Data.train_call) {| state := st; page := pg |}
               = Ok (ExtractTrainData dl (value sel) (value t))
                   (emit SpinnerShown {| state := st; page := pg |})).
  { unfold Data.train_call. run. reflexivity. }
  assert (HA : (spinner_show ;; App.get_train_data) {| state := st; page := pg |}
               = Ok (ExtractTrainData dl (value sel) (value t))
                   (emit SpinnerShown {| state := st; page := pg |})).
  { unfold App.get_train_data. run. reflexivity. }
  rewrite HD, HA. done.
Qed.

Lemma dict_get_Some_key {K V : Type} `{EqDecision K} (k : K) (v : V) (d : list (K * V)) :
  dict_get k d = Some v -> k ∈ dict_keys d.
Proof.
  intros Hget. destruct (decide (k ∈ dict_keys d)) as [| Hno]; [done |].
  apply dict_get_None in Hno. congruence.
Qed.

Lemma pick_odds_type k sel opts w :
  state w !! "odds_type_ui" = Some (Widget sel) ->
  elem sel = Select opts ->
  editable "odds_type_ui" w = true ->
  k ∈ dict_keys opts ->
  Data.step w (Data.PickOddsType k)
  = with_state (insert "odds_type_ui" (Widget (with_value k sel))) w.
Proof.
  intros Hsel He Hed Hk. unfold Data.step. rewrite Hed.
  unfold options_of. rewrite Hsel, He. rewrite bool_decide_eq_true_2 by done. simpl.
  unfold set_value. by rewrite (update_widget_Some _ _ sel).
Qed.

(** C6. The sentinel entry is added to the displayed mapping only: after
    the FilterSelect transition ['odds_types'] holds the fetched sequence as
    fetched, and ['odds_types_mapping'] holds one label per fetched odds
    type and, under the key [None], the label ['No Odds'].  When the user
    picks the sentinel entry of the selector, the value of the selector is
    [None], and [extract_train_data] is called with [odds_type = None]. *)
Theorem no_odds_sentinel (odds_types : list string) :
  (forall w,
     state (after (Data.show_extraction odds_types w)) !! "odds_types" = Some (Strs odds_types)
     /\ state (after (Data.show_extraction odds_types w)) !! "odds_types_mapping"
        = Some (Mapping (displayed_mapping odds_types)))
  /\ dict_get PNone (displayed_mapping odds_types) = Some "No Odds"
  /\ dict_get PNone (odds_mapping odds_types) = None
  /\ (forall k, k <> PNone ->
        dict_get k (displayed_mapping odds_types) = dict_get k (odds_mapping odds_types))
  /\ (forall w sel dl t,
        state w !! "odds_type_ui" = Some (Widget sel) ->
        elem sel = Select (displayed_mapping odds_types) ->
        editable "odds_type_ui" w = true ->
        state w !! "dataloader" = Some (DataLoader dl) ->
        state w !! "drop_na_thres_ui" = Some (Widget t) ->
        let w1 := Data.step w (Data.PickOddsType PNone) in
        Data.select_extraction w1
        = await (ExtractTrainData dl PNone (value t)) Data.resume_train (emit SpinnerShown w1)).
Proof.
  split; [apply data_show_extraction_writes |].
  assert (Hsentinel : dict_get PNone (displayed_mapping odds_types) = Some "No Odds").
  { unfold displayed_mapping, dict_update. simpl. apply dict_get_set_eq. }
  split; [exact Hsentinel |].
  split; [apply odds_mapping_no_none |].
  split.
  - intros k Hk. unfold displayed_mapping, dict_update. simpl. by apply dict_get_set_ne.
  - intros w sel dl t Hsel He Hed Hdl Ht w1.
    assert (Hw1 : w1 = with_state (insert "odds_type_ui" (Widget (with_value PNone sel))) w).
    { apply (pick_odds_type PNone sel (displayed_mapping odds_types)); try done.
      by apply (dict_get_Some_key PNone "No Odds"). }
    destruct (select_extraction_issues dl (with_value PNone sel) t w1) as [HD _].
    + rewrite Hw1. simpl. by rewrite lookup_insert_ne.
    + rewrite Hw1. simpl. by rewrite lookup_insert_eq.
    + rewrite Hw1. simpl. by rewrite lookup_insert_ne.
    + exact HD.
Qed.

Lemma no_odds_sentinel_witness :
  let w1 := Data.step at_extraction (Data.PickOddsType PNone) in
  Data.select_extraction w1
  = await (ExtractTrainData loader_e1 PNone (PFloat (QArith_base.Qmake 0 1)))
      Data.resume_train (emit SpinnerShown w1).
Proof.
  apply (proj2 (proj2 (proj2 (proj2 (no_odds_sentinel ["market_average"; "market_maximum"]))))
           at_extraction
           (new_widget (Select (displayed_mapping ["market_average"; "market_maximum"]))
              no_callback (PStr "market_average"))
           loader_e1 new_threshold eq_refl eq_refl eq_refl eq_refl eq_refl).
Defined.

(** ** Export *)

Lemma download_dataloader_run save dl w :
  state w !! "dataloader" = Some (DataLoader dl) ->
  download_dataloader save w
  = match save dl with
    | inl e => Err e w
    | inr content => Ok tt (emit (Download content "dataloader.pkl") w)
    end.
Proof.
  intros Hdl. unfold download_dataloader, get_loader, bind.
  rewrite (getitem_Some _ _ _ Hdl). simpl. by destruct (save dl).
Qed.

Lemma download_dataloader_state save w : state (after (download_dataloader save w)) = state w.
Proof.
  unfold download_dataloader, get_loader, bind, getitem.
  destruct (state w !! "dataloader") as [[| | | | dl | |] |]; simpl; try done.
  by destruct (save dl).
Qed.

(** C8. Export sends the bytes that saving the dataloader gives, under the
    name ['dataloader.pkl']: they are a function of the dataloader (its
    class and parameter grid) alone, whatever tables [state] holds.  It
    leaves every key of [state] as it was, however often it is invoked. *)
Theorem export_leaves_state (save : loader -> exn + list ascii) (w : World) :
  (forall dl, state w !! "dataloader" = Some (DataLoader dl) ->
     Data.select_download save w
     = match save dl with
       | inl e => Err e w
       | inr content => Ok tt (emit (Download content "dataloader.pkl") w)
       end
     /\ App.download_data save w = Data.select_download save w)
  /\ state (after (Data.select_download save w)) = state w
  /\ state (after (App.download_data save w)) = state w
  /\ (forall n : nat,
        state (Nat.iter n (fun w' => after (Data.select_download save w')) w) = state w
        /\ state (Nat.iter n (fun w' => after (App.download_data save w')) w) = state w).
Proof.
  split; [| split; [| split]].
  - intros dl Hdl. split; [by apply download_dataloader_run | reflexivity].
  - apply download_dataloader_state.
  - apply download_dataloader_state.
  - intros n. induction n as [| n [IHd IHa]]; [done |]. simpl. split.
    + unfold Data.select_download at 1. by rewrite download_dataloader_state.
    + unfold App.download_data at 1. by rewrite download_dataloader_state.
Qed.

Lemma export_leaves_state_witness :
  Data.select_download save_name at_export
  = Ok tt (emit (Download ["S"%char] "dataloader.pkl") at_export).
Proof.
  apply (proj1 (proj1 (export_leaves_state save_name at_export) loader_e1 eq_refl)).
Defined.

(** ** Handlers run alone *)

Lemma run_alone_await env c k w :
  run_alone env (await c k w)
  = match answer env c with
    | inl e => (w, Some e)
    | inr v => run_alone env (k v w)
    end.
Proof. simpl. by destruct (answer env c). Qed.

Lemma run_alone_finish env m w :
  run_alone env (finish m w)
  = match m w with
    | Ok _ w' => (w', None)
    | Err e w' => (w', Some e)
    end.
Proof. unfold finish, sync. by destruct (m w). Qed.

Lemma run_alone_sync {A} env (m : M A) k w :
  run_alone env (sync m k w)
  = match m w with
    | Ok a w' => run_alone env (k a w')
    | Err e w' => (w', Some e)
    end.
Proof. unfold sync. by destruct (m w). Qed.

Lemma visibility_insert k o m :
  k ∉ Data.buttons_ui -> visibility (<[k:=o]> m) = visibility m.
Proof.
  intros Hk. unfold visibility. apply map_ext_in. intros b Hb.
  rewrite lookup_insert_ne; [done |]. intros ->. apply Hk. by apply list_elem_of_In.
Qed.

Lemma visibility_delete k m :
  k ∉ Data.buttons_ui -> visibility (delete k m) = visibility m.
Proof.
  intros Hk. unfold visibility. apply map_ext_in. intros b Hb.
  rewrite lookup_delete_ne; [done |]. intros ->. apply Hk. by apply list_elem_of_In.
Qed.

Lemma shown_insert k o w :
  k ∉ Data.buttons_ui -> shown (with_state (insert k o) w) = shown w.
Proof. intros Hk. by apply visibility_insert. Qed.

Lemma shown_emit e w : shown (emit e w) = shown w.
Proof. reflexivity. Qed.

Ltac not_a_button :=
  unfold Data.buttons_ui; intros Hin;
  repeat (apply elem_of_cons in Hin as [Hin | Hin]; [discriminate |]);
  by apply elem_of_nil in Hin.

(** ** Failure of a fetch *)

Lemma store_train_tables x y o dl w :
  state w !! "dataloader" = Some (DataLoader dl) ->
  (Data.store_tables "X_train" "Y_train" "O_train" x y o ;; Data.fixtures_call) w
  = Ok (ExtractFixturesData dl)
      (with_state (insert "O_train" o)
         (with_state (insert "Y_train" y) (with_state (insert "X_train" x) w))).
Proof.
  intros Hdl. destruct w as [st pg]. simpl in *.
  unfold Data.store_tables, Data.fixtures_call. run. reflexivity.
Qed.

(** C7, as the code has it.  When the external call of a stage fetch
    raises, the exception leaves the handler, nothing is written after the
    failing await and the control buttons stay as they were, so the same
    transition can be tried again.  What was written before the failing
    call stays: nothing for the parameter fetch and for the training-data
    fetch, the dataloader for the odds-type fetch, and the three
    training-table fields for the fixtures fetch. *)
Theorem fetch_failure_keeps_earlier_writes (env : Env) (e : exn) (w : World) :
  (forall x,
     state w !! "sport_ui" = Some (Widget x) -> value x = PStr "Soccer" ->
     get_all_params env SoccerDataLoader = inl e ->
     run_alone env (Data.select_sport w) = (emit SpinnerShown w, Some e))
  /\ (forall x cols rows r sel s cls,
        state w !! "filter_ui" = Some (Widget x) -> elem x = Table cols rows (r :: sel) ->
        state w !! "sport_ui" = Some (Widget s) ->
        dict_get (value s) DATALOADERS = Some cls ->
        let dl := {| loader_cls := cls; param_grid := make_param_grid (r :: sel) |} in
        let w' := emit SpinnerShown (with_state (insert "dataloader" (DataLoader dl)) w) in
        get_odds_types env dl = inl e ->
        run_alone env (Data.select_filter w) = (w', Some e) /\ shown w' = shown w)
  /\ (forall dl sel t,
        state w !! "dataloader" = Some (DataLoader dl) ->
        state w !! "odds_type_ui" = Some (Widget sel) ->
        state w !! "drop_na_thres_ui" = Some (Widget t) ->
        (extract_train_data env dl (value sel) (value t) = inl e ->
           run_alone env (Data.select_extraction w) = (emit SpinnerShown w, Some e))
        /\ (forall x y o,
              extract_train_data env dl (value sel) (value t) = inr (x, y, o) ->
              extract_fixtures_data env dl = inl e ->
              let w' := with_state (insert "O_train" o)
                          (with_state (insert "Y_train" y)
                             (with_state (insert "X_train" x) (emit SpinnerShown w))) in
              run_alone env (Data.select_extraction w) = (w', Some e)
              /\ shown w' = shown w)).
Proof.
  split; [| split].
  - intros x Hx Hv Hfail.
    rewrite (data_select_sport_soccer x) by done.
    rewrite run_alone_await. unfold answer, reply. by rewrite Hfail.
  - intros x cols rows r sel s cls Hx He Hs Hcls dl w' Hfail.
    destruct (select_filter_chosen x cols rows r sel s cls w Hx He Hs Hcls) as [HD _].
    subst dl w'. rewrite HD, run_alone_await. unfold answer, reply. rewrite Hfail.
    split; [done |].
    rewrite shown_emit. apply shown_insert. not_a_button.
  - intros dl sel t Hdl Hsel Ht.
    destruct (select_extraction_issues dl sel t w Hdl Hsel Ht) as [HD _].
    split.
    + intros Hfail. rewrite HD, run_alone_await. unfold answer, reply. by rewrite Hfail.
    + intros x y o Htrain Hfail w'.
      rewrite HD, run_alone_await. unfold answer at 1, reply. rewrite Htrain.
      unfold Data.resume_train, tables. simpl fst. simpl snd.
      rewrite run_alone_sync, (store_train_tables x y o dl) by done.
      rewrite run_alone_await. unfold answer, reply. rewrite Hfail. split; [done |].
      subst w'. rewrite !shown_insert by not_a_button. apply shown_emit.
Qed.

Lemma fetch_failure_keeps_earlier_writes_witness :
  exists w',
    run_alone env_fixtures_fail (Data.select_extraction at_extraction)
    = (w', Some (ExternalError "fixtures"))
    /\ shown w' = shown at_extraction.
Proof.
  destruct (proj2 (proj2 (fetch_failure_keeps_earlier_writes
                            env_fixtures_fail (ExternalError "fixtures") at_extraction))
              loader_e1
              (new_widget (Select (displayed_mapping ["market_average"; "market_maximum"]))
                 no_callback (PStr "market_average"))
              new_threshold eq_refl eq_refl eq_refl) as [_ Hfix].
  eexists. apply (Hfix _ _ _ eq_refl eq_refl).
Defined.

(** The claim as the specification states it fails: after the fixtures call
    has raised, the three training-table fields are in [state]. *)
Lemma fixtures_failure_leaves_training_tables :
  let w := at_extraction in
  let w' := fst (run_alone env_fixtures_fail (Data.select_extraction w)) in
  snd (run_alone env_fixtures_fail (Data.select_extraction w)) = Some (ExternalError "fixtures")
  /\ state w !! "X_train" = None
  /\ state w' !! "X_train" = Some (Frame {| df_columns := ["home_team__points"]; df_records := [] |})
  /\ is_Some (state w' !! "Y_train") /\ is_Some (state w' !! "O_train")
  /\ state w' <> state w.
Proof.
  assert (HX : state (fst (run_alone env_fixtures_fail (Data.select_extraction at_extraction)))
               !! "X_train"
               = Some (Frame {| df_columns := ["home_team__points"]; df_records := [] |})).
  { vm_compute. reflexivity. }
  assert (HN : state at_extraction !! "X_train" = None).
  { vm_compute. reflexivity. }
  cbv zeta. split; [vm_compute; reflexivity |]. split; [exact HN |]. split; [exact HX |].
  split; [vm_compute; eexists; reflexivity |]. split; [vm_compute; eexists; reflexivity |].
  intros Heq. rewrite Heq in HX. rewrite HN in HX. clear Heq. discriminate HX.
Qed.

(** ** The extraction configuration needs an odds type *)

Lemma first_odds_type_fails odds_types w :
  (exists w', first_odds_type odds_types w = Err IndexError w') <-> odds_types = [].
Proof.
  split.
  - intros [w' H]. destruct odds_types; [done | discriminate].
  - intros ->. by exists w.
Qed.

Lemma data_show_extraction_empty m dl w :
  state w !! "mode_ui" = Some (Widget m) -> value m = PStr "Data" ->
  state w !! "dataloader" = Some (DataLoader dl) ->
  exists w', Data.show_extraction [] w = Err IndexError w' /\ shown w' = shown w.
Proof.
  intros Hm Hv Hdl. destruct w as [st pg]. simpl in *.
  unfold Data.show_extraction. run.
  eexists. split; [reflexivity |].
  unfold shown, visibility. simpl. run_lookups. reflexivity.
Qed.

Lemma data_show_extraction_not_built odds_types m f w :
  state w !! "mode_ui" = Some (Widget m) -> value m <> PStr "Data" ->
  state w !! "filter_ui" = Some (Widget f) ->
  has_buttons w ->
  exists w', Data.show_extraction odds_types w = Ok tt w' /\ cursor_at 2 w'.
Proof.
  intros Hm Hv Hf (a & b & c & d & Ha & Hb & Hc & Hd)%has_buttons_inv.
  destruct w as [st pg]. simpl in *.
  unfold Data.show_extraction, Data.set_buttons_visibility. run.
  eexists; split; [reflexivity |].
  unfold cursor_at, shown, visibility; simpl; run_lookups; reflexivity.
Qed.

Lemma data_show_extraction_advances ot l m f w :
  state w !! "mode_ui" = Some (Widget m) ->
  state w !! "filter_ui" = Some (Widget f) ->
  has_buttons w ->
  exists w', Data.show_extraction (ot :: l) w = Ok tt w' /\ cursor_at 2 w'.
Proof.
  intros Hm Hf Hb.
  destruct (decide (value m = PStr "Data")) as [Hv | Hv];
    [| by apply (data_show_extraction_not_built (ot :: l) m f)].
  destruct (has_buttons_inv w Hb) as (a & b & c & d & Ha & Hb' & Hc & Hd).
  destruct w as [st pg]. simpl in *.
  unfold Data.show_extraction, Data.set_buttons_visibility.
  destruct (st !! "dataloader") as [dl |] eqn:Hdl; run;
    (eexists; split; [reflexivity |]).
  all: unfold cursor_at, shown, visibility; simpl; run_lookups; reflexivity.
Qed.

Lemma app_show_extraction_empty w :
  exists w', App.show_extraction [] w = Err IndexError w' /\ shown w' = shown w.
Proof.
  destruct w as [st pg]. unfold App.show_extraction. run.
  eexists. split; [reflexivity |].
  unfold shown, visibility. simpl. run_lookups. reflexivity.
Qed.

Lemma app_show_extraction_advances ot l f w :
  state w !! "filter_ui" = Some (Widget f) ->
  cursor_at 1 w ->
  exists w', App.show_extraction (ot :: l) w = Ok tt w' /\ cursor_at 2 w'.
Proof.
  intros Hf Hcur.
  assert (Hb : has_buttons w).
  { unfold has_buttons. rewrite Hcur. repeat constructor; eexists; reflexivity. }
  destruct (has_buttons_inv w Hb) as (a & b & c & d & Ha & Hb' & Hc & Hd).
  unfold cursor_at, shown, visibility in Hcur. simpl in Hcur. rewrite Ha, Hb', Hc, Hd in Hcur.
  injection Hcur as Hva Hvb Hvc Hvd.
  destruct w as [st pg]. simpl in *.
  unfold App.show_extraction. run.
  eexists; split; [reflexivity |].
  unfold cursor_at, shown, visibility; simpl; run_lookups. by rewrite Hva, Hvd.
Qed.

(** C10, as the code has it.  The default of the odds-type selector is
    element 0 of the fetched sequence, which has no value exactly when the
    sequence is empty.  Where the extraction UI is built (in [app.py]
    always; in [_data.py] while the mode toggle reads ['Data'] and the
    dataloader is in [state]) an empty result of the odds-type fetch ends
    the FilterSelect transition with [IndexError], the control buttons as
    before, and a non-empty one completes it with the extraction arrow the
    one visible control.  In [_data.py] with the mode toggle on another
    value the extraction UI is not built, and the transition completes
    whatever the fetched sequence. *)
Theorem extraction_ui_needs_odds_types (odds_types : list string) (w : World) :
  ((exists w', first_odds_type odds_types w = Err IndexError w') <-> odds_types = [])
  /\ (forall m dl f,
        state w !! "mode_ui" = Some (Widget m) -> value m = PStr "Data" ->
        state w !! "dataloader" = Some (DataLoader dl) ->
        state w !! "filter_ui" = Some (Widget f) ->
        has_buttons w ->
        (odds_types = [] ->
           exists w', Data.resume_filter (RetStrs odds_types) w = Throw IndexError w'
                      /\ shown w' = shown w)
        /\ (odds_types <> [] ->
              exists w', Data.resume_filter (RetStrs odds_types) w = Finish w'
                         /\ cursor_at 2 w'))
  /\ (forall m f,
        state w !! "mode_ui" = Some (Widget m) -> value m <> PStr "Data" ->
        state w !! "filter_ui" = Some (Widget f) ->
        has_buttons w ->
        exists w', Data.resume_filter (RetStrs odds_types) w = Finish w' /\ cursor_at 2 w')
  /\ (forall f,
        state w !! "filter_ui" = Some (Widget f) ->
        cursor_at 1 w ->
        (odds_types = [] ->
           exists w', App.resume_filter (RetStrs odds_types) w = Throw IndexError w'
                      /\ shown w' = shown w)
        /\ (odds_types <> [] ->
              exists w', App.resume_filter (RetStrs odds_types) w = Finish w'
                         /\ cursor_at 2 w')).
Proof.
  split; [apply first_odds_type_fails |]. split.
  - intros m dl f Hm Hv Hdl Hf Hb. split.
    + intros ->. destruct (data_show_extraction_empty m dl w Hm Hv Hdl) as (w' & Hrun & Hs).
      exists w'. split; [| done]. unfold Data.resume_filter, finish, sync. by rewrite Hrun.
    + intros Hne. destruct odds_types as [| ot l]; [done |].
      destruct (data_show_extraction_advances ot l m f w Hm Hf Hb) as (w' & Hrun & Hcur).
      exists w'. split; [| done]. unfold Data.resume_filter, finish, sync. by rewrite Hrun.
  - split.
    { intros m f Hm Hv Hf Hb.
      destruct (data_show_extraction_not_built odds_types m f w Hm Hv Hf Hb) as (w' & Hrun & Hcur).
      exists w'. split; [| done]. unfold Data.resume_filter, finish, sync. by rewrite Hrun. }
    intros f Hf Hcur. split.
    + intros ->. destruct (app_show_extraction_empty w) as (w' & Hrun & Hs).
      exists w'. split; [| done]. unfold App.resume_filter, finish, sync. by rewrite Hrun.
    + intros Hne. destruct odds_types as [| ot l]; [done |].
      destruct (app_show_extraction_advances ot l f w Hf Hcur) as (w' & Hrun & Hcur').
      exists w'. split; [| done]. unfold App.resume_filter, finish, sync. by rewrite Hrun.
Qed.

Lemma extraction_ui_needs_odds_types_witness :
  exists w', Data.resume_filter (RetStrs []) awaiting_odds_types = Throw IndexError w'
             /\ shown w' = shown awaiting_odds_types.
Proof.
  apply (proj1 (proj2 (extraction_ui_needs_odds_types [] awaiting_odds_types))
           (with_value (PStr "Data")
              (new_widget (Toggle [PStr "Data"; PStr "Betting"]) on_select_mode PNone))
           loader_e1
           (with_selected [row_e1]
              (new_table ([id_column] ++ map param_column ["league"]) (filter_rows scenario_a)))
           ltac:(vm_compute; reflexivity) eq_refl
           ltac:(vm_compute; reflexivity) ltac:(vm_compute; reflexivity)
           ltac:(vm_compute; repeat constructor; eexists; reflexivity)).
  reflexivity.
Defined.

(** The claim as the specification states it fails in [_data.py]: with the
    mode toggle moved to ['Betting'] after the rows were selected, the
    extraction UI is not built, and the FilterSelect transition completes on
    an empty odds-type sequence. *)
Lemma empty_odds_types_pass_in_betting_mode :
  snd (run_alone env_no_odds (Data.select_filter at_filter_betting)) = None
  /\ cursor_at 2 (fst (run_alone env_no_odds (Data.select_filter at_filter_betting)))
  /\ state (fst (run_alone env_no_odds (Data.select_filter at_filter_betting))) !! "odds_types"
     = Some (Strs []).
Proof.
  split; [vm_compute; reflexivity |].
  split; [unfold cursor_at; vm_compute; reflexivity | vm_compute; reflexivity].
Qed.

(** ** One control is visible *)

Lemma one_visible_has_buttons w : one_visible (state w) -> has_buttons w.
Proof.
  intros (i & _ & Hi). unfold has_buttons, shown. rewrite Hi.
  repeat constructor; eexists; reflexivity.
Qed.

Lemma one_visible_insert k o m :
  k ∉ Data.buttons_ui -> one_visible m -> one_visible (<[k:=o]> m).
Proof. intros Hk (i & Hlt & Hi). exists i. by rewrite visibility_insert. Qed.

Lemma set_buttons_visibility_cursor (i : nat) w :
  (i < 4)%nat -> has_buttons w ->
  exists w', Data.set_buttons_visibility (Z.of_nat i) w = Ok tt w' /\ cursor_at i w'.
Proof.
  intros Hi (a & b & c & d & Ha & Hb & Hc & Hd)%has_buttons_inv.
  destruct w as [st pg]. simpl in *.
  unfold Data.set_buttons_visibility.
  destruct i as [| [| [| [| i]]]]; [| | | | lia]; run;
    (eexists; split; [reflexivity |]);
    unfold cursor_at, shown, visibility; simpl; run_lookups; reflexivity.
Qed.

Lemma create_control_ui_buttons w :
  has_buttons w ->
  match Data.create_control_ui w with
  | Ok _ w' => has_buttons w'
  | Err _ w' => w' = w
  end.
Proof.
  intros Hb. destruct w as [st pg]. unfold Data.create_control_ui, Data.mode_is_data. run.
  destruct (st !! "mode_ui") as [[m | | | | | |] |] eqn:Hm; simpl; try done.
  destruct (decide (value m = PStr "Data")); run_lookups; [| done].
  unfold has_buttons, shown, visibility. simpl. run_lookups.
  repeat constructor; eexists; reflexivity.
Qed.

Lemma guards_control_then_set (i : nat) (rest : M unit) :
  (i < 4)%nat ->
  guards one_visible rest ->
  guards one_visible
    (Data.create_control_ui ;; Data.set_buttons_visibility (Z.of_nat i) ;; rest).
Proof.
  intros Hi Hrest w HI. unfold bind at 1.
  pose proof (create_control_ui_buttons w (one_visible_has_buttons w HI)) as Hc.
  destruct (Data.create_control_ui w) as [[] w1 | e w1]; [| by subst].
  unfold bind.
  destruct (set_buttons_visibility_cursor i w1 Hi Hc) as (w2 & -> & Hcur).
  apply Hrest. exists i. split; [done | exact Hcur].
Qed.

Ltac one_visible_step :=
  lazymatch goal with
  | |- guards _ (bind Data.create_control_ui (fun _ => bind (Data.set_buttons_visibility 1) _)) =>
      apply (guards_control_then_set 1); [lia |]
  | |- guards _ (bind Data.create_control_ui (fun _ => bind (Data.set_buttons_visibility 2) _)) =>
      apply (guards_control_then_set 2); [lia |]
  | |- guards _ (bind Data.create_control_ui (fun _ => bind (Data.set_buttons_visibility 3) _)) =>
      apply (guards_control_then_set 3); [lia |]
  | |- guards _ (Data.show_filter _) => unfold Data.show_filter
  | |- guards _ (Data.show_extraction _) => unfold Data.show_extraction
  | |- guards _ Data.show_data => unfold Data.show_data
  | |- guards one_visible _ => guards_step
  | |- cguards one_visible _ => cguards_step
  | |- forall m, one_visible m -> one_visible (<[_:=_]> m) =>
      intros ? ?; apply one_visible_insert; [not_a_button | assumption]
  | |- forall m x, one_visible m -> _ -> one_visible (<[_:=_]> m) =>
      intros ? ? ? ?; apply one_visible_insert; [not_a_button | assumption]
  end.

Lemma one_visible_select_sport : cguards one_visible Data.select_sport.
Proof.
  unfold Data.select_sport. repeat one_visible_step.
  all: unfold Data.resume_sport; repeat one_visible_step.
Qed.

Lemma one_visible_select_filter : cguards one_visible Data.select_filter.
Proof.
  unfold Data.select_filter. repeat one_visible_step.
  all: unfold Data.resume_filter; repeat one_visible_step.
Qed.

Lemma one_visible_select_extraction : cguards one_visible Data.select_extraction.
Proof.
  unfold Data.select_extraction. repeat one_visible_step.
  all: unfold Data.resume_train; repeat one_visible_step.
  all: unfold Data.resume_fixtures; repeat one_visible_step.
Qed.

Lemma select_mode_cursor m w :
  state w !! "mode_ui" = Some (Widget m) -> value m = PStr "Data" ->
  state w !! "sport_ui" = None ->
  exists w', Data.select_mode w = Ok tt w' /\ cursor_at 0 w'.
Proof.
  intros Hm Hv Hs. destruct w as [st pg]. simpl in *.
  unfold Data.select_mode, Data.set_buttons_visibility. run. rewrite Hv. run.
  eexists; split; [reflexivity |].
  unfold cursor_at, shown, visibility; simpl; run_lookups; reflexivity.
Qed.

(** C9. [set_buttons_visibility(i)] with [i] in 0..3, on a state that holds
    the four control buttons, leaves the button at index [i] visible and the
    three others hidden.  Every world that [select_sport], [select_filter]
    and [select_extraction] publish (where they suspend at an await, end or
    raise) has exactly one visible control, provided they start and are
    resumed on worlds that have; and entering the Data mode leaves the sport
    arrow the one visible control. *)
Theorem one_control_visible :
  (forall (index : Z) (w : World),
     (0 <= index <= 3)%Z -> has_buttons w ->
     exists w', Data.set_buttons_visibility index w = Ok tt w'
                /\ cursor_at (Z.to_nat index) w')
  /\ (forall w, one_visible (state w) -> settles one_visible (Data.select_sport w))
  /\ (forall w, one_visible (state w) -> settles one_visible (Data.select_filter w))
  /\ (forall w, one_visible (state w) -> settles one_visible (Data.select_extraction w))
  /\ (forall m w,
        state w !! "mode_ui" = Some (Widget m) -> value m = PStr "Data" ->
        state w !! "sport_ui" = None ->
        exists w', Data.select_mode w = Ok tt w' /\ cursor_at 0 w').
Proof.
  split.
  - intros index w Hindex Hb.
    destruct (set_buttons_visibility_cursor (Z.to_nat index) w) as (w' & Hrun & Hcur);
      [lia | done |].
    exists w'. rewrite Z2Nat.id in Hrun by lia. done.
  - split; [exact one_visible_select_sport |].
    split; [exact one_visible_select_filter |].
    split; [exact one_visible_select_extraction |].
    exact select_mode_cursor.
Qed.

Lemma one_control_visible_witness :
  (exists w', Data.set_buttons_visibility 2 at_filter = Ok tt w' /\ cursor_at 2 w')
  /\ settles one_visible (Data.select_filter at_filter_chosen).
Proof.
  split.
  - apply (proj1 one_control_visible 2%Z at_filter); [lia |].
    vm_compute. repeat constructor; eexists; reflexivity.
  - apply (proj1 (proj2 (proj2 one_control_visible)) at_filter_chosen).
    exists 1%nat. split; [lia | vm_compute; reflexivity].
Defined.

(** ** Reset *)

Lemma keys_copy_spec w :
  exists keys, keys_copy w = Ok keys w
               /\ NoDup keys
               /\ forall k, k ∈ keys <-> is_Some (state w !! k).
Proof.
  exists (map fst (map_to_list (state w))). split; [reflexivity |]. split.
  - apply (NoDup_fst_map_to_list (state w)).
  - intros k. rewrite list_elem_of_map. split.
    + intros ([k' o] & -> & Hin). apply elem_of_map_to_list in Hin. by eexists.
    + intros [o Ho]. exists (k, o). split; [done |]. by apply elem_of_map_to_list.
Qed.

Lemma cancel_loop (l : list string) : forall w,
  NoDup l -> (forall k, k ∈ l -> is_Some (state w !! k)) ->
  exists w', for_each l cancel_body w = Ok tt w'
             /\ page w' = page w
             /\ forall k, state w' !! k
                          = if decide (k ∈ l /\ k <> "mode_ui") then None else state w !! k.
Proof.
  induction l as [| x l IH]; intros w Hnd Hin.
  - exists w. split; [done |]. split; [done |]. intros k.
    destruct (decide (k ∈ [] /\ k <> "mode_ui")) as [[H _] | _]; [| done].
    by apply elem_of_nil in H.
  - apply NoDup_cons in Hnd as [Hx Hnd]. simpl. unfold bind, cancel_body at 1.
    destruct (decide (x <> "mode_ui")) as [Hmode | Hmode].
    + unfold popitem. destruct (Hin x) as [o Ho]; [apply list_elem_of_here |]. rewrite Ho.
      destruct (IH (with_state (delete x) w) Hnd) as (w' & Hrun & Hpage & Hlook).
      { intros k Hk. simpl. rewrite lookup_delete_ne by (intros ->; done).
        by apply Hin, list_elem_of_further. }
      exists w'. split; [done |]. split; [done |]. intros k. rewrite Hlook. simpl.
      destruct (decide (k = x)) as [-> | Hkx].
      * rewrite lookup_delete_eq.
        rewrite (decide_True (P := x ∈ x :: l /\ x <> "mode_ui"))
          by (split; [apply list_elem_of_here | done]).
        by destruct (decide (x ∈ l /\ x <> "mode_ui")).
      * rewrite lookup_delete_ne by done.
        destruct (decide (k ∈ l /\ k <> "mode_ui")) as [[Hl Hm] | Hno].
        -- by rewrite decide_True by (split; [by apply list_elem_of_further | done]).
        -- rewrite decide_False; [done |].
           intros [[-> | Hl]%elem_of_cons Hm]; [done | by apply Hno].
    + apply dec_stable in Hmode. subst x. simpl.
      destruct (IH w Hnd) as (w' & Hrun & Hpage & Hlook).
      { intros k Hk. by apply Hin, list_elem_of_further. }
      exists w'. split; [done |]. split; [done |]. intros k. rewrite Hlook.
      destruct (decide (k ∈ l /\ k <> "mode_ui")) as [[Hl Hm] | Hno].
      * by rewrite decide_True by (split; [by apply list_elem_of_further | done]).
      * rewrite decide_False; [done |].
        intros [[-> | Hl]%elem_of_cons Hm]; [done | by apply Hno].
Qed.

Lemma data_boot_state : state Data.boot = <["mode_ui" := Widget mode_toggle]> ∅.
Proof. vm_compute. reflexivity. Qed.

Lemma select_cancel_resets w :
  exists w', Data.select_cancel w = Ok tt w' /\ state w' = state Data.boot.
Proof.
  destruct (keys_copy_spec w) as (keys & Hkeys & Hnd & Hdom).
  destruct (cancel_loop keys w Hnd) as (w1 & Hloop & Hpage & Hlook).
  { intros k Hk. by apply Hdom. }
  unfold Data.select_cancel. unfold bind at 1. rewrite Hkeys.
  change (fun key : string => if decide (key <> "mode_ui") then popitem key else ret tt)
    with cancel_body.
  unfold bind at 1. rewrite Hloop.
  unfold bind at 1, Data.create_mode_ui, setitem.
  assert (Hst : with_state (insert "mode_ui" (Widget mode_toggle)) w1
                = {| state := <["mode_ui" := Widget mode_toggle]> ∅; page := page w1 |}).
  { unfold with_state. f_equal. apply map_eq. intros k.
    destruct (decide (k = "mode_ui")) as [-> | Hk].
    - by rewrite !lookup_insert_eq.
    - rewrite !lookup_insert_ne by done. rewrite Hlook, lookup_empty.
      destruct (decide (k ∈ keys /\ k <> "mode_ui")) as [_ | Hno]; [done |].
      destruct (state w !! k) as [o |] eqn:Ho; [| done].
      exfalso. apply Hno. split; [| done]. apply Hdom. by eexists. }
  change (Widget (new_widget (Toggle [PStr "Data"; PStr "Betting"]) on_select_mode PNone))
    with (Widget mode_toggle).
  rewrite Hst. rewrite data_boot_state.
  exists {| state := <["mode_ui" := Widget mode_toggle]> ∅; page := page w1 |}.
  split; [| reflexivity].
  generalize (page w1). intros pg. vm_compute. reflexivity.
Qed.

(** *** The reset of [app.py] *)

Ltac split_controls H :=
  unfold controls, Data.buttons_ui in H;
  repeat (apply elem_of_cons in H as [-> | H]);
  [ .. | by apply elem_of_nil in H ].

Ltac not_a_control :=
  let Hin := fresh "Hin" in
  unfold controls, Data.buttons_ui; intros Hin;
  repeat (apply elem_of_cons in Hin as [Hin | Hin]; [discriminate |]);
  by apply elem_of_nil in Hin.

Lemma dropped_not_control k : App.dropped k = true -> k ∉ controls.
Proof. intros Hd Hin. split_controls Hin; vm_compute in Hd; discriminate. Qed.

Lemma app_inv_insert_other k o m :
  App.dropped k = true -> app_inv m -> app_inv (<[k:=o]> m).
Proof.
  intros Hd [Hs Ha Hf He Hdl Hdom]. pose proof (dropped_not_control k Hd) as Hk.
  assert (Hne : forall c, c ∈ controls -> k <> c) by (intros c Hc ->; done).
  split.
  - rewrite lookup_insert_ne; [done | apply Hne; repeat constructor].
  - rewrite lookup_insert_ne; [done | apply Hne; repeat constructor].
  - rewrite lookup_insert_ne; [done | apply Hne; repeat constructor].
  - rewrite lookup_insert_ne; [done | apply Hne; repeat constructor].
  - rewrite lookup_insert_ne; [done | apply Hne; repeat constructor].
  - intros k' Hsome Hk'. destruct (decide (k = k')) as [<- | Hkk]; [done |].
    rewrite lookup_insert_ne in Hsome by done. by apply Hdom.
Qed.

Lemma app_inv_update_other k o o' m :
  k ∉ controls -> m !! k = Some o' -> app_inv m -> app_inv (<[k:=o]> m).
Proof.
  intros Hk Ho Hinv. apply app_inv_insert_other; [| done].
  apply (inv_dom m Hinv); [by eexists | done].
Qed.

Lemma app_inv_delete k m : App.dropped k = true -> app_inv m -> app_inv (delete k m).
Proof.
  intros Hd [Hs Ha Hf He Hdl Hdom]. pose proof (dropped_not_control k Hd) as Hk.
  assert (Hne : forall c, c ∈ controls -> k <> c) by (intros c Hc ->; done).
  split.
  - rewrite lookup_delete_ne; [done | apply Hne; repeat constructor].
  - rewrite lookup_delete_ne; [done | apply Hne; repeat constructor].
  - rewrite lookup_delete_ne; [done | apply Hne; repeat constructor].
  - rewrite lookup_delete_ne; [done | apply Hne; repeat constructor].
  - rewrite lookup_delete_ne; [done | apply Hne; repeat constructor].
  - intros k' Hsome Hk'. destruct (decide (k = k')) as [<- | Hkk].
    + rewrite lookup_delete_eq in Hsome. by destruct Hsome.
    + rewrite lookup_delete_ne in Hsome by done. by apply Hdom.
Qed.

Lemma insert_keeps_dom k o o' (m : gmap string obj) k' :
  m !! k = Some o' -> is_Some (<[k:=o]> m !! k') -> is_Some (m !! k').
Proof.
  intros Ho Hsome. destruct (decide (k = k')) as [<- | Hkk]; [by eexists |].
  by rewrite lookup_insert_ne in Hsome.
Qed.

Lemma app_inv_button k b x m :
  k ∈ Data.buttons_ui -> m !! k = Some (Widget x) -> app_inv m ->
  app_inv (<[k:=Widget (with_visible b x)]> m).
Proof.
  intros Hk Hx [Hs Ha Hf He Hdl Hdom].
  unfold Data.buttons_ui in Hk.
  repeat (apply elem_of_cons in Hk as [-> | Hk]); [.. | by apply elem_of_nil in Hk].
  all: split; rewrite ?lookup_insert_eq, ?lookup_insert_ne by discriminate; try done.
  all: try (intros k' Hsome; apply Hdom; by eapply insert_keeps_dom).
  - destruct Ha as (y & Hy & Hb). exists (with_visible b x). split; [done |].
    rewrite Hx in Hy. by injection Hy as ->.
  - destruct Hf as (y & Hy & Hb). exists (with_visible b x). split; [done |].
    rewrite Hx in Hy. by injection Hy as ->.
  - destruct He as (y & Hy & Hb). exists (with_visible b x). split; [done |].
    rewrite Hx in Hy. by injection Hy as ->.
  - destruct Hdl as (y & Hy & Hb). exists (with_visible b x). split; [done |].
    rewrite Hx in Hy. by injection Hy as ->.
Qed.

Lemma app_inv_sport f x m :
  (forall y, with_value PNone (with_enabled true (f y)) = with_value PNone (with_enabled true y)) ->
  m !! "sport_ui" = Some (Widget x) -> app_inv m ->
  app_inv (<["sport_ui":=Widget (f x)]> m).
Proof.
  intros Hf' Hx [Hs Ha Hf He Hdl Hdom].
  split; rewrite ?lookup_insert_eq, ?lookup_insert_ne by discriminate; try done.
  - destruct Hs as (y & Hy & Hb). exists (f x). split; [done |].
    rewrite Hx in Hy. injection Hy as ->. by rewrite Hf'.
  - intros k' Hsome. apply Hdom. by eapply insert_keeps_dom.
Qed.

Lemma app_boot_state :
  state App.boot
  = <["sport_ui" := Widget new_sport_radio]>
      (<["arrow_sport_ui" := Widget sport_arrow]>
         (<["arrow_filter_ui" := Widget (with_visible false filter_arrow)]>
            (<["arrow_extraction_ui" := Widget (with_visible false extraction_arrow)]>
               (<["download_ui" := Widget (with_visible false download_button)]> ∅)))).
Proof. vm_compute. reflexivity. Qed.

Lemma app_boot_other k : k ∉ controls -> state App.boot !! k = None.
Proof.
  intros Hk. rewrite app_boot_state.
  assert (Hne : forall c, c ∈ controls -> c <> k) by (intros c Hc ->; done).
  rewrite !lookup_insert_ne by (apply Hne; repeat constructor).
  apply lookup_empty.
Qed.

Lemma app_inv_boot : app_inv (state App.boot).
Proof.
  split.
  - exists new_sport_radio. split; vm_compute; reflexivity.
  - exists sport_arrow. split; vm_compute; reflexivity.
  - exists (with_visible false filter_arrow). split; vm_compute; reflexivity.
  - exists (with_visible false extraction_arrow). split; vm_compute; reflexivity.
  - exists (with_visible false download_button). split; vm_compute; reflexivity.
  - intros k [o Ho] Hk. rewrite app_boot_other in Ho by done. discriminate.
Qed.

Lemma with_visible_idem b b' x : with_visible b (with_visible b' x) = with_visible b x.
Proof. reflexivity. Qed.

Ltac app_write :=
  lazymatch goal with
  | |- forall m, app_inv m -> app_inv (<[_:=_]> m) =>
      intros ? ?; apply app_inv_insert_other; [vm_compute; reflexivity | assumption]
  | |- forall m, app_inv m -> app_inv (delete _ m) =>
      intros ? ?; apply app_inv_delete; [first [vm_compute; reflexivity | assumption] | assumption]
  | |- forall m x, app_inv m -> m !! "sport_ui" = _ -> app_inv (<[_:=_]> m) =>
      intros ? ? ? ?; apply app_inv_sport; [reflexivity | assumption | assumption]
  | |- forall m x, app_inv m -> m !! ?k = _ -> app_inv (<[?k:=Widget (with_visible _ x)]> m) =>
      intros ? ? ? ?; apply app_inv_button; [repeat constructor | assumption | assumption]
  | |- forall m x, app_inv m -> m !! ?k = _ -> app_inv (<[?k:=_]> m) =>
      intros ? ? ? ?; eapply app_inv_update_other; [not_a_control | eassumption | assumption]
  end.

Ltac app_step :=
  lazymatch goal with
  | |- guards app_inv _ => guards_step
  | |- cguards app_inv _ => cguards_step
  | |- _ => app_write
  end.

Lemma app_inv_select_sport : cguards app_inv App.select_sport.
Proof.
  unfold App.select_sport. repeat app_step.
  all: unfold App.resume_sport; repeat app_step.
Qed.

Lemma app_inv_select_filter : cguards app_inv App.select_filter.
Proof.
  unfold App.select_filter. repeat app_step.
  all: unfold App.resume_filter; repeat app_step.
Qed.

Lemma app_inv_select_extraction : cguards app_inv App.select_extraction.
Proof.
  unfold App.select_extraction. repeat app_step.
  all: unfold App.resume_train; repeat app_step.
  all: unfold App.resume_fixtures; repeat app_step.
Qed.

Lemma app_inv_restore_controls : guards app_inv App.restore_controls.
Proof. repeat app_step. Qed.

Lemma app_inv_refresh_ui : guards app_inv App.refresh_ui.
Proof.
  unfold App.refresh_ui.
  apply guards_bind; [apply guards_keys_copy |]. intros keys.
  apply guards_bind.
  - apply guards_for_each. intros key _. destruct (App.dropped key) eqn:Hd.
    + apply guards_popitem. intros m Hm. by apply app_inv_delete.
    + apply app_inv_restore_controls.
  - intros _. repeat app_step.
Qed.

Lemma app_inv_step w ev : app_inv (state w) -> app_inv (state (App.step w ev)).
Proof.
  intros Hinv. destruct ev; simpl.
  - destruct (_ && _); [| done].
    cut (guards app_inv (set_value "sport_ui" v)); [intros Hg; exact (Hg w Hinv) |].
    repeat app_step.
  - destruct (_ && _); [| done].
    cut (guards app_inv (update_widget "filter_ui" (with_selected rows)));
      [intros Hg; exact (Hg w Hinv) |].
    repeat app_step.
  - destruct (_ && _); [| done].
    cut (guards app_inv (set_value "odds_type_ui" k)); [intros Hg; exact (Hg w Hinv) |].
    repeat app_step.
  - destruct (editable _ _); [| done].
    cut (guards app_inv (set_value "drop_na_thres_ui" v)); [intros Hg; exact (Hg w Hinv) |].
    repeat app_step.
  - destruct (clickable _ _); [| done].
    by apply settles_run_alone, app_inv_select_sport.
  - destruct (clickable _ _); [| done].
    by apply settles_run_alone, app_inv_select_filter.
  - destruct (clickable _ _); [| done].
    by apply settles_run_alone, app_inv_select_extraction.
  - destruct (clickable _ _); [| done].
    unfold App.download_data. by rewrite download_dataloader_state.
  - by apply app_inv_refresh_ui.
Qed.

Lemma app_inv_session evs : app_inv (state (App.session evs)).
Proof.
  unfold App.session. generalize app_inv_boot. generalize App.boot.
  induction evs as [| ev evs IH]; intros w Hinv; simpl; [done |].
  by apply IH, app_inv_step.
Qed.

Lemma controls_reset_delete k m :
  k ∉ controls -> controls_reset m -> controls_reset (delete k m).
Proof.
  intros Hk [Hs Ha Hf He Hd].
  assert (Hne : forall c, c ∈ controls -> k <> c) by (intros c Hc ->; done).
  split; (rewrite lookup_delete_ne; [done | apply Hne; repeat constructor]).
Qed.

Lemma restore_controls_run w :
  app_inv (state w) ->
  exists w', App.restore_controls w = Ok tt w'
             /\ page w' = page w
             /\ controls_reset (state w')
             /\ forall k, k ∉ controls -> state w' !! k = state w !! k.
Proof.
  intros [(xs & Hxs & Hs) (xa & Hxa & Ha) (xf & Hxf & Hf) (xe & Hxe & He) (xd & Hxd & Hd) _].
  destruct w as [st pg]. simpl in *.
  unfold App.restore_controls. run.
  eexists. split; [reflexivity |]. split; [reflexivity |]. split.
  - split; simpl; run_lookups.
    + by rewrite Hs.
    + by rewrite Ha.
    + by rewrite <- Hf.
    + by rewrite <- He.
    + by rewrite <- Hd.
  - intros k Hk. simpl.
    assert (Hne : forall c, c ∈ controls -> c <> k) by (intros c Hc ->; done).
    rewrite !lookup_insert_ne by (apply Hne; repeat constructor). done.
Qed.

Lemma refresh_loop (l : list string) : forall w,
  NoDup l -> (forall k, k ∈ l -> is_Some (state w !! k)) -> app_inv (state w) ->
  exists w', for_each l refresh_body w = Ok tt w'
             /\ page w' = page w
             /\ app_inv (state w')
             /\ (forall k, k ∉ controls ->
                   state w' !! k
                   = if decide (k ∈ l /\ App.dropped k = true) then None else state w !! k)
             /\ (controls_reset (state w) \/ (exists k, k ∈ l /\ App.dropped k = false) ->
                 controls_reset (state w')).
Proof.
  induction l as [| x l IH]; intros w Hnd Hin Hinv.
  - exists w. split; [done |]. split; [done |]. split; [done |]. split.
    + intros k _. destruct (decide (k ∈ [] /\ App.dropped k = true)) as [[H _] | _]; [| done].
      by apply elem_of_nil in H.
    + intros [Hr | (k & Hk & _)]; [done | by apply elem_of_nil in Hk].
  - apply NoDup_cons in Hnd as [Hx Hnd]. simpl. unfold bind, refresh_body at 1.
    destruct (App.dropped x) eqn:Hdx.
    + pose proof (dropped_not_control x Hdx) as Hxc.
      unfold popitem. destruct (Hin x) as [o Ho]; [apply list_elem_of_here |]. rewrite Ho.
      destruct (IH (with_state (delete x) w) Hnd) as (w' & Hrun & Hpage & Hinv' & Hlook & Hreset).
      { intros k Hk. simpl. rewrite lookup_delete_ne by (intros ->; done).
        by apply Hin, list_elem_of_further. }
      { simpl. by apply app_inv_delete. }
      exists w'. split; [done |]. split; [done |]. split; [done |]. split.
      * intros k Hk. rewrite (Hlook k Hk). simpl.
        destruct (decide (k = x)) as [-> | Hkx].
        -- rewrite lookup_delete_eq.
           rewrite (decide_True (P := x ∈ x :: l /\ App.dropped x = true))
             by (split; [apply list_elem_of_here | done]).
           by destruct (decide (x ∈ l /\ App.dropped x = true)).
        -- rewrite lookup_delete_ne by done.
           destruct (decide (k ∈ l /\ App.dropped k = true)) as [[Hl Hd] | Hno].
           ++ by rewrite decide_True by (split; [by apply list_elem_of_further | done]).
           ++ rewrite decide_False; [done |].
              intros [[-> | Hl]%elem_of_cons Hd]; [done | by apply Hno].
      * intros [Hr | (k & Hk & Hdk)]; apply Hreset.
        -- left. simpl. by apply controls_reset_delete.
        -- right. exists k. split; [| done].
           apply elem_of_cons in Hk as [-> | Hk]; [congruence | done].
    + destruct (restore_controls_run w Hinv) as (w1 & Hrun1 & Hpage1 & Hreset1 & Hsame).
      rewrite Hrun1.
      assert (Hinv1 : app_inv (state w1)).
      { pose proof (app_inv_restore_controls w Hinv) as Hg. by rewrite Hrun1 in Hg. }
      destruct (IH w1 Hnd) as (w' & Hrun & Hpage & Hinv' & Hlook & Hreset); [| done |].
      { intros k Hk. destruct (decide (k ∈ controls)) as [Hc | Hc].
        - destruct Hreset1. split_controls Hc; by eexists.
        - rewrite Hsame by done. by apply Hin, list_elem_of_further. }
      exists w'. split; [done |]. split; [congruence |]. split; [done |]. split.
      * intros k Hk. rewrite (Hlook k Hk), (Hsame k Hk).
        destruct (decide (k ∈ l /\ App.dropped k = true)) as [[Hl Hd] | Hno].
        -- by rewrite decide_True by (split; [by apply list_elem_of_further | done]).
        -- rewrite decide_False; [done |].
           intros [[-> | Hl]%elem_of_cons Hd]; [congruence | by apply Hno].
      * intros _. apply Hreset. by left.
Qed.

Lemma refresh_ui_resets w :
  app_inv (state w) ->
  exists w', App.refresh_ui w = Ok tt w' /\ state w' = state App.boot.
Proof.
  intros Hinv.
  destruct (keys_copy_spec w) as (keys & Hkeys & Hnd & Hdom).
  destruct (refresh_loop keys w Hnd) as (w1 & Hloop & Hpage & Hinv1 & Hlook & Hreset);
    [by intros k Hk; apply Hdom | done |].
  assert (Hst : state w1 = state App.boot).
  { destruct Hreset as [Hs Ha Hf He Hd].
    { right. exists "sport_ui". split; [| vm_compute; reflexivity].
      apply Hdom. destruct (inv_sport _ Hinv) as (x & Hx & _). by eexists. }
    apply map_eq. intros k. destruct (decide (k ∈ controls)) as [Hc | Hc].
    - rewrite app_boot_state.
      split_controls Hc; rewrite ?lookup_insert_eq, ?lookup_insert_ne by discriminate; done.
    - rewrite app_boot_other by done. rewrite (Hlook k Hc).
      destruct (decide (k ∈ keys /\ App.dropped k = true)) as [_ | Hno]; [done |].
      destruct (state w !! k) as [o |] eqn:Ho; [| done].
      exfalso. apply Hno. split; [apply Hdom; by eexists |].
      apply (inv_dom _ Hinv); [by eexists | done]. }
  unfold App.refresh_ui. unfold bind at 1. rewrite Hkeys.
  change (fun key : string => if App.dropped key then popitem key else App.restore_controls)
    with refresh_body.
  unfold bind at 1. rewrite Hloop.
  destruct w1 as [st1 pg1]. simpl in Hst. subst st1.
  exists {| state := state App.boot; page := pg1 |}. split; [| reflexivity].
  rewrite app_boot_state. vm_compute. reflexivity.
Qed.

(** C2. After any sequence of user actions, the reset of either wizard
    ([select_cancel] of [_gui.py], [refresh_ui] of [app.py]) returns and
    leaves [state] equal to the state of the freshly drawn page: in the
    first wizard only the mode toggle, with no value; in the second only the
    five controls it draws at start, the sport control enabled and without
    a value, the sport arrow the one visible button.  No fetched list,
    selection, dataloader or table is left. *)
Theorem reset_returns_to_initial :
  (forall evs : list Data.event,
     exists w', Data.select_cancel (Data.session evs) = Ok tt w'
                /\ state w' = state Data.boot)
  /\ (forall evs : list App.event,
        exists w', App.refresh_ui (App.session evs) = Ok tt w'
                   /\ state w' = state App.boot)
  /\ state Data.boot = <["mode_ui" := Widget mode_toggle]> ∅
  /\ state App.boot
     = <["sport_ui" := Widget new_sport_radio]>
         (<["arrow_sport_ui" := Widget sport_arrow]>
            (<["arrow_filter_ui" := Widget (with_visible false filter_arrow)]>
               (<["arrow_extraction_ui" := Widget (with_visible false extraction_arrow)]>
                  (<["download_ui" := Widget (with_visible false download_button)]> ∅)))).
Proof.
  split; [intros evs; apply select_cancel_resets |].
  split; [intros evs; apply refresh_ui_resets, app_inv_session |].
  split; [apply data_boot_state | apply app_boot_state].
Qed.

(** Scenario D of the specification: through all stages, then reset. *)
Example reset_after_export :
  state (Data.step at_export Data.ClickCancel) = state Data.boot.
Proof. vm_compute. reflexivity. Qed.

(** ** Handlers interleaved *)

Lemma world_settle_finish m w tasks : world (settle (finish m w) tasks) = after (m w).
Proof. unfold finish, sync. by destruct (m w). Qed.

Lemma data_resume_train_writes x y o w tasks :
  let w' := world (settle (Data.resume_train (RetTables x y o) w) tasks) in
  state w' !! "X_train" = Some x
  /\ state w' !! "Y_train" = Some y
  /\ state w' !! "O_train" = Some o.
Proof.
  destruct w as [st pg]. unfold Data.resume_train, sync, await, Data.store_tables, Data.fixtures_call.
  run. destruct (st !! "dataloader") as [[| | | | dl | |] |]; simpl; run_lookups; done.
Qed.

(** C1, as the code has it.  No trigger is rejected and there is no
    FetchInProgress signal: a click on the sport arrow with ['Soccer']
    selected, or on the extraction arrow, starts its fetch whatever is
    pending, adding one suspended handler and notifying nothing; and the
    completion of any pending fetch that returns writes its result into
    [state] (the rows of a parameter fetch, the tables of a training-data
    fetch), so that of two pending fetches of a stage both completions
    write and the later result stays. *)
Theorem triggers_always_start_a_fetch (s : Loop) :
  (forall x,
     state (world s) !! "sport_ui" = Some (Widget x) -> value x = PStr "Soccer" ->
     trigger Data.select_sport s
     = {| world := emit SpinnerShown (world s);
          pending := pending s ++ [{| task_call := GetAllParams SoccerDataLoader;
                                      task_resume := resumption Data.resume_sport |}] |})
  /\ (forall dl sel t,
        state (world s) !! "dataloader" = Some (DataLoader dl) ->
        state (world s) !! "odds_type_ui" = Some (Widget sel) ->
        state (world s) !! "drop_na_thres_ui" = Some (Widget t) ->
        trigger Data.select_extraction s
        = {| world := emit SpinnerShown (world s);
             pending := pending s ++ [{| task_call := ExtractTrainData dl (value sel) (value t);
                                         task_resume := resumption Data.resume_train |}] |})
  /\ (forall (i : nat) c p ps,
        pending s !! i = Some {| task_call := c; task_resume := resumption Data.resume_sport |} ->
        state (world (complete i (inr (RetRecords (p :: ps))) s)) !! "filter_rows"
        = Some (Records (filter_rows (p :: ps))))
  /\ (forall (i : nat) c x y o,
        pending s !! i = Some {| task_call := c; task_resume := resumption Data.resume_train |} ->
        state (world (complete i (inr (RetTables x y o)) s)) !! "X_train" = Some x
        /\ state (world (complete i (inr (RetTables x y o)) s)) !! "Y_train" = Some y
        /\ state (world (complete i (inr (RetTables x y o)) s)) !! "O_train" = Some o).
Proof.
  split; [| split; [| split]].
  - intros x Hx Hv. unfold trigger. by rewrite (data_select_sport_soccer x).
  - intros dl sel t Hdl Hsel Ht. unfold trigger.
    destruct (select_extraction_issues dl sel t (world s) Hdl Hsel Ht) as [-> _]. done.
  - intros i c p ps Hi. unfold complete. rewrite Hi. simpl.
    unfold Data.resume_sport. rewrite world_settle_finish. apply data_show_filter_rows.
  - intros i c x y o Hi. unfold complete. rewrite Hi. simpl.
    apply data_resume_train_writes.
Qed.

Lemma triggers_always_start_a_fetch_witness :
  in_flight SportSelect (trigger Data.select_sport (trigger Data.select_sport at_sport)) = 2%nat.
Proof.
  rewrite (proj1 (triggers_always_start_a_fetch (trigger Data.select_sport at_sport))
             (with_value (PStr "Soccer") new_sport_radio) eq_refl eq_refl).
  rewrite (proj1 (triggers_always_start_a_fetch at_sport)
             (with_value (PStr "Soccer") new_sport_radio) eq_refl eq_refl).
  reflexivity.
Defined.

(** The claim as the specification states it fails: a second click on the
    sport arrow while the first fetch is pending starts a second fetch, and
    both completions write the filter rows. *)
Lemma second_trigger_starts_second_fetch :
  let s1 := trigger Data.select_sport at_sport in
  let s2 := trigger Data.select_sport s1 in
  let s3 := complete 0 (inr (RetRecords scenario_a)) s2 in
  let s4 := complete 0 (inr (RetRecords other_params)) s3 in
  in_flight SportSelect s1 = 1%nat
  /\ clickable "arrow_sport_ui" (world s1) = true
  /\ in_flight SportSelect s2 = 2%nat
  /\ notifications (world s2) = []
  /\ state (world s2) !! "filter_rows" = None
  /\ state (world s3) !! "filter_rows" = Some (Records (filter_rows scenario_a))
  /\ state (world s4) !! "filter_rows" = Some (Records (filter_rows other_params))
  /\ ~ single_flight Data.select_sport SportSelect.
Proof.
  cbv zeta.
  split; [vm_compute; reflexivity |]. split; [vm_compute; reflexivity |].
  split; [vm_compute; reflexivity |]. split; [vm_compute; reflexivity |].
  split; [vm_compute; reflexivity |]. split; [vm_compute; reflexivity |].
  split; [vm_compute; reflexivity |].
  intros Hguard. specialize (Hguard (trigger Data.select_sport at_sport)).
  assert (H1 : in_flight SportSelect (trigger Data.select_sport at_sport) = 1%nat)
    by (vm_compute; reflexivity).
  assert (H2 : in_flight SportSelect
                 (trigger Data.select_sport (trigger Data.select_sport at_sport)) = 2%nat)
    by (vm_compute; reflexivity).
  rewrite H2, H1 in Hguard. specialize (Hguard (le_n 1)). discriminate Hguard.
Qed.

(** * Further properties of the code *)

(** ** The parameter grid and the synthetic id *)

Lemma grid_of_row_set_id v (param : record) :
  grid_of_row (dict_set "id" v param) = grid_of_row param.
Proof.
  unfold grid_of_row. induction param as [| [k x] param IH].
  - done.
  - cbn [dict_set]. destruct (decide (k = "id")) as [-> | Hk].
    + rewrite !filter_cons. cbn [fst]. by rewrite !decide_False by (intros H; by apply H).
    + rewrite !filter_cons. cbn [fst]. rewrite !decide_True by done.
      cbn [map]. by rewrite IH.
Qed.

Lemma grid_of_row_no_id (param : record) :
  dict_get "id" param = None -> grid_of_row param = singletons param.
Proof.
  unfold grid_of_row, singletons. induction param as [| [k x] param IH]; [done |].
  rewrite dict_get_cons. destruct (decide (k = "id")) as [-> | Hk]; [done |].
  intros Hno. rewrite filter_cons, decide_True by done. simpl. by rewrite IH.
Qed.

(** X1. The id that the filter table adds to a parameter record is what
    the parameter grid leaves out: the grid of a filter row is the grid of
    the record it was made from, so the grid of all rows is the grid of the
    fetched records, and a record without a field ['id'] reaches the
    dataloader whole, each value in a list of one.  A field ['id'] of the
    record itself is overwritten by the row and never reaches the grid. *)
Theorem grid_ignores_synthetic_id (all_params : list record) :
  make_param_grid (filter_rows all_params) = make_param_grid all_params
  /\ (forall (i : nat) (row : record), filter_rows all_params !! i = Some row ->
        exists param, all_params !! i = Some param
                      /\ grid_of_row row = grid_of_row param
                      /\ dict_get "id" (grid_of_row row) = None
                      /\ (dict_get "id" param = None -> grid_of_row row = singletons param)).
Proof.
  split.
  - unfold make_param_grid. apply list_eq. intros i.
    rewrite !list_lookup_map, filter_rows_lookup.
    destruct (all_params !! i) as [param |]; simpl; [| done].
    by rewrite grid_of_row_set_id.
  - intros i row. rewrite filter_rows_lookup.
    destruct (all_params !! i) as [param |]; simpl; [| done].
    intros [= <-]. exists param. split; [done |]. split; [apply grid_of_row_set_id |].
    split.
    + rewrite grid_of_row_get. by rewrite decide_True.
    + intros Hno. rewrite grid_of_row_set_id. by apply grid_of_row_no_id.
Qed.

Lemma grid_ignores_synthetic_id_witness :
  grid_of_row [("league", PStr "E1"); ("id", PInt 2)] = [("league", [PStr "E1"])].
Proof.
  destruct (proj2 (grid_ignores_synthetic_id scenario_a) 1%nat
              [("league", PStr "E1"); ("id", PInt 2)] eq_refl)
    as (param & Hparam & Hgrid & _ & Hwhole).
  injection Hparam as <-. apply Hwhole. reflexivity.
Defined.

(** ** The mapping of the odds types *)

Section dict_update_facts.
Context {K V : Type} `{EqDecision K}.

Lemma dict_get_update_graph (f : K -> V) (ks : list K) : forall (d : list (K * V)) (k : K),
  dict_get k (dict_update d (map (fun x => (x, f x)) ks))
  = if decide (k ∈ ks) then Some (f k) else dict_get k d.
Proof.
  unfold dict_update. induction ks as [| x ks IH]; intros d k; cbn [map foldl fst snd].
  - destruct (decide (k ∈ [])) as [Hin | _]; [| done]. by apply not_elem_of_nil in Hin.
  - rewrite IH. destruct (decide (k ∈ ks)) as [Hin | Hno].
    + by rewrite decide_True by (by apply list_elem_of_further).
    + destruct (decide (k = x)) as [-> | Hkx].
      * rewrite dict_get_set_eq. by rewrite decide_True by apply list_elem_of_here.
      * rewrite dict_get_set_ne by done. rewrite decide_False; [done |].
        intros [-> | Hin]%elem_of_cons; done.
Qed.

End dict_update_facts.

Lemma odds_mapping_get (odds_types : list string) (k : scalar) :
  dict_get k (odds_mapping odds_types)
  = if decide (k ∈ map PStr odds_types) then Some (label_of k) else None.
Proof.
  unfold odds_mapping, dict_of.
  replace (map (fun odds_type => (PStr odds_type, odds_label odds_type)) odds_types)
    with (map (fun x => (x, label_of x)) (map PStr odds_types))
    by (by rewrite map_map).
  by rewrite dict_get_update_graph.
Qed.

(** X2. The mapping of the odds-type selector has exactly the fetched odds
    types as keys, each with its own label however often it was fetched; in
    [_data.py] the sentinel [None] is one more key.  The default of the
    selector, the first fetched odds type, is always one of its options. *)
Theorem odds_mapping_keys (odds_types : list string) :
  (forall odds_type : string,
     dict_get (PStr odds_type) (odds_mapping odds_types)
     = if decide (odds_type ∈ odds_types) then Some (odds_label odds_type) else None)
  /\ (forall odds_type : string,
        dict_get (PStr odds_type) (displayed_mapping odds_types)
        = dict_get (PStr odds_type) (odds_mapping odds_types))
  /\ (forall k, is_Some (dict_get k (displayed_mapping odds_types))
                <-> k = PNone \/ k ∈ map PStr odds_types)
  /\ (forall w first w', first_odds_type odds_types w = Ok first w' ->
        first ∈ dict_keys (odds_mapping odds_types)
        /\ first ∈ dict_keys (displayed_mapping odds_types)).
Proof.
  assert (Hstr : forall odds_type : string,
             dict_get (PStr odds_type) (odds_mapping odds_types)
             = if decide (odds_type ∈ odds_types) then Some (odds_label odds_type) else None).
  { intros ot. rewrite odds_mapping_get.
    destruct (decide (ot ∈ odds_types)) as [Hin | Hno].
    - rewrite decide_True; [done |]. apply list_elem_of_map. by exists ot.
    - rewrite decide_False; [done |].
      intros (ot' & [= ->] & Hin)%list_elem_of_map. done. }
  assert (Hdisp : forall k, k <> PNone ->
             dict_get k (displayed_mapping odds_types) = dict_get k (odds_mapping odds_types)).
  { intros k Hk. unfold displayed_mapping, dict_update. simpl. by apply dict_get_set_ne. }
  split; [exact Hstr |]. split; [intros ot; by apply Hdisp |]. split.
  - intros k. destruct (decide (k = PNone)) as [-> | Hk].
    + split; [by left |]. intros _. unfold displayed_mapping, dict_update. simpl.
      rewrite dict_get_set_eq. by eexists.
    + rewrite Hdisp by done. rewrite odds_mapping_get.
      destruct (decide (k ∈ map PStr odds_types)) as [Hin | Hno].
      * split; [by right | by eexists].
      * split; [by intros [? ?] | intros [? | ?]; done].
  - intros w first w' Hfirst. destruct odds_types as [| ot l]; [discriminate |].
    injection Hfirst as <- <-.
    assert (Hin : ot ∈ ot :: l) by apply list_elem_of_here.
    split.
    + apply (dict_get_Some_key _ (odds_label ot)). rewrite Hstr. by rewrite decide_True.
    + apply (dict_get_Some_key _ (odds_label ot)). rewrite Hdisp by done.
      rewrite Hstr. by rewrite decide_True.
Qed.

Lemma odds_mapping_keys_witness :
  PStr "market_average" ∈ dict_keys (displayed_mapping ["market_average"; "market_maximum"]).
Proof.
  apply (proj2 (proj2 (proj2 (proj2 (odds_mapping_keys ["market_average"; "market_maximum"])))
           Data.boot (PStr "market_average") Data.boot eq_refl)).
Defined.

(** ** Labels *)



Lemma title_from_step b c :
  exists c' b', (forall r, PyStr.title_from b (String c r) = String c' (PyStr.title_from b' r))
                /\ (c <> "_"%char -> c' <> "_"%char).
Proof.
  cbn [PyStr.title_from].
  destruct (PyStr.is_lower c) eqn:Hl; [| destruct (PyStr.is_upper c) eqn:Hu].
  - eexists _, true. split; [reflexivity |]. intros _.
    destruct b; [intros ->; discriminate |].
    destruct c as [[] [] [] [] [] [] [] []]; vm_compute in Hl; try discriminate Hl;
      vm_compute; discriminate.
  - eexists _, true. split; [reflexivity |]. intros _.
    destruct b; [| intros ->; discriminate].
    destruct c as [[] [] [] [] [] [] [] []]; vm_compute in Hu; try discriminate Hu;
      vm_compute; discriminate.
  - eexists _, false. split; [reflexivity | done].
Qed.




Lemma contains_underscore_cons c r :
  PyStr.contains "_" (String c r) = bool_decide (c = "_"%char) || PyStr.contains "_" r.
Proof.
  cbn [PyStr.contains String.prefix].
  destruct (ascii_dec "_" c) as [<- | Hne].
  - rewrite bool_decide_eq_true_2 by done. by destruct r.
  - rewrite bool_decide_eq_false_2 by (intros ->; done). done.
Qed.

Lemma title_from_no_underscore b s :
  PyStr.contains "_" s = false -> PyStr.contains "_" (PyStr.title_from b s) = false.
Proof.
  revert b. induction s as [| c s IH]; intros b; [done |].
  rewrite contains_underscore_cons. intros [Hc Hs]%orb_false_elim.
  apply bool_decide_eq_false in Hc.
  destruct (title_from_step b c) as (c' & b' & Hstep & Hne).
  rewrite Hstep, contains_underscore_cons. rewrite (IH b' Hs).
  by rewrite bool_decide_eq_false_2 by (by apply Hne).
Qed.



Lemma re_split_us2_whole col : PyStr.contains "__" col = false -> PyStr.re_split_us2 col = [col].
Proof.
  induction col as [| c t IH]; [done |].
  cbn [PyStr.contains]. intros [Hpre Ht]%orb_false_elim.
  cbn [PyStr.re_split_us2]. destruct t as [| c' s']; [done |].
  destruct (Ascii.eqb c "_" && Ascii.eqb c' "_") eqn:Hcc.
  - apply andb_true_iff in Hcc as [->%Ascii.eqb_eq ->%Ascii.eqb_eq].
    exfalso. cbn in Hpre. by destruct s'.
  - rewrite (IH Ht). reflexivity.
Qed.

(** X4. A column whose name holds no double underscore has no token after
    the first: as an output column (tokens from the second on) and as an
    odds column (tokens from the third on) its label is the text [")"],
    whatever the name. *)
Theorem target_label_without_separator (skip : nat) (col : string) :
  (1 <= skip)%nat -> PyStr.contains "__" col = false ->
  PyStr.re_split_us2 col = [col] /\ target_label skip col = ")".
Proof.
  intros Hskip Hno. pose proof (re_split_us2_whole col Hno) as Hsplit.
  split; [exact Hsplit |]. unfold target_label. rewrite Hsplit.
  destruct skip as [| n]; [lia |]. cbn [drop]. by rewrite drop_nil.
Qed.

Lemma target_label_without_separator_witness :
  target_label 1 "full_time_goals" = ")".
Proof.
  apply (target_label_without_separator 1 "full_time_goals"); [lia | reflexivity].
Defined.

(** ** The labels of the data tables *)

Lemma contains_underscore_app a b :
  PyStr.contains "_" (a ++ b) = PyStr.contains "_" a || PyStr.contains "_" b.
Proof.
  induction a as [| c a IH]; [done |].
  change (String c a ++ b)%string with (String c (a ++ b)).
  by rewrite !contains_underscore_cons, IH, orb_assoc.
Qed.

Lemma join_no_underscore ts :
  Forall (fun t => PyStr.contains "_" t = false) ts ->
  PyStr.contains "_" (PyStr.join " " ts) = false.
Proof.
  unfold PyStr.join. induction ts as [| t ts IH]; [done |].
  intros [Ht Hts]%Forall_cons. destruct ts as [| t' ts]; [done |].
  cbn [String.concat] in IH |- *. rewrite !contains_underscore_app, Ht, (IH Hts). done.
Qed.

Lemma push_no_underscore c ts :
  c <> "_"%char ->
  Forall (fun t => PyStr.contains "_" t = false) ts ->
  Forall (fun t => PyStr.contains "_" t = false) (PyStr.push c ts).
Proof.
  intros Hc Hts. destruct ts as [| t ts]; cbn [PyStr.push].
  - constructor; [| done]. rewrite contains_underscore_cons.
    by rewrite bool_decide_eq_false_2.
  - apply Forall_cons in Hts as [Ht Hts]. constructor; [| done].
    rewrite contains_underscore_cons, Ht. by rewrite bool_decide_eq_false_2.
Qed.

Lemma split_no_underscore s :
  Forall (fun t => PyStr.contains "_" t = false) (PyStr.split "_" s).
Proof.
  induction s as [| c s IH]; cbn [PyStr.split]; [by repeat constructor |].
  destruct (Ascii.eqb c "_") eqn:Hc; [by constructor |].
  apply push_no_underscore; [by apply Ascii.eqb_neq | done].
Qed.

Lemma re_split_us_opt_no_underscore s :
  Forall (fun t => PyStr.contains "_" t = false) (PyStr.re_split_us_opt s).
Proof.
  remember (String.length s) as n eqn:Hn. revert s Hn.
  induction n as [n IH] using lt_wf_ind. intros s ->.
  destruct s as [| c t]; cbn [PyStr.re_split_us_opt]; [by repeat constructor |].
  destruct (Ascii.eqb c "_") eqn:Hc.
  - destruct t as [| c' s'].
    + by repeat constructor.
    + destruct (Ascii.eqb c' "_"); (constructor; [done |]).
      * apply (IH (String.length s')); [cbn; lia | done].
      * apply (IH (String.length (String c' s'))); [cbn; lia | done].
  - apply push_no_underscore; [by apply Ascii.eqb_neq |].
    apply (IH (String.length t)); [cbn; lia | done].
Qed.

(** X17. No label of a data table holds an underscore: the label of an
    input column, and the label of an output or odds column whatever the
    number of leading tokens it drops. *)
Theorem data_labels_without_underscore (skip : nat) (col : string) :
  PyStr.contains "_" (input_label col) = false
  /\ PyStr.contains "_" (target_label skip col) = false.
Proof.
  split.
  - unfold input_label. apply join_no_underscore.
    induction (re_split_us_opt_no_underscore col) as [| t ts Ht _ IH]; [done |].
    constructor; [by apply title_from_no_underscore | done].
  - unfold target_label. apply join_no_underscore, split_no_underscore.
Qed.

(** ** An empty parameter list *)

(** X5. When the parameter fetch returns no record, [select_sport] ends
    at the call of [next] on the empty sequence, with an exception and the
    control buttons as they were.  [_data.py] leaves [state] untouched;
    [app.py] has stored the empty list under ['all_params'] by then, and
    every later redraw of its filter UI raises [StopIteration] while that
    key is there. *)
Theorem empty_params_end_select_sport (env : Env) (x : widget) (w : World) :
  state w !! "sport_ui" = Some (Widget x) -> value x = PStr "Soccer" ->
  get_all_params env SoccerDataLoader = inr [] ->
  (exists e, run_alone env (Data.select_sport w)
             = (emit SpinnerHidden (emit SpinnerShown w), Some e))
  /\ (exists e, run_alone env (App.select_sport w)
                = (emit SpinnerHidden
                     (with_state (insert "all_params" (Records [])) (emit SpinnerShown w)),
                   Some e))
  /\ (forall w', state w' !! "all_params" = Some (Records []) ->
        App.create_filter_ui w' = Err StopIteration w').
Proof.
  intros Hx Hv Henv. split; [| split].
  - exists StopIteration.
    rewrite (data_select_sport_soccer x) by done. rewrite run_alone_await.
    unfold answer. rewrite Henv. cbn [reply].
    unfold Data.resume_sport. rewrite run_alone_finish. reflexivity.
  - exists StopIteration.
    rewrite (app_select_sport_soccer x) by done. rewrite run_alone_await.
    unfold answer. rewrite Henv. cbn [reply].
    unfold App.resume_sport. rewrite run_alone_finish.
    destruct w as [st pg]. unfold App.show_filter. run. reflexivity.
  - intros [st pg] Hall. cbn [state] in Hall. unfold App.create_filter_ui. run.
    reflexivity.
Qed.

Lemma empty_params_end_select_sport_witness :
  fst (run_alone env_no_params (Data.select_sport (world at_sport)))
  = emit SpinnerHidden (emit SpinnerShown (world at_sport)).
Proof.
  destruct (empty_params_end_select_sport env_no_params
              (with_value (PStr "Soccer") new_sport_radio) (world at_sport))
    as [[e Hrun] _]; [vm_compute; reflexivity | reflexivity | reflexivity |].
  rewrite Hrun. reflexivity.
Defined.

(** ** [set_buttons_visibility] at any index *)

Lemma set_buttons_visibility_unfold index :
  Data.set_buttons_visibility index
  = (set_visibility "arrow_sport_ui" (index =? 0)%Z ;;
     set_visibility "arrow_filter_ui" (index =? 1)%Z ;;
     set_visibility "arrow_extraction_ui" (index =? 2)%Z ;;
     set_visibility "download_ui" (index =? 3)%Z ;;
     ret tt).
Proof. reflexivity. Qed.

Lemma set_four_buttons b0 b1 b2 b3 a b c d st pg :
  st !! "arrow_sport_ui" = Some (Widget a) ->
  st !! "arrow_filter_ui" = Some (Widget b) ->
  st !! "arrow_extraction_ui" = Some (Widget c) ->
  st !! "download_ui" = Some (Widget d) ->
  (set_visibility "arrow_sport_ui" b0 ;;
   set_visibility "arrow_filter_ui" b1 ;;
   set_visibility "arrow_extraction_ui" b2 ;;
   set_visibility "download_ui" b3 ;;
   ret tt) {| state := st; page := pg |}
  = Ok tt {| state := <["download_ui" := Widget (with_visible b3 d)]>
                        (<["arrow_extraction_ui" := Widget (with_visible b2 c)]>
                           (<["arrow_filter_ui" := Widget (with_visible b1 b)]>
                              (<["arrow_sport_ui" := Widget (with_visible b0 a)]> st)));
             page := pg |}.
Proof. intros Ha Hb Hc Hd. run. reflexivity. Qed.

(** X6. [set_buttons_visibility(index)], for any integer [index], on a
    state that holds the four control buttons: it returns, changes nothing
    but the visibility of the four buttons (every other key of [state], the
    page, and what each button is and calls stay), and leaves the button at
    position [i] visible exactly when [index = i].  An index outside 0..3
    therefore hides all four buttons. *)
Theorem set_buttons_visibility_any_index (index : Z) (w : World) :
  has_buttons w ->
  exists w', Data.set_buttons_visibility index w = Ok tt w'
             /\ page w' = page w
             /\ (forall k, k ∉ Data.buttons_ui -> state w' !! k = state w !! k)
             /\ (forall (i : nat) k, Data.buttons_ui !! i = Some k ->
                   exists x, state w !! k = Some (Widget x)
                             /\ state w' !! k
                                = Some (Widget (with_visible (index =? Z.of_nat i)%Z x)))
             /\ ((index < 0 \/ 3 < index)%Z ->
                   shown w' = [Some false; Some false; Some false; Some false]).
Proof.
  intros (a & b & c & d & Ha & Hb & Hc & Hd)%has_buttons_inv.
  destruct w as [st pg]. cbn [state] in *.
  rewrite set_buttons_visibility_unfold.
  rewrite (set_four_buttons _ _ _ _ a b c d) by done.
  eexists. split; [reflexivity |]. split; [reflexivity |]. cbn [state]. split; [| split].
  - intros k Hk.
    assert (Hne : forall c, c ∈ Data.buttons_ui -> c <> k) by (intros ? ? ->; done).
    by rewrite !lookup_insert_ne by (apply Hne; repeat constructor).
  - intros i k Hi.
    destruct i as [| [| [| [| i]]]]; cbn in Hi; [| | | | done]; injection Hi as <-.
    + exists a. split; [done |]. by rewrite !lookup_insert_ne, lookup_insert_eq by discriminate.
    + exists b. split; [done |]. by rewrite !lookup_insert_ne, lookup_insert_eq by discriminate.
    + exists c. split; [done |]. by rewrite !lookup_insert_ne, lookup_insert_eq by discriminate.
    + exists d. split; [done |]. by rewrite lookup_insert_eq.
  - intros Hout. unfold shown, visibility. cbn [map Data.buttons_ui state].
    rewrite ?lookup_insert_eq, ?lookup_insert_ne by discriminate.
    rewrite lookup_insert_eq. rewrite !lookup_insert_ne by discriminate. rewrite lookup_insert_eq.
    rewrite !lookup_insert_ne by discriminate. rewrite lookup_insert_eq.
    cbn [visible with_visible].
    by rewrite !(proj2 (Z.eqb_neq _ _)) by lia.
Qed.

Lemma set_buttons_visibility_any_index_witness :
  exists w', Data.set_buttons_visibility 7 at_filter = Ok tt w'
             /\ shown w' = [Some false; Some false; Some false; Some false].
Proof.
  destruct (set_buttons_visibility_any_index 7 at_filter) as (w' & Hrun & _ & _ & _ & Hout).
  - vm_compute. repeat constructor; eexists; reflexivity.
  - exists w'. split; [exact Hrun | apply Hout; lia].
Defined.

(** ** A completion that arrives after the reset *)

(** X7. The reset of [_gui.py] cancels no pending fetch: [select_cancel]
    leaves the suspended handlers as they are.  A completion that arrives
    after it finds the mode toggle without a value and the buttons gone: the
    resumed handler writes its result into the reset [state] and then
    raises.  [select_sport] leaves the filter columns and rows and
    [select_filter] the odds types and their mapping, both ending in
    [KeyError] for ['arrow_sport_ui']; [select_extraction] leaves the
    training tables and ends in [KeyError] for ['dataloader'], without a
    call of [extract_fixtures_data]. *)
Theorem completion_after_cancel (s : Loop) :
  let s1 := trigger (finish Data.select_cancel) s in
  state (world s1) = state Data.boot
  /\ pending s1 = pending s
  /\ (forall p ps,
        exists w2, Data.resume_sport (RetRecords (p :: ps)) (world s1)
                   = Throw (KeyError (PStr "arrow_sport_ui")) w2
                   /\ state w2
                      = <["filter_rows" := Records (filter_rows (p :: ps))]>
                          (<["filter_columns" := Records (filter_columns_of p)]>
                             (state Data.boot)))
  /\ (forall odds_types,
        exists w2, Data.resume_filter (RetStrs odds_types) (world s1)
                   = Throw (KeyError (PStr "arrow_sport_ui")) w2
                   /\ state w2
                      = <["odds_types_mapping" := Mapping (displayed_mapping odds_types)]>
                          (<["odds_types" := Strs odds_types]> (state Data.boot)))
  /\ (forall x y o,
        exists w2, Data.resume_train (RetTables x y o) (world s1)
                   = Throw (KeyError (PStr "dataloader")) w2
                   /\ state w2
                      = <["O_train" := o]>
                          (<["Y_train" := y]> (<["X_train" := x]> (state Data.boot)))).
Proof.
  cbv zeta. destruct (select_cancel_resets (world s)) as (w1 & Hrun & Hst).
  assert (Hs1 : trigger (finish Data.select_cancel) s = {| world := w1; pending := pending s |}).
  { unfold trigger, finish, sync. by rewrite Hrun. }
  rewrite Hs1. cbn [world pending]. split; [done |]. split; [done |].
  destruct w1 as [st pg]. cbn [state] in Hst. subst st. rewrite data_boot_state.
  unfold mode_toggle. split; [| split].
  - intros p ps.
    unfold Data.resume_sport, finish, sync, Data.show_filter, Data.set_buttons_visibility.
    run. rewrite lookup_empty. eexists. split; [reflexivity |]. cbn [state].
    by rewrite insert_insert_eq.
  - intros odds_types.
    unfold Data.resume_filter, finish, sync, Data.show_extraction, Data.set_buttons_visibility.
    run. rewrite lookup_empty. eexists. split; [reflexivity |]. cbn [state].
    by rewrite insert_insert_eq.
  - intros x y o.
    unfold Data.resume_train, sync, Data.store_tables, Data.fixtures_call.
    run. rewrite lookup_empty. eexists. split; reflexivity.
Qed.

(** ** The filter table *)

(** X8. The columns of the filter table are the hidden id column followed
    by one column per key of the first fetched record, in the order of its
    keys; the other records add no column.  In [_data.py] with the mode
    toggle on ['Data'] the table built from ['filter_columns'] and
    ['filter_rows'] has these columns, the numbered records as rows and no
    row selected, and without the mode ['Data'] no table is built; in
    [app.py] the table is always built. *)
Theorem filter_table_of_first_record (p : record) (ps : list record) (w : World) :
  (forall m, state w !! "mode_ui" = Some (Widget m) ->
     let w' := after (Data.show_filter (p :: ps) w) in
     state w' !! "filter_columns" = Some (Records (filter_columns_of p))
     /\ state w' !! "filter_ui"
        = if decide (value m = PStr "Data")
          then Some (Widget (new_table (filter_columns_of p) (filter_rows (p :: ps))))
          else state w !! "filter_ui")
  /\ state (after (App.show_filter (p :: ps) w)) !! "filter_ui"
     = Some (Widget (new_table (filter_columns_of p) (filter_rows (p :: ps)))).
Proof.
  split; [| apply app_show_filter_rows].
  intros m Hm w'. subst w'.
  set (tbl := if decide (value m = PStr "Data")
              then Some (Widget (new_table (filter_columns_of p) (filter_rows (p :: ps))))
              else state w !! "filter_ui").
  set (I := fun st : gmap string obj =>
              st !! "filter_columns" = Some (Records (filter_columns_of p))
              /\ st !! "filter_ui" = tbl).
  set (w1 := after ((spinner_hide ;;
                     params_names <- params_names_of (p :: ps) ;;
                     setitem "filter_columns" (Records [id_column]) ;;
                     columns <- get_records "filter_columns" ;;
                     setitem "filter_columns" (Records (columns ++ map param_column params_names)) ;;
                     setitem "filter_rows" (Records (filter_rows (p :: ps))) ;;
                     Data.create_filter_ui) w)).
  assert (Hrun : Data.show_filter (p :: ps) w
                 = (Data.create_control_ui ;; Data.set_buttons_visibility 1 ;;
                    set_enabled "sport_ui" false) w1).
  { destruct w as [st pg]. cbn [state] in Hm. unfold w1, Data.show_filter.
    destruct (decide (value m = PStr "Data")); run; reflexivity. }
  rewrite Hrun.
  assert (Hg : guards I (Data.create_control_ui ;; Data.set_buttons_visibility 1 ;;
                         set_enabled "sport_ui" false)).
  { guards_writes; unfold I; intros; destruct_and!; split; by rewrite lookup_insert_ne. }
  apply (Hg w1). unfold I, w1, tbl. destruct w as [st pg]. cbn [state] in Hm |- *.
  destruct (decide (value m = PStr "Data")); run; done.
Qed.

Lemma filter_table_of_first_record_witness :
  state (after (Data.show_filter scenario_a (world at_sport))) !! "filter_ui"
  = Some (Widget (new_table [id_column; param_column "league"] (filter_rows scenario_a))).
Proof.
  apply (proj2 (proj1 (filter_table_of_first_record
                         [("league", PStr "E0")] [[("league", PStr "E1")]] (world at_sport))
                  (with_value (PStr "Data") mode_toggle) ltac:(vm_compute; reflexivity))).
Defined.

(** ** The mode guard of the refreshable functions *)

(** X9. The five refreshable functions of [_data.py] and [select_mode]
    build nothing unless the mode toggle reads ['Data']: with another value
    (['Betting'], or none) each returns and leaves the session as it was,
    and so does [select_mode] whenever the sport control is already in
    [state], whatever the mode.  Without a mode toggle in [state] each of
    them raises [KeyError] for ['mode_ui']. *)
Theorem nothing_built_outside_data_mode (w : World) :
  (forall m, state w !! "mode_ui" = Some (Widget m) -> value m <> PStr "Data" ->
     Data.create_sport_ui w = Ok tt w
     /\ Data.create_filter_ui w = Ok tt w
     /\ Data.create_extraction_ui w = Ok tt w
     /\ Data.create_data_ui w = Ok tt w
     /\ Data.create_control_ui w = Ok tt w
     /\ Data.select_mode w = Ok tt w)
  /\ (forall m, state w !! "mode_ui" = Some (Widget m) -> is_Some (state w !! "sport_ui") ->
        Data.select_mode w = Ok tt w)
  /\ (state w !! "mode_ui" = None ->
        Data.create_sport_ui w = Err (KeyError (PStr "mode_ui")) w
        /\ Data.create_filter_ui w = Err (KeyError (PStr "mode_ui")) w
        /\ Data.create_extraction_ui w = Err (KeyError (PStr "mode_ui")) w
        /\ Data.create_data_ui w = Err (KeyError (PStr "mode_ui")) w
        /\ Data.create_control_ui w = Err (KeyError (PStr "mode_ui")) w
        /\ Data.select_mode w = Err (KeyError (PStr "mode_ui")) w).
Proof.
  destruct w as [st pg]. cbn [state]. split; [| split].
  - intros m Hm Hv. repeat split; run; reflexivity.
  - intros m Hm Hs. unfold Data.select_mode. run.
    rewrite (bool_decide_eq_true_2 (is_Some (st !! "sport_ui"))) by done.
    by rewrite andb_false_r.
  - intros Hm. repeat split; run; reflexivity.
Qed.

Lemma nothing_built_outside_data_mode_witness :
  Data.create_control_ui at_filter_betting = Ok tt at_filter_betting
  /\ Data.select_mode at_filter = Ok tt at_filter.
Proof.
  split.
  - apply (proj1 (nothing_built_outside_data_mode at_filter_betting)
             (with_value (PStr "Betting") mode_toggle)); [vm_compute; reflexivity | discriminate].
  - apply (proj1 (proj2 (nothing_built_outside_data_mode at_filter))
             (with_value (PStr "Data") mode_toggle)); [vm_compute; reflexivity |].
    vm_compute. by eexists.
Defined.

(** ** The data tables *)

#[local] Arguments head_records : simpl never.
#[local] Arguments data_column : simpl never.

Ltac frame_lookups :=
  let Hne := fresh "Hne" in
  match goal with
  | Hk : ?k ∉ ?l |- _ =>
      assert (Hne : forall c, c ∈ l -> c <> k) by (intros ? ? ->; done);
      rewrite !lookup_insert_ne by (apply Hne; repeat constructor)
  end.

Lemma create_data_ui_run (m : widget) (x_train y_train x_fix : DataFrame)
    (o_train o_fix : option DataFrame) (y_fix : obj) (w : World) :
  state w !! "mode_ui" = Some (Widget m) -> value m = PStr "Data" ->
  state w !! "X_train" = Some (Frame x_train) ->
  state w !! "Y_train" = Some (Frame y_train) ->
  state w !! "O_train" = Some (frame_or_none o_train) ->
  state w !! "X_fix" = Some (Frame x_fix) ->
  state w !! "Y_fix" = Some y_fix ->
  state w !! "O_fix" = Some (frame_or_none o_fix) ->
  exists w', Data.create_data_ui w = Ok tt w'
             /\ page w' = page w
             /\ (forall k, k ∉ data_tables -> state w' !! k = state w !! k)
             /\ map (fun k => rows_of k w') data_tables
                = [head_records x_train; head_records y_train;
                   from_option head_records [] o_train;
                   head_records x_fix; []; from_option head_records [] o_fix]
             /\ map (fun k => columns_of k w') data_tables
                = [map (data_column input_label) (df_columns x_train);
                   map (data_column (target_label 1)) (df_columns y_train);
                   from_option (fun f => map (data_column (target_label 2)) (df_columns f))
                     [] o_train;
                   map (data_column input_label) (df_columns x_fix);
                   map (data_column (target_label 1)) (df_columns y_train);
                   from_option (fun f => map (data_column (target_label 2)) (df_columns f))
                     [] o_fix]
             /\ Forall (fun rows : list record => (length rows <= max_n_rows)%nat)
                  (map (fun k => rows_of k w') data_tables).
Proof.
  intros Hm Hv Hx Hy Ho Hxf Hyf Hof. destruct w as [st pg]. cbn [state] in *.
  assert (Hhead : forall f, (length (head_records f) <= max_n_rows)%nat).
  { intros f. unfold head_records. rewrite length_take. apply Nat.le_min_l. }
  unfold Data.create_data_ui.
  destruct o_train as [f_train |], o_fix as [f_fix |]; cbn [frame_or_none] in Ho, Hof; run.
  all: eexists; split; [reflexivity |]; split; [reflexivity |]; cbn [state].
  all: split; [intros k Hk; frame_lookups; done |].
  all: unfold rows_of, columns_of, data_tables; cbn [map state]; run_lookups.
  all: split; [reflexivity |]; split; [reflexivity |]; cbn [from_option].
  all: repeat (constructor; [first [apply Hhead | apply Nat.le_0_l] |]); constructor.
Qed.

(** X10. [create_data_ui] of [_data.py], in the mode ['Data'] with the six
    extracted tables in [state]: it returns and stores six tables, changing
    no other key.  Each table shows the first 10000 rows of its data at
    most; the output table of the fixtures shows no row, whatever ['Y_fix']
    holds, under the columns of the training output; and an odds table
    that is [None] is shown without columns and rows. *)
Theorem data_ui_tables (m : widget) (x_train y_train x_fix : DataFrame)
    (o_train o_fix : option DataFrame) (y_fix : obj) (w : World) :
  state w !! "mode_ui" = Some (Widget m) -> value m = PStr "Data" ->
  state w !! "X_train" = Some (Frame x_train) ->
  state w !! "Y_train" = Some (Frame y_train) ->
  state w !! "O_train" = Some (frame_or_none o_train) ->
  state w !! "X_fix" = Some (Frame x_fix) ->
  state w !! "Y_fix" = Some y_fix ->
  state w !! "O_fix" = Some (frame_or_none o_fix) ->
  exists w', Data.create_data_ui w = Ok tt w'
             /\ page w' = page w
             /\ (forall k, k ∉ data_tables -> state w' !! k = state w !! k)
             /\ map (fun k => rows_of k w') data_tables
                = [head_records x_train; head_records y_train;
                   from_option head_records [] o_train;
                   head_records x_fix; []; from_option head_records [] o_fix]
             /\ map (fun k => columns_of k w') data_tables
                = [map (data_column input_label) (df_columns x_train);
                   map (data_column (target_label 1)) (df_columns y_train);
                   from_option (fun f => map (data_column (target_label 2)) (df_columns f))
                     [] o_train;
                   map (data_column input_label) (df_columns x_fix);
                   map (data_column (target_label 1)) (df_columns y_train);
                   from_option (fun f => map (data_column (target_label 2)) (df_columns f))
                     [] o_fix]
             /\ Forall (fun rows : list record => (length rows <= max_n_rows)%nat)
                  (map (fun k => rows_of k w') data_tables).
Proof. apply create_data_ui_run. Qed.

Lemma data_ui_tables_witness :
  exists w', Data.create_data_ui at_export = Ok tt w'
             /\ map (fun k => rows_of k w') data_tables = [[]; []; []; []; []; []].
Proof.
  destruct (data_ui_tables (with_value (PStr "Data") mode_toggle)
              {| df_columns := ["home_team__points"]; df_records := [] |}
              {| df_columns := ["output__home_win__full_time_goals"]; df_records := [] |}
              {| df_columns := ["home_team__points"]; df_records := [] |}
              None None NoneObj at_export
              ltac:(vm_compute; reflexivity) eq_refl
              ltac:(vm_compute; reflexivity) ltac:(vm_compute; reflexivity)
              ltac:(vm_compute; reflexivity) ltac:(vm_compute; reflexivity)
              ltac:(vm_compute; reflexivity) ltac:(vm_compute; reflexivity))
    as (w' & Hrun & _ & _ & Hrows & _).
  exists w'. split; [exact Hrun | exact Hrows].
Defined.

(** ** The end of the extraction *)

Lemma bind_Ok {A B} (m : M A) (k : A -> M B) w a w' : m w = Ok a w' -> bind m k w = k a w'.
Proof. intros H. unfold bind. by rewrite H. Qed.

Lemma bind_Err {A B} (m : M A) (k : A -> M B) w e w' : m w = Err e w' -> bind m k w = Err e w'.
Proof. intros H. unfold bind. by rewrite H. Qed.

Ltac inserted_lookup :=
  cbn [state emit with_state];
  repeat first [rewrite lookup_insert_eq | rewrite lookup_insert_ne by discriminate].

Ltac not_in_list :=
  let Hin := fresh "Hin" in
  unfold data_tables, Data.buttons_ui; intros Hin;
  repeat (apply elem_of_cons in Hin as [Hin | Hin]; [discriminate |]);
  by apply elem_of_nil in Hin.

Lemma data_controls_end_run m sel t w :
  state w !! "mode_ui" = Some (Widget m) -> value m = PStr "Data" ->
  state w !! "odds_type_ui" = Some (Widget sel) ->
  state w !! "drop_na_thres_ui" = Some (Widget t) ->
  exists w', data_controls_end w = Ok tt w'
             /\ cursor_at 3 w'
             /\ clickable "download_ui" w' = true
             /\ disabled "odds_type_ui" w'
             /\ disabled "drop_na_thres_ui" w'
             /\ (forall k, k ∉ Data.buttons_ui -> k ∉ ["odds_type_ui"; "drop_na_thres_ui"] ->
                   state w' !! k = state w !! k).
Proof.
  intros Hm Hv Hsel Ht. destruct w as [st pg]. cbn [state] in *.
  unfold data_controls_end, Data.set_buttons_visibility. run.
  eexists. split; [reflexivity |].
  unfold cursor_at, shown, visibility, clickable, disabled; cbn [map Data.buttons_ui state].
  run_lookups.
  split; [reflexivity |]. split; [reflexivity |].
  split; [eexists; split; [reflexivity | done] |].
  split; [eexists; split; [reflexivity | done] |].
  intros k Hk Hk'.
  assert (Hne : forall c, c ∈ Data.buttons_ui -> c <> k) by (intros ? ? ->; done).
  assert (Hne' : forall c, c ∈ ["odds_type_ui"; "drop_na_thres_ui"] -> c <> k)
    by (intros ? ? ->; done).
  rewrite !lookup_insert_ne
    by (first [by apply Hne; repeat constructor | by apply Hne'; repeat constructor]).
  done.
Qed.

(** X11. The completion of the fixtures fetch in [_data.py], with the mode
    toggle on ['Data'] and the training tables in [state]: the handler
    stores the three fixtures tables and ends with the download button the
    one visible control, clickable, and the odds-type selector and the
    threshold disabled.  An odds table that is [None], in the training or in
    the fixtures data, does not stop it. *)
Theorem data_extraction_completes (m sel t : widget) (x_train y_train x_fix : DataFrame)
    (o_train o_fix : option DataFrame) (y_fix : obj) (w : World) :
  state w !! "mode_ui" = Some (Widget m) -> value m = PStr "Data" ->
  state w !! "X_train" = Some (Frame x_train) ->
  state w !! "Y_train" = Some (Frame y_train) ->
  state w !! "O_train" = Some (frame_or_none o_train) ->
  state w !! "odds_type_ui" = Some (Widget sel) ->
  state w !! "drop_na_thres_ui" = Some (Widget t) ->
  exists w',
    Data.resume_fixtures (RetTables (Frame x_fix) y_fix (frame_or_none o_fix)) w = Finish w'
    /\ cursor_at 3 w'
    /\ clickable "download_ui" w' = true
    /\ disabled "odds_type_ui" w'
    /\ disabled "drop_na_thres_ui" w'
    /\ state w' !! "X_fix" = Some (Frame x_fix)
    /\ state w' !! "Y_fix" = Some y_fix
    /\ state w' !! "O_fix" = Some (frame_or_none o_fix).
Proof.
  intros Hm Hv Hx Hy Ho Hsel Ht.
  set (w1 := emit SpinnerHidden
               (with_state (insert "O_fix" (frame_or_none o_fix))
                  (with_state (insert "Y_fix" y_fix)
                     (with_state (insert "X_fix" (Frame x_fix)) w)))).
  assert (Hstart : (Data.store_tables "X_fix" "Y_fix" "O_fix"
                      (Frame x_fix) y_fix (frame_or_none o_fix) ;; Data.show_data) w
                   = (Data.create_data_ui ;; data_controls_end) w1) by reflexivity.
  assert (H1 : state w1 !! "mode_ui" = Some (Widget m)) by (unfold w1; by inserted_lookup).
  assert (H2 : state w1 !! "X_train" = Some (Frame x_train)) by (unfold w1; by inserted_lookup).
  assert (H3 : state w1 !! "Y_train" = Some (Frame y_train)) by (unfold w1; by inserted_lookup).
  assert (H4 : state w1 !! "O_train" = Some (frame_or_none o_train)) by (unfold w1; by inserted_lookup).
  assert (H5 : state w1 !! "X_fix" = Some (Frame x_fix)) by (unfold w1; by inserted_lookup).
  assert (H6 : state w1 !! "Y_fix" = Some y_fix) by (unfold w1; by inserted_lookup).
  assert (H7 : state w1 !! "O_fix" = Some (frame_or_none o_fix)) by (unfold w1; by inserted_lookup).
  destruct (create_data_ui_run m x_train y_train x_fix o_train o_fix y_fix w1 H1 Hv H2 H3 H4 H5 H6 H7)
    as (w2 & Hrun2 & _ & Hsame & _).
  assert (Hold : forall k, k ∉ data_tables -> k ∉ ["X_fix"; "Y_fix"; "O_fix"] ->
                   state w2 !! k = state w !! k).
  { intros k Hk Hk'. rewrite (Hsame k Hk). unfold w1. cbn [state emit with_state].
    assert (Hne : forall c, c ∈ ["X_fix"; "Y_fix"; "O_fix"] -> c <> k) by (intros ? ? ->; done).
    by rewrite !lookup_insert_ne by (apply Hne; repeat constructor). }
  destruct (data_controls_end_run m sel t w2) as (w3 & Hrun3 & Hcur & Hclick & Hds & Hdt & Hsame3).
  { rewrite Hold; [done | not_in_list | not_in_list]. }
  { done. }
  { rewrite Hold; [done | not_in_list | not_in_list]. }
  { rewrite Hold; [done | not_in_list | not_in_list]. }
  exists w3. split.
  { unfold Data.resume_fixtures, finish, sync. rewrite Hstart.
    rewrite (bind_Ok _ _ _ _ _ Hrun2). by rewrite Hrun3. }
  split; [done |]. split; [done |]. split; [done |]. split; [done |].
  rewrite !Hsame3 by not_in_list. rewrite !Hsame by not_in_list. done.
Qed.

Lemma data_extraction_completes_witness :
  exists w',
    Data.resume_fixtures (RetTables (Frame frame_points) NoneObj NoneObj) awaiting_fixtures
    = Finish w'
    /\ cursor_at 3 w'.
Proof.
  destruct (data_extraction_completes
              (with_value (PStr "Data") mode_toggle)
              (new_widget (Select (displayed_mapping ["market_average"; "market_maximum"]))
                 no_callback (PStr "market_average"))
              new_threshold frame_points frame_goals frame_points None None NoneObj
              awaiting_fixtures)
    as (w' & Hrun & Hcur & _); try (vm_compute; reflexivity).
  exists w'. split; [exact Hrun | exact Hcur].
Defined.

Lemma reads_bind {A B} (m : M A) (k : A -> M B) w :
  (forall w, after (m w) = w) -> (forall a w, after (k a w) = w) -> after (bind m k w) = w.
Proof.
  intros Hm Hk. unfold bind. specialize (Hm w).
  destruct (m w) as [a w' | e w']; cbn in Hm; subst w'; [apply Hk | done].
Qed.

Lemma reads_get_frame k w : after (get_frame k w) = w.
Proof.
  unfold get_frame, bind, getitem.
  destruct (state w !! k) as [[] |]; done.
Qed.

(** X12. [create_data_ui] of [app.py] keeps none of its tables in [state],
    and reads the columns of both odds tables without a test for [None].
    So when the training or the fixtures data come without odds, the
    completion of the fixtures fetch stores the fixtures tables and ends in
    [AttributeError] with the control buttons as before: the download button
    is not shown.  With both odds tables present it ends with the download
    button the one visible control, the odds-type selector carrying the
    property ['disabled'] and the threshold disabled. *)
Theorem app_data_ui_needs_odds (x_train y_train : DataFrame) (o_train : option DataFrame)
    (x y o : obj) (w : World) :
  state w !! "X_train" = Some (Frame x_train) ->
  state w !! "Y_train" = Some (Frame y_train) ->
  state w !! "O_train" = Some (frame_or_none o_train) ->
  (forall w0, after (App.create_data_ui w0) = w0)
  /\ (o_train = None \/ (exists x_fix, x = Frame x_fix /\ o = NoneObj) ->
        exists w', App.resume_fixtures (RetTables x y o) w = Throw AttributeError w'
                   /\ shown w' = shown w
                   /\ state w' = <["O_fix" := o]> (<["Y_fix" := y]> (<["X_fix" := x]> (state w))))
  /\ (forall f x_fix o_fix sel t,
        o_train = Some f -> x = Frame x_fix -> o = Frame o_fix ->
        cursor_at 2 w ->
        state w !! "odds_type_ui" = Some (Widget sel) ->
        state w !! "drop_na_thres_ui" = Some (Widget t) ->
        exists w', App.resume_fixtures (RetTables x y o) w = Finish w'
                   /\ cursor_at 3 w'
                   /\ has_prop "disabled" "odds_type_ui" w'
                   /\ disabled "drop_na_thres_ui" w').
Proof.
  intros Hx Hy Ho. split; [| split].
  - intros w0. unfold App.create_data_ui.
    apply reads_bind; [done |]. intros [|] w1; [| done].
    repeat (apply reads_bind; [apply reads_get_frame | intros ? ?]). done.
  - intros Hnone. destruct w as [st pg]. cbn [state] in *.
    unfold App.resume_fixtures, finish, sync, App.show_data, App.store_tables.
    destruct Hnone as [-> | (x_fix & -> & ->)]; [| destruct o_train as [f |]];
      cbn [frame_or_none] in Ho; run.
    all: eexists; split; [reflexivity |]; split; [| reflexivity].
    all: unfold shown, visibility; cbn [map Data.buttons_ui state]; by run_lookups.
  - intros f x_fix o_fix sel t -> -> -> Hcur Hsel Ht.
    assert (Hb : has_buttons w).
    { unfold has_buttons. rewrite Hcur. repeat constructor; eexists; reflexivity. }
    destruct (has_buttons_inv w Hb) as (a & b & c & d & Ha & Hb' & Hc & Hd).
    unfold cursor_at, shown, visibility in Hcur. cbn [map Data.buttons_ui] in Hcur.
    rewrite Ha, Hb', Hc, Hd in Hcur. injection Hcur as Hva Hvb Hvc Hvd.
    destruct w as [st pg]. cbn [state frame_or_none] in *.
    unfold App.resume_fixtures, finish, sync, App.show_data, App.store_tables. run.
    eexists; split; [reflexivity |].
    unfold cursor_at, shown, visibility, has_prop, disabled; cbn [map Data.buttons_ui state].
    run_lookups. split; [by rewrite Hva, Hvb |].
    split; eexists; (split; [reflexivity |]); [| done].
    cbn [props with_props]. case_bool_decide; [done |]. apply elem_of_app. right.
    apply list_elem_of_here.
Qed.

Lemma app_data_ui_needs_odds_witness :
  exists w',
    App.resume_fixtures (RetTables (Frame frame_points) NoneObj NoneObj) app_awaiting_fixtures
    = Throw AttributeError w'
    /\ shown w' = shown app_awaiting_fixtures.
Proof.
  destruct (app_data_ui_needs_odds frame_points frame_goals None
              (Frame frame_points) NoneObj NoneObj app_awaiting_fixtures)
    as (_ & Hnone & _); try (vm_compute; reflexivity).
  destruct (Hnone (or_introl eq_refl)) as (w' & Hrun & Hshown & _).
  exists w'. split; [exact Hrun | exact Hshown].
Defined.

(** ** Before the first await *)

Lemma value_of_cases k w :
  (exists x, state w !! k = Some (Widget x) /\ value_of k w = Ok (value x) w)
  \/ (exists e, value_of k w = Err e w).
Proof.
  unfold value_of, bind, get_widget, bind, getitem.
  destruct (state w !! k) as [[x | | | | | |] |]; cbn; eauto.
Qed.

Lemma selected_of_cases k w :
  (exists sel, selected_of k w = Ok sel w) \/ (exists e, selected_of k w = Err e w).
Proof.
  unfold selected_of, bind, get_widget, bind, getitem.
  destruct (state w !! k) as [[x | | | | | |] |]; cbn; eauto.
  destruct (elem x); cbn; eauto.
Qed.

Lemma build_dataloader_cases sel w :
  (exists dl, param_grid dl = make_param_grid sel
              /\ Data.build_dataloader sel w
                 = Ok dl (emit SpinnerShown (with_state (insert "dataloader" (DataLoader dl)) w))
              /\ App.build_dataloader sel w
                 = Ok dl (emit SpinnerShown (with_state (insert "dataloader" (DataLoader dl)) w)))
  \/ (exists e, Data.build_dataloader sel w = Err e w /\ App.build_dataloader sel w = Err e w).
Proof.
  destruct (value_of_cases "sport_ui" w) as [(s & Hs & Hrun) | (e & Hrun)].
  - destruct (dict_get (value s) DATALOADERS) as [cls |] eqn:Hcls.
    + left. eexists. split; [| by apply (build_dataloader_run s cls)]. reflexivity.
    + right. exists (KeyError (value s)).
      unfold Data.build_dataloader, App.build_dataloader, bind. rewrite Hrun.
      unfold dataloaders_getitem. by rewrite Hcls.
  - right. exists e. unfold Data.build_dataloader, App.build_dataloader, bind. by rewrite Hrun.
Qed.

Lemma train_call_cases w :
  (exists dl sel t, state w !! "dataloader" = Some (DataLoader dl)
                    /\ state w !! "odds_type_ui" = Some (Widget sel)
                    /\ state w !! "drop_na_thres_ui" = Some (Widget t)
                    /\ Data.train_call w = Ok (ExtractTrainData dl (value sel) (value t)) w
                    /\ App.get_train_data w = Ok (ExtractTrainData dl (value sel) (value t)) w)
  \/ (exists e, Data.train_call w = Err e w /\ App.get_train_data w = Err e w).
Proof.
  destruct w as [st pg]. unfold Data.train_call, App.get_train_data. run.
  destruct (st !! "dataloader") as [[| | | | dl | |] |] eqn:Hdl; cbn; eauto.
  destruct (st !! "odds_type_ui") as [[sel | | | | | |] |] eqn:Hsel; cbn; eauto.
  destruct (st !! "drop_na_thres_ui") as [[t | | | | | |] |] eqn:Ht; cbn; eauto.
  left. by exists dl, sel, t.
Qed.

Ltac phase_done :=
  unfold finish, sync, notify; cbn [first_phase fst snd];
  repeat split; try done; intros; discriminate.

Lemma select_sport_first_phase h w :
  h = Data.select_sport \/ h = App.select_sport ->
  state (fst (first_phase (h w))) = state w
  /\ forall c, snd (first_phase (h w)) = Some c -> c = GetAllParams SoccerDataLoader.
Proof.
  intros Hh. destruct (value_of_cases "sport_ui" w) as [(x & Hx & Hrun) | (e & Hrun)].
  - destruct (decide (value x = PStr "Soccer")) as [Hv | Hv].
    + destruct Hh as [-> | ->];
        [rewrite (data_select_sport_soccer x) by done
        | rewrite (app_select_sport_soccer x) by done].
      all: split; [done |]; intros c [= ?]; by subst c.
    + destruct (decide (value x = PNone)) as [Hn | Hn].
      * destruct (select_sport_none x w Hx Hn) as [HD HA].
        destruct Hh as [-> | ->]; [rewrite HD | rewrite HA]; phase_done.
      * destruct (select_sport_other x w Hx Hv Hn) as [HD HA].
        destruct Hh as [-> | ->]; [rewrite HD | rewrite HA]; phase_done.
  - destruct Hh as [-> | ->]; unfold Data.select_sport, App.select_sport, sync;
      rewrite Hrun; phase_done.
Qed.

Lemma select_filter_first_phase h w :
  h = Data.select_filter \/ h = App.select_filter ->
  match snd (first_phase (h w)) with
  | Some c => exists dl, c = GetOddsTypes dl
                         /\ param_grid dl <> []
                         /\ state (fst (first_phase (h w)))
                            = <["dataloader" := DataLoader dl]> (state w)
  | None => state (fst (first_phase (h w))) = state w
  end.
Proof.
  intros Hh. destruct (selected_of_cases "filter_ui" w) as [(sel & Hrun) | (e & Hrun)].
  - destruct sel as [| r sel].
    + destruct Hh as [-> | ->]; unfold Data.select_filter, App.select_filter, sync;
        rewrite Hrun; phase_done.
    + destruct (build_dataloader_cases (r :: sel) w) as [(dl & Hgrid & HD & HA) | (e & HD & HA)].
      * destruct Hh as [-> | ->]; unfold Data.select_filter, App.select_filter, sync;
          rewrite Hrun; [rewrite HD | rewrite HA]; cbn [first_phase await fst snd].
        all: exists dl; split; [done |]; split; [by rewrite Hgrid | done].
      * destruct Hh as [-> | ->]; unfold Data.select_filter, App.select_filter, sync;
          rewrite Hrun; [rewrite HD | rewrite HA]; phase_done.
  - destruct Hh as [-> | ->]; unfold Data.select_filter, App.select_filter, sync;
      rewrite Hrun; phase_done.
Qed.

Lemma select_extraction_first_phase h w :
  h = Data.select_extraction \/ h = App.select_extraction ->
  fst (first_phase (h w)) = emit SpinnerShown w
  /\ (forall w', h w <> Finish w')
  /\ forall c, snd (first_phase (h w)) = Some c ->
       exists dl sel t, state w !! "dataloader" = Some (DataLoader dl)
                        /\ state w !! "odds_type_ui" = Some (Widget sel)
                        /\ state w !! "drop_na_thres_ui" = Some (Widget t)
                        /\ c = ExtractTrainData dl (value sel) (value t).
Proof.
  intros Hh.
  destruct (train_call_cases (emit SpinnerShown w))
    as [(dl & sel & t & Hdl & Hsel & Ht & HD & HA) | (e & HD & HA)].
  - destruct (select_extraction_issues dl sel t w Hdl Hsel Ht) as [HD' HA'].
    destruct Hh as [-> | ->]; [rewrite HD' | rewrite HA']; cbn [first_phase await fst snd].
    all: split; [done |]; split; [done |]; intros c [= ?]; subst c; by exists dl, sel, t.
  - assert (HD' : Data.select_extraction w = Throw e (emit SpinnerShown w)).
    { unfold Data.select_extraction, sync. unfold bind at 1, spinner_show. by rewrite HD. }
    assert (HA' : App.select_extraction w = Throw e (emit SpinnerShown w)).
    { unfold App.select_extraction, sync. unfold bind at 1, spinner_show. by rewrite HA. }
    destruct Hh as [-> | ->]; [rewrite HD' | rewrite HA']; phase_done.
Qed.

(** X13. What the three handlers of either wizard have done when they
    first give control back, whatever [state] holds.  [select_sport] has
    written nothing, and the one fetch it ever issues is that of the
    parameters of the Soccer dataloader.  [select_filter] has written
    nothing unless it issues the odds-type fetch, and then exactly the
    dataloader the fetch is issued on, whose parameter grid is not empty.
    [select_extraction] never ends without a fetch: it has shown its
    spinner and either raised or issued the training-data fetch with the
    dataloader, the odds type and the threshold read from [state], having
    written nothing. *)
Theorem handlers_until_first_await (w : World) :
  (forall h, h = Data.select_sport \/ h = App.select_sport ->
     state (fst (first_phase (h w))) = state w
     /\ forall c, snd (first_phase (h w)) = Some c -> c = GetAllParams SoccerDataLoader)
  /\ (forall h, h = Data.select_filter \/ h = App.select_filter ->
        match snd (first_phase (h w)) with
        | Some c => exists dl, c = GetOddsTypes dl
                               /\ param_grid dl <> []
                               /\ state (fst (first_phase (h w)))
                                  = <["dataloader" := DataLoader dl]> (state w)
        | None => state (fst (first_phase (h w))) = state w
        end)
  /\ (forall h, h = Data.select_extraction \/ h = App.select_extraction ->
        fst (first_phase (h w)) = emit SpinnerShown w
        /\ (forall w', h w <> Finish w')
        /\ forall c, snd (first_phase (h w)) = Some c ->
             exists dl sel t, state w !! "dataloader" = Some (DataLoader dl)
                              /\ state w !! "odds_type_ui" = Some (Widget sel)
                              /\ state w !! "drop_na_thres_ui" = Some (Widget t)
                              /\ c = ExtractTrainData dl (value sel) (value t)).
Proof.
  split; [| split].
  - intros h Hh. by apply select_sport_first_phase.
  - intros h Hh. by apply select_filter_first_phase.
  - intros h Hh. by apply select_extraction_first_phase.
Qed.

Lemma handlers_until_first_await_witness :
  fst (first_phase (Data.select_extraction Data.boot)) = emit SpinnerShown Data.boot.
Proof.
  apply (proj2 (proj2 (handlers_until_first_await Data.boot)) Data.select_extraction
           (or_introl eq_refl)).
Defined.

(** ** The session of [_gui.py] *)

Lemma settles_and (I J : gmap string obj -> Prop) a :
  settles I a -> settles J a -> settles (fun m => I m /\ J m) a.
Proof.
  induction a as [w | e w | w c k IH]; cbn [settles]; [done | done |].
  intros [HI HkI] [HJ HkJ]. split; [done |].
  intros r w' [HI' HJ']. apply IH; [by apply HkI | by apply HkJ].
Qed.

Lemma started_guards {A} (m : M A) :
  guards frame_kept m -> guards one_visible m -> guards started m.
Proof. intros Hk Hv w [HK HV]. split; [by apply Hk | by apply Hv]. Qed.

Lemma started_cguards (h : Coro) :
  cguards frame_kept h -> cguards one_visible h -> cguards started h.
Proof. intros Hk Hv w [HK HV]. apply settles_and; [by apply Hk | by apply Hv]. Qed.

Lemma frame_kept_insert k o m :
  k ∉ ["mode_ui"; "sport_ui"; "cancel_ui"] -> frame_kept m -> frame_kept (<[k:=o]> m).
Proof.
  intros Hk [Hm Hs Hc].
  assert (Hne : forall c, c ∈ ["mode_ui"; "sport_ui"; "cancel_ui"] -> k <> c)
    by (intros ? ? ->; done).
  split; (rewrite lookup_insert_ne; [done | apply Hne; repeat constructor]).
Qed.

Lemma frame_kept_sport x m : frame_kept m -> frame_kept (<["sport_ui":=Widget x]> m).
Proof.
  intros [Hm Hs Hc]. split.
  - by rewrite lookup_insert_ne.
  - rewrite lookup_insert_eq. by eexists.
  - by rewrite lookup_insert_ne.
Qed.

Ltac not_kept :=
  let Hin := fresh "Hin" in
  intros Hin;
  repeat (apply elem_of_cons in Hin as [Hin | Hin]; [discriminate |]);
  by apply elem_of_nil in Hin.

Ltac kept_write :=
  lazymatch goal with
  | |- forall m, frame_kept m -> frame_kept (<["sport_ui":=_]> m) =>
      intros ? ?; by apply frame_kept_sport
  | |- forall m, frame_kept m -> frame_kept (<[_:=_]> m) =>
      intros ? ?; apply frame_kept_insert; [not_kept | assumption]
  | |- forall m x, frame_kept m -> _ -> frame_kept (<["sport_ui":=_]> m) =>
      intros ? ? ? ?; by apply frame_kept_sport
  | |- forall m x, frame_kept m -> _ -> frame_kept (<[_:=_]> m) =>
      intros ? ? ? ?; apply frame_kept_insert; [not_kept | assumption]
  end.

Ltac kept_step :=
  lazymatch goal with
  | |- guards frame_kept _ => guards_step
  | |- cguards frame_kept _ => cguards_step
  | |- _ => kept_write
  end.

Lemma kept_select_sport : cguards frame_kept Data.select_sport.
Proof.
  unfold Data.select_sport. repeat kept_step.
  all: unfold Data.resume_sport; repeat kept_step.
Qed.

Lemma kept_select_filter : cguards frame_kept Data.select_filter.
Proof.
  unfold Data.select_filter. repeat kept_step.
  all: unfold Data.resume_filter; repeat kept_step.
Qed.

Lemma kept_select_extraction : cguards frame_kept Data.select_extraction.
Proof.
  unfold Data.select_extraction. repeat kept_step.
  all: unfold Data.resume_train; repeat kept_step.
  all: unfold Data.resume_fixtures; repeat kept_step.
Qed.

Lemma select_mode_idle m w :
  state w !! "mode_ui" = Some (Widget m) -> is_Some (state w !! "sport_ui") ->
  Data.select_mode w = Ok tt w.
Proof.
  intros Hm Hs. destruct w as [st pg]. cbn [state] in *. unfold Data.select_mode. run.
  rewrite (bool_decide_eq_true_2 (is_Some (st !! "sport_ui"))) by done.
  by rewrite andb_false_r.
Qed.

Lemma started_widget_update k f w :
  k ∉ "mode_ui" :: "cancel_ui" :: Data.buttons_ui ->
  started (state w) -> started (state (after (update_widget k f w))).
Proof.
  intros Hk. cut (guards started (update_widget k f)); [intros Hg; exact (Hg w) |].
  assert (Hne : forall c, c ∈ "mode_ui" :: "cancel_ui" :: Data.buttons_ui -> k <> c)
    by (intros ? ? ->; done).
  apply started_guards; apply guards_update_widget; intros m x HI Hx.
  - destruct HI as [Hm Hs Hc]. split.
    + rewrite lookup_insert_ne; [done | apply Hne; repeat constructor].
    + destruct (decide (k = "sport_ui")) as [-> | Hks].
      * rewrite lookup_insert_eq. by eexists.
      * by rewrite lookup_insert_ne.
    + rewrite lookup_insert_ne; [done | apply Hne; repeat constructor].
  - apply one_visible_insert; [| done]. intros Hin. apply Hk. by do 2 apply list_elem_of_further.
Qed.

Lemma not_started_step w ev :
  not_started (state w) ->
  started (state (Data.step w ev)) \/ not_started (state (Data.step w ev)).
Proof.
  intros (v0 & Hv0 & Hst). destruct w as [st pg]. cbn [state] in Hst. subst st.
  assert (Hsame : not_started
                    (state {| state := <["mode_ui" := Widget (with_value v0 mode_toggle)]> ∅;
                              page := pg |})) by (by exists v0).
  destruct ev as [v | v | rows | k | v | env | env | env | save |];
    unfold Data.step, editable, clickable; cbn [state].
  2-10: rewrite lookup_insert_ne by discriminate; rewrite lookup_empty; by right.
  unfold options_of, value_at. cbn [state]. rewrite lookup_insert_eq.
  cbn [with_value mode_toggle new_widget elem value visible enabled props].
  destruct (decide (v ∈ [PStr "Data"; PStr "Betting"])) as [Hin | Hout].
  - apply elem_of_cons in Hin as [-> | Hin]; [| apply list_elem_of_singleton in Hin as ->].
    + left. destruct Hv0 as [-> | ->].
      * split; [split |].
        -- exists (PStr "Data"). split; [by left | vm_compute; reflexivity].
        -- eexists. vm_compute. reflexivity.
        -- vm_compute. reflexivity.
        -- exists 0%nat. split; [lia | vm_compute; reflexivity].
      * split; [split |].
        -- exists (PStr "Data"). split; [by left | vm_compute; reflexivity].
        -- eexists. vm_compute. reflexivity.
        -- vm_compute. reflexivity.
        -- exists 0%nat. split; [lia | vm_compute; reflexivity].
    + right. exists (PStr "Betting"). split; [by right |].
      destruct Hv0 as [-> | ->]; vm_compute; reflexivity.
  - rewrite (bool_decide_eq_false_2 _ Hout). rewrite andb_false_r. cbn. by right.
Qed.

Lemma started_step w ev :
  started (state w) ->
  started (state (Data.step w ev)) \/ not_started (state (Data.step w ev)).
Proof.
  intros Hst. pose proof Hst as [[(v0 & Hv0 & Hm) Hs Hc] Hvis].
  destruct ev as [v | v | rows | k | v | env | env | env | save |]; cbn [Data.step].
  - destruct (editable "mode_ui" w); [| by left]. unfold options_of, value_at. rewrite Hm.
    cbn [with_value mode_toggle new_widget elem value andb].
    destruct (decide (v ∈ [PStr "Data"; PStr "Betting"])) as [Hopt | Hout];
      [| rewrite (bool_decide_eq_false_2 _ Hout); by left].
    destruct (bool_decide (v ∈ _) && bool_decide (v <> v0)); [| by left].
    left. unfold bind, set_value. rewrite (update_widget_Some _ _ _ _ Hm).
    rewrite (select_mode_idle (with_value v (with_value v0 mode_toggle)));
      [| cbn; by rewrite lookup_insert_eq
       | cbn; rewrite lookup_insert_ne by discriminate; destruct Hs as [s ->]; by eexists].
    cbn [after state with_state]. split; [split |].
    + exists v. rewrite lookup_insert_eq. split; [| done].
      apply elem_of_cons in Hopt as [-> | Hopt]; [by left |].
      apply list_elem_of_singleton in Hopt as ->. by right.
    + by rewrite lookup_insert_ne.
    + by rewrite lookup_insert_ne.
    + apply one_visible_insert; [not_a_button | done].
  - destruct (_ && _); [| by left]. left.
    unfold set_value. apply started_widget_update; [not_kept | done].
  - destruct (_ && _); [| by left]. left. apply started_widget_update; [not_kept | done].
  - destruct (_ && _); [| by left]. left.
    unfold set_value. apply started_widget_update; [not_kept | done].
  - destruct (editable _ _); [| by left]. left.
    unfold set_value. apply started_widget_update; [not_kept | done].
  - destruct (clickable _ _); [| by left]. left.
    apply (settles_run_alone started).
    by apply started_cguards; [apply kept_select_sport | apply one_visible_select_sport |].
  - destruct (clickable _ _); [| by left]. left.
    apply (settles_run_alone started).
    by apply started_cguards; [apply kept_select_filter | apply one_visible_select_filter |].
  - destruct (clickable _ _); [| by left]. left.
    apply (settles_run_alone started).
    by apply started_cguards;
      [apply kept_select_extraction | apply one_visible_select_extraction |].
  - destruct (clickable _ _); [| by left]. left.
    unfold Data.select_download. by rewrite download_dataloader_state.
  - unfold clickable. rewrite Hc.
    cbn [cancel_button new_button new_widget visible enabled andb]. right.
    destruct (select_cancel_resets w) as (w' & -> & Hboot). cbn [after]. rewrite Hboot.
    exists PNone. split; [by left | apply data_boot_state].
Qed.

Lemma data_session_started_or_not evs :
  started (state (Data.session evs)) \/ not_started (state (Data.session evs)).
Proof.
  unfold Data.session.
  assert (Hboot : started (state Data.boot) \/ not_started (state Data.boot)).
  { right. exists PNone. split; [by left | apply data_boot_state]. }
  revert Hboot. generalize Data.boot.
  induction evs as [| ev evs IH]; intros w Hw; cbn [foldl]; [done |].
  apply IH. destruct Hw as [Hw | Hw]; [by apply started_step | by apply not_started_step].
Qed.

(** X14. All along a session of the wizard of [_gui.py] and [_data.py]
    (any sequence of user actions, each handler run to its end, failures
    included), [state] is in one of two shapes.  Either it holds the mode
    toggle alone, without a value or on ['Betting']: the mode ['Data'] has
    not been chosen since the page was drawn or last reset.  Or it holds the
    mode toggle on ['Data'] or ['Betting'], the sport control, exactly one
    visible control button and the cancel button as first drawn, so that a
    click on the cancel button is accepted and takes [state] back to that of
    the freshly drawn page. *)
Theorem wizard_started_or_not (evs : list Data.event) :
  not_started (state (Data.session evs))
  \/ (started (state (Data.session evs))
      /\ clickable "cancel_ui" (Data.session evs) = true
      /\ state (Data.step (Data.session evs) Data.ClickCancel) = state Data.boot).
Proof.
  destruct (data_session_started_or_not evs) as [Hst | Hno]; [right | by left].
  split; [done |]. destruct Hst as [[_ _ Hc] _].
  assert (Hclick : clickable "cancel_ui" (Data.session evs) = true).
  { unfold clickable. by rewrite Hc. }
  split; [done |]. cbn [Data.step]. rewrite Hclick.
  by destruct (select_cancel_resets (Data.session evs)) as (w' & -> & Hboot).
Qed.

(** ** The session of [app.py] *)

Lemma cursor_one_visible (i : nat) w : (i < 4)%nat -> cursor_at i w -> one_visible (state w).
Proof. intros Hi Hcur. by exists i. Qed.

Lemma one_visible_shown w w' : shown w' = shown w -> one_visible (state w) -> one_visible (state w').
Proof. unfold shown. intros Hs (i & Hi & Hvis). exists i. by rewrite Hs. Qed.

Lemma cursor_of_clickable (j : nat) k w :
  Data.buttons_ui !! j = Some k ->
  one_visible (state w) -> clickable k w = true -> cursor_at j w.
Proof.
  intros Hj (i & Hi & Hvis) Hclick. unfold cursor_at, shown. rewrite Hvis.
  unfold clickable in Hclick. unfold visibility in Hvis. cbn [map Data.buttons_ui] in Hvis.
  destruct j as [| [| [| [| j]]]]; cbn in Hj; [| | | | done]; injection Hj as <-.
  all: destruct (state w !! _) as [[x | | | | | |] |] eqn:Hk in Hclick; try discriminate Hclick.
  all: rewrite Hk in Hvis; apply andb_true_iff in Hclick as [Hv _]; rewrite Hv in Hvis.
  all: destruct i as [| [| [| [| i]]]]; [| | | | lia]; cbn in Hvis; try discriminate Hvis.
  all: reflexivity.
Qed.

Lemma one_visible_widget_update k f w :
  k ∉ Data.buttons_ui ->
  one_visible (state w) -> one_visible (state (after (update_widget k f w))).
Proof.
  intros Hk. cut (guards one_visible (update_widget k f)); [intros Hg; exact (Hg w) |].
  apply guards_update_widget. intros m x HI _. by apply one_visible_insert.
Qed.

Lemma selected_of_widget_cases k w :
  (exists x sel, state w !! k = Some (Widget x) /\ selected_of k w = Ok sel w)
  \/ (exists e, selected_of k w = Err e w).
Proof.
  unfold selected_of, bind, get_widget, bind, getitem.
  destruct (state w !! k) as [[x | | | | | |] |]; cbn; eauto.
  destruct (elem x); cbn; eauto.
Qed.

Lemma app_show_filter_empty w :
  exists w', App.show_filter [] w = Err StopIteration w' /\ shown w' = shown w.
Proof.
  destruct w as [st pg]. unfold App.show_filter. run.
  eexists. split; [reflexivity |].
  unfold shown, visibility. cbn [map Data.buttons_ui state]. by run_lookups.
Qed.

Lemma app_store_train_tables x y o dl w :
  state w !! "dataloader" = Some (DataLoader dl) ->
  (App.store_tables "X_train" "Y_train" "O_train" x y o ;; App.get_fixtures_data) w
  = Ok (ExtractFixturesData dl)
      (with_state (insert "O_train" o)
         (with_state (insert "Y_train" y) (with_state (insert "X_train" x) w))).
Proof.
  intros Hdl. destruct w as [st pg]. cbn [state] in *.
  unfold App.store_tables, App.get_fixtures_data. run. reflexivity.
Qed.

Lemma app_create_data_ui_reads w : after (App.create_data_ui w) = w.
Proof.
  unfold App.create_data_ui.
  apply reads_bind; [done |]. intros [|] w1; [| done].
  repeat (apply reads_bind; [apply reads_get_frame | intros ? ?]). done.
Qed.

Lemma app_controls_end_run sel t w :
  cursor_at 2 w ->
  state w !! "odds_type_ui" = Some (Widget sel) ->
  state w !! "drop_na_thres_ui" = Some (Widget t) ->
  exists w', app_controls_end w = Ok tt w' /\ cursor_at 3 w'.
Proof.
  intros Hcur Hsel Ht.
  assert (Hb : has_buttons w).
  { unfold has_buttons. rewrite Hcur. repeat constructor; eexists; reflexivity. }
  destruct (has_buttons_inv w Hb) as (a & b & c & d & Ha & Hb' & Hc & Hd).
  unfold cursor_at, shown, visibility in Hcur. cbn [map Data.buttons_ui] in Hcur.
  rewrite Ha, Hb', Hc, Hd in Hcur. injection Hcur as Hva Hvb Hvc Hvd.
  destruct w as [st pg]. cbn [state] in *.
  unfold app_controls_end. run.
  eexists; split; [reflexivity |].
  unfold cursor_at, shown, visibility; cbn [map Data.buttons_ui state].
  run_lookups. by rewrite Hva, Hvb.
Qed.

Lemma app_finish_run x y o sel t w :
  cursor_at 2 w ->
  state w !! "odds_type_ui" = Some (Widget sel) ->
  state w !! "drop_na_thres_ui" = Some (Widget t) ->
  match (App.store_tables "X_fix" "Y_fix" "O_fix" x y o ;; App.show_data) w with
  | Ok _ w' => cursor_at 3 w'
  | Err _ w' => shown w' = shown w
  end.
Proof.
  intros Hcur Hsel Ht.
  set (w1 := emit SpinnerHidden
               (with_state (insert "O_fix" o)
                  (with_state (insert "Y_fix" y) (with_state (insert "X_fix" x) w)))).
  assert (Hstart : (App.store_tables "X_fix" "Y_fix" "O_fix" x y o ;; App.show_data) w
                   = (App.create_data_ui ;; app_controls_end) w1) by reflexivity.
  assert (Hshown : shown w1 = shown w).
  { unfold w1, shown. cbn [state emit with_state].
    by rewrite !visibility_insert by not_a_button. }
  rewrite Hstart. unfold bind at 1.
  pose proof (app_create_data_ui_reads w1) as Hreads.
  destruct (App.create_data_ui w1) as [[] w2 | e w2]; cbn [after] in Hreads; subst w2; [| done].
  destruct (app_controls_end_run sel t w1) as (w3 & -> & Hcur3); [| | | done].
  - unfold cursor_at. by rewrite Hshown.
  - unfold w1. by inserted_lookup.
  - unfold w1. by inserted_lookup.
Qed.

Lemma app_click_sport env w :
  cursor_at 0 w -> one_visible (state (fst (run_alone env (App.select_sport w)))).
Proof.
  intros Hcur. pose proof (cursor_one_visible 0 w ltac:(lia) Hcur) as Hvis.
  destruct (value_of_cases "sport_ui" w) as [(x & Hx & Hrun) | (e & Hrun)].
  - destruct (decide (value x = PStr "Soccer")) as [Hv | Hv].
    + rewrite (app_select_sport_soccer x) by done. rewrite run_alone_await. unfold answer.
      destruct (get_all_params env SoccerDataLoader) as [e | ps]; cbn [reply]; [done |].
      unfold App.resume_sport. rewrite run_alone_finish. destruct ps as [| p ps].
      * destruct (app_show_filter_empty (emit SpinnerShown w)) as (w' & -> & Hsh).
        by apply (one_visible_shown (emit SpinnerShown w)).
      * destruct (app_show_filter_advances p ps x (emit SpinnerShown w)) as (w' & -> & Hc & _);
          [done | done |].
        by apply (cursor_one_visible 1); [lia |].
    + destruct (decide (value x = PNone)) as [Hn | Hn].
      * by destruct (select_sport_none x w Hx Hn) as [_ ->].
      * by destruct (select_sport_other x w Hx Hv Hn) as [_ ->].
  - unfold App.select_sport, sync. by rewrite Hrun.
Qed.

Lemma app_click_filter env w :
  cursor_at 1 w -> one_visible (state (fst (run_alone env (App.select_filter w)))).
Proof.
  intros Hcur. pose proof (cursor_one_visible 1 w ltac:(lia) Hcur) as Hvis.
  destruct (selected_of_widget_cases "filter_ui" w) as [(x & sel & Hx & Hrun) | (e & Hrun)].
  - destruct sel as [| r sel].
    + unfold App.select_filter, sync. by rewrite Hrun.
    + destruct (build_dataloader_cases (r :: sel) w) as [(dl & Hgrid & _ & HA) | (e & _ & HA)].
      * assert (Hawait : App.select_filter w
                         = await (GetOddsTypes dl) App.resume_filter
                             (emit SpinnerShown
                                (with_state (insert "dataloader" (DataLoader dl)) w))).
        { unfold App.select_filter, sync. rewrite Hrun. by rewrite HA. }
        rewrite Hawait, run_alone_await. unfold answer.
        set (w1 := emit SpinnerShown (with_state (insert "dataloader" (DataLoader dl)) w)).
        assert (Hshown : shown w1 = shown w).
        { unfold w1, shown. cbn [state emit with_state].
          by rewrite visibility_insert by not_a_button. }
        destruct (get_odds_types env dl) as [e | l]; cbn [reply];
          [by apply (one_visible_shown w) |].
        unfold App.resume_filter. rewrite run_alone_finish. destruct l as [| ot l].
        -- destruct (app_show_extraction_empty w1) as (w' & -> & Hsh).
           apply (one_visible_shown w); [cbn [fst]; by rewrite Hsh | done].
        -- destruct (app_show_extraction_advances ot l x w1) as (w' & -> & Hc).
           ++ unfold w1. by inserted_lookup.
           ++ unfold cursor_at. by rewrite Hshown.
           ++ by apply (cursor_one_visible 2); [lia |].
      * unfold App.select_filter, sync. rewrite Hrun. by rewrite HA.
  - unfold App.select_filter, sync. by rewrite Hrun.
Qed.

Lemma app_click_extraction env w :
  cursor_at 2 w -> one_visible (state (fst (run_alone env (App.select_extraction w)))).
Proof.
  intros Hcur. pose proof (cursor_one_visible 2 w ltac:(lia) Hcur) as Hvis.
  destruct (train_call_cases (emit SpinnerShown w))
    as [(dl & sel & t & Hdl & Hsel & Ht & _ & _) | (e & _ & HA)].
  - destruct (select_extraction_issues dl sel t w Hdl Hsel Ht) as [_ ->].
    rewrite run_alone_await. unfold answer.
    destruct (extract_train_data env dl (value sel) (value t)) as [e | [[x y] o]];
      cbn [reply tables fst snd]; [done |].
    unfold App.resume_train, tables. cbn [fst snd]. rewrite run_alone_sync.
    rewrite (app_store_train_tables x y o dl) by done.
    set (w2 := with_state (insert "O_train" o)
                 (with_state (insert "Y_train" y)
                    (with_state (insert "X_train" x) (emit SpinnerShown w)))).
    assert (Hshown : shown w2 = shown w).
    { unfold w2, shown. cbn [state emit with_state].
      by rewrite !visibility_insert by not_a_button. }
    rewrite run_alone_await. unfold answer.
    destruct (extract_fixtures_data env dl) as [e | [[xf yf] of']];
      cbn [reply tables fst snd]; [by apply (one_visible_shown w) |].
    unfold App.resume_fixtures, tables. cbn [fst snd]. rewrite run_alone_finish.
    pose proof (app_finish_run xf yf of' sel t w2) as Hfin.
    destruct ((App.store_tables "X_fix" "Y_fix" "O_fix" xf yf of' ;; App.show_data) w2)
      as [[] w3 | e w3]; cbn [fst].
    + apply (cursor_one_visible 3); [lia |]. apply Hfin.
      * unfold cursor_at. by rewrite Hshown.
      * unfold w2. by inserted_lookup.
      * unfold w2. by inserted_lookup.
    + apply (one_visible_shown w); [| done]. rewrite <- Hshown. apply Hfin.
      * unfold cursor_at. by rewrite Hshown.
      * unfold w2. by inserted_lookup.
      * unfold w2. by inserted_lookup.
  - assert (HA' : App.select_extraction w = Throw e (emit SpinnerShown w)).
    { unfold App.select_extraction, sync. unfold bind at 1, spinner_show. by rewrite HA. }
    by rewrite HA'.
Qed.

Lemma app_step_one_visible w ev :
  app_inv (state w) -> one_visible (state w) -> one_visible (state (App.step w ev)).
Proof.
  intros Hinv Hvis.
  destruct ev as [v | rows | k | v | env | env | env | save |]; cbn [App.step].
  - destruct (_ && _); [| done]. unfold set_value.
    apply one_visible_widget_update; [not_a_button | done].
  - destruct (_ && _); [| done]. apply one_visible_widget_update; [not_a_button | done].
  - destruct (_ && _); [| done]. unfold set_value.
    apply one_visible_widget_update; [not_a_button | done].
  - destruct (editable _ _); [| done]. unfold set_value.
    apply one_visible_widget_update; [not_a_button | done].
  - destruct (clickable "arrow_sport_ui" w) eqn:Hclick; [| done].
    by apply app_click_sport, (cursor_of_clickable 0 "arrow_sport_ui").
  - destruct (clickable "arrow_filter_ui" w) eqn:Hclick; [| done].
    by apply app_click_filter, (cursor_of_clickable 1 "arrow_filter_ui").
  - destruct (clickable "arrow_extraction_ui" w) eqn:Hclick; [| done].
    by apply app_click_extraction, (cursor_of_clickable 2 "arrow_extraction_ui").
  - destruct (clickable _ _); [| done].
    unfold App.download_data. by rewrite download_dataloader_state.
  - destruct (refresh_ui_resets w Hinv) as (w' & -> & Hboot). cbn [after]. rewrite Hboot.
    exists 0%nat. split; [lia | vm_compute; reflexivity].
Qed.

(** X15. All along a session of [app.py] (any sequence of user actions,
    each handler run to its end, failures included) exactly one of the four
    control buttons is visible.  The handlers of [app.py] hide one button
    and show the next one by one, without [set_buttons_visibility]; no
    failure falls between the two steps, nor leaves all buttons hidden. *)
Theorem app_session_one_visible (evs : list App.event) :
  one_visible (state (App.session evs)).
Proof.
  unfold App.session.
  assert (Hboot : app_inv (state App.boot) /\ one_visible (state App.boot)).
  { split; [apply app_inv_boot |]. exists 0%nat. split; [lia | vm_compute; reflexivity]. }
  cut (app_inv (state (foldl App.step App.boot evs))
       /\ one_visible (state (foldl App.step App.boot evs))); [by intros [_ ?] |].
  revert Hboot. generalize App.boot.
  induction evs as [| ev evs IH]; intros w [Hinv Hvis]; cbn [foldl]; [done |].
  apply IH. split; [by apply app_inv_step | by apply app_step_one_visible].
Qed.

(** ** The dataloader is there when a stage needs it *)

Lemma has_loader_insert k o m : k <> "dataloader" -> has_loader m -> has_loader (<[k:=o]> m).
Proof. intros Hk (dl & Hdl & Hgrid). exists dl. by rewrite lookup_insert_ne. Qed.

Lemma has_loader_build cls r sel m :
  has_loader (<["dataloader" := DataLoader {| loader_cls := cls;
                                              param_grid := make_param_grid (r :: sel) |}]> m).
Proof. eexists. rewrite lookup_insert_eq. split; [reflexivity | done]. Qed.

Lemma hidden_insert k k' o m : k' <> k -> hidden k m -> hidden k (<[k':=o]> m).
Proof. intros Hk (x & Hx & Hv). exists x. by rewrite lookup_insert_ne. Qed.

Lemma loader_kept_insert k o m :
  k ∉ ["dataloader"; "arrow_extraction_ui"; "download_ui"] ->
  loader_when_needed m -> loader_when_needed (<[k:=o]> m).
Proof.
  intros Hk.
  assert (Hne : forall c, c ∈ ["dataloader"; "arrow_extraction_ui"; "download_ui"] -> k <> c)
    by (intros ? ? ->; done).
  intros [Hl | [He Hd]]; [left | right].
  - apply has_loader_insert; [apply Hne; repeat constructor | done].
  - split; (apply hidden_insert; [apply Hne; repeat constructor | done]).
Qed.

Lemma clickable_has_loader k w :
  k = "arrow_extraction_ui" \/ k = "download_ui" ->
  loader_when_needed (state w) -> clickable k w = true -> has_loader (state w).
Proof.
  intros Hk [Hl | [(x & Hx & Hv) (y & Hy & Hw)]] Hclick; [done |].
  unfold clickable in Hclick. destruct Hk as [-> | ->].
  - rewrite Hx, Hv in Hclick. discriminate Hclick.
  - rewrite Hy, Hw in Hclick. discriminate Hclick.
Qed.

Ltac loader_write :=
  lazymatch goal with
  | |- forall m, has_loader m -> has_loader (<["dataloader":=_]> m) =>
      intros ? ?; apply has_loader_build
  | |- forall m, has_loader m -> has_loader (<[_:=_]> m) =>
      intros ? ?; apply has_loader_insert; [discriminate | assumption]
  | |- forall m x, has_loader m -> _ -> has_loader (<[_:=_]> m) =>
      intros ? ? ? ?; apply has_loader_insert; [discriminate | assumption]
  end.

Ltac loader_step :=
  lazymatch goal with
  | |- guards has_loader _ => guards_step
  | |- cguards has_loader _ => cguards_step
  | |- _ => loader_write
  end.

Lemma has_loader_data_filter : cguards has_loader Data.select_filter.
Proof.
  unfold Data.select_filter. repeat loader_step.
  all: unfold Data.resume_filter; repeat loader_step.
Qed.

Lemma has_loader_data_extraction : cguards has_loader Data.select_extraction.
Proof.
  unfold Data.select_extraction. repeat loader_step.
  all: unfold Data.resume_train; repeat loader_step.
  all: unfold Data.resume_fixtures; repeat loader_step.
Qed.

Lemma has_loader_app_filter : cguards has_loader App.select_filter.
Proof.
  unfold App.select_filter. repeat loader_step.
  all: unfold App.resume_filter; repeat loader_step.
Qed.

Lemma has_loader_app_extraction : cguards has_loader App.select_extraction.
Proof.
  unfold App.select_extraction. repeat loader_step.
  all: unfold App.resume_train; repeat loader_step.
  all: unfold App.resume_fixtures; repeat loader_step.
Qed.

Ltac not_needed :=
  let Hin := fresh "Hin" in
  intros Hin;
  repeat (apply elem_of_cons in Hin as [Hin | Hin]; [discriminate |]);
  by apply elem_of_nil in Hin.

Ltac needed_write :=
  lazymatch goal with
  | |- forall m, loader_when_needed m -> loader_when_needed (<[_:=_]> m) =>
      intros ? ?; apply loader_kept_insert; [not_needed | assumption]
  | |- forall m x, loader_when_needed m -> _ -> loader_when_needed (<[_:=_]> m) =>
      intros ? ? ? ?; apply loader_kept_insert; [not_needed | assumption]
  end.

Ltac needed_step :=
  lazymatch goal with
  | |- guards loader_when_needed _ => guards_step
  | |- cguards loader_when_needed _ => cguards_step
  | |- _ => needed_write
  end.

Lemma needed_app_sport : cguards loader_when_needed App.select_sport.
Proof.
  unfold App.select_sport. repeat needed_step.
  all: unfold App.resume_sport; repeat needed_step.
Qed.

Lemma needed_widget_update k f w :
  k ∉ ["dataloader"; "arrow_extraction_ui"; "download_ui"] ->
  loader_when_needed (state w) -> loader_when_needed (state (after (update_widget k f w))).
Proof.
  intros Hk. cut (guards loader_when_needed (update_widget k f)); [intros Hg; exact (Hg w) |].
  apply guards_update_widget. intros m x HI _. by apply loader_kept_insert.
Qed.

Lemma data_click_filter_loader env w :
  loader_when_needed (state w) ->
  loader_when_needed (state (fst (run_alone env (Data.select_filter w)))).
Proof.
  intros Hneed.
  destruct (selected_of_cases "filter_ui" w) as [(sel & Hrun) | (e & Hrun)].
  - destruct sel as [| r sel].
    + unfold Data.select_filter, sync. by rewrite Hrun.
    + destruct (build_dataloader_cases (r :: sel) w) as [(dl & Hgrid & HD & _) | (e & HD & _)].
      * left. apply (settles_run_alone has_loader).
        unfold Data.select_filter, sync. rewrite Hrun, HD.
        apply (cguards_await has_loader).
        -- intros v. unfold Data.resume_filter. destruct v; repeat loader_step.
        -- exists dl. cbn [state emit with_state]. rewrite lookup_insert_eq.
           split; [done |]. by rewrite Hgrid.
      * unfold Data.select_filter, sync. rewrite Hrun. by rewrite HD.
  - unfold Data.select_filter, sync. by rewrite Hrun.
Qed.

Lemma app_click_filter_loader env w :
  loader_when_needed (state w) ->
  loader_when_needed (state (fst (run_alone env (App.select_filter w)))).
Proof.
  intros Hneed.
  destruct (selected_of_cases "filter_ui" w) as [(sel & Hrun) | (e & Hrun)].
  - destruct sel as [| r sel].
    + unfold App.select_filter, sync. by rewrite Hrun.
    + destruct (build_dataloader_cases (r :: sel) w) as [(dl & Hgrid & _ & HA) | (e & _ & HA)].
      * left. apply (settles_run_alone has_loader).
        unfold App.select_filter, sync. rewrite Hrun, HA.
        apply (cguards_await has_loader).
        -- intros v. unfold App.resume_filter. destruct v; repeat loader_step.
        -- exists dl. cbn [state emit with_state]. rewrite lookup_insert_eq.
           split; [done |]. by rewrite Hgrid.
      * unfold App.select_filter, sync. rewrite Hrun. by rewrite HA.
  - unfold App.select_filter, sync. by rewrite Hrun.
Qed.

Lemma cursor_before_extraction (i : nat) w :
  (i < 2)%nat -> cursor_at i w -> before_extraction (state w).
Proof.
  intros Hi Hcur. unfold cursor_at, shown, visibility in Hcur.
  cbn [map Data.buttons_ui] in Hcur. injection Hcur as _ _ He Hd.
  destruct (state w !! "arrow_extraction_ui") as [[x | | | | | |] |] eqn:Hx; try discriminate He.
  destruct (state w !! "download_ui") as [[y | | | | | |] |] eqn:Hy; try discriminate Hd.
  injection He as He. injection Hd as Hd.
  rewrite bool_decide_eq_false_2 in He by lia. rewrite bool_decide_eq_false_2 in Hd by lia.
  unfold before_extraction, hidden. rewrite Hx, Hy. split; by eexists.
Qed.

Lemma staged_insert k o m :
  k ∉ Data.buttons_ui -> k <> "dataloader" -> staged m -> staged (<[k:=o]> m).
Proof.
  intros Hk Hd [HV HL]. split; [by apply one_visible_insert |].
  apply loader_kept_insert; [| done].
  intros Hin. repeat (apply elem_of_cons in Hin as [-> | Hin]); try done.
  - apply Hk. unfold Data.buttons_ui. repeat constructor.
  - apply Hk. unfold Data.buttons_ui. repeat constructor.
  - by apply elem_of_nil in Hin.
Qed.

Lemma staged_control_then_set (rest : M unit) :
  guards staged rest ->
  guards staged (Data.create_control_ui ;; Data.set_buttons_visibility 1 ;; rest).
Proof.
  intros Hrest w [HV HL]. unfold bind at 1.
  pose proof (create_control_ui_buttons w (one_visible_has_buttons w HV)) as Hc.
  destruct (Data.create_control_ui w) as [[] w1 | e w1]; [| by subst].
  unfold bind.
  destruct (set_buttons_visibility_cursor 1 w1 ltac:(lia) Hc) as (w2 & Hrun2 & Hcur).
  change (Z.of_nat 1) with 1%Z in Hrun2. rewrite Hrun2.
  apply Hrest. split.
  - by apply (cursor_one_visible 1); [lia |].
  - right. by apply (cursor_before_extraction 1); [lia |].
Qed.

Ltac staged_step :=
  lazymatch goal with
  | |- guards _ (bind Data.create_control_ui (fun _ => bind (Data.set_buttons_visibility 1) _)) =>
      apply staged_control_then_set
  | |- guards _ (Data.show_filter _) => unfold Data.show_filter
  | |- guards staged _ => guards_step
  | |- cguards staged _ => cguards_step
  | |- forall m, staged m -> staged (<[_:=_]> m) =>
      intros ? ?; apply staged_insert; [not_a_button | discriminate | assumption]
  | |- forall m x, staged m -> _ -> staged (<[_:=_]> m) =>
      intros ? ? ? ?; apply staged_insert; [not_a_button | discriminate | assumption]
  end.

Lemma staged_data_sport : cguards staged Data.select_sport.
Proof.
  unfold Data.select_sport. repeat staged_step.
  all: unfold Data.resume_sport; repeat staged_step.
Qed.

Lemma data_step_loader w ev :
  started (state w) -> loader_when_needed (state w) ->
  loader_when_needed (state (Data.step w ev)) \/ not_started (state (Data.step w ev)).
Proof.
  intros Hst Hneed. pose proof Hst as [[(v0 & Hv0 & Hm) Hs Hc] Hvis].
  destruct ev as [v | v | rows | k | v | env | env | env | save |]; cbn [Data.step].
  - destruct (_ && _); [| by left]. left.
    unfold bind, set_value. rewrite (update_widget_Some _ _ _ _ Hm).
    rewrite (select_mode_idle (with_value v (with_value v0 mode_toggle)));
      [| cbn; by rewrite lookup_insert_eq
       | cbn; rewrite lookup_insert_ne by discriminate; destruct Hs as [s ->]; by eexists].
    cbn [after state with_state]. apply loader_kept_insert; [not_needed | done].
  - destruct (_ && _); [| by left]. left.
    unfold set_value. apply needed_widget_update; [not_needed | done].
  - destruct (_ && _); [| by left]. left. apply needed_widget_update; [not_needed | done].
  - destruct (_ && _); [| by left]. left.
    unfold set_value. apply needed_widget_update; [not_needed | done].
  - destruct (editable _ _); [| by left]. left.
    unfold set_value. apply needed_widget_update; [not_needed | done].
  - destruct (clickable _ _); [| by left]. left.
    cut (staged (state (fst (run_alone env (Data.select_sport w))))); [by intros [_ ?] |].
    apply (settles_run_alone staged). by apply staged_data_sport.
  - destruct (clickable _ _); [| by left]. left. by apply data_click_filter_loader.
  - destruct (clickable "arrow_extraction_ui" w) eqn:Hclick; [| by left]. left. left.
    apply (settles_run_alone has_loader). apply has_loader_data_extraction.
    by apply (clickable_has_loader "arrow_extraction_ui"); [left | |].
  - destruct (clickable _ _); [| by left]. left.
    unfold Data.select_download. by rewrite download_dataloader_state.
  - destruct (started_step w Data.ClickCancel Hst) as [Hst' | Hno]; [| by right].
    exfalso. cbn [Data.step] in Hst'. unfold clickable in Hst'. rewrite Hc in Hst'.
    cbn [cancel_button new_button new_widget visible enabled andb] in Hst'.
    destruct (select_cancel_resets w) as (w' & Hrun & Hboot). rewrite Hrun in Hst'.
    cbn [after] in Hst'. rewrite Hboot in Hst'. destruct Hst' as [[_ [s Hs'] _] _].
    rewrite data_boot_state in Hs'. rewrite lookup_insert_ne in Hs' by discriminate.
    by rewrite lookup_empty in Hs'.
Qed.

Lemma not_started_step_loader w ev :
  not_started (state w) ->
  loader_when_needed (state (Data.step w ev)) \/ not_started (state (Data.step w ev)).
Proof.
  intros Hno. destruct (not_started_step w ev Hno) as [[_ Hvis] | Hno']; [| by right].
  left. right.
  destruct Hno as (v0 & Hv0 & Hst). destruct w as [st pg]. cbn [state] in Hst. subst st.
  destruct ev as [v | v | rows | k | v | env | env | env | save |];
    unfold Data.step, editable, clickable in Hvis |- *; cbn [state] in Hvis |- *.
  2-10: rewrite lookup_insert_ne in Hvis by discriminate; rewrite lookup_empty in Hvis;
    destruct Hvis as (i & _ & Hvis); destruct Hv0 as [-> | ->]; vm_compute in Hvis;
    discriminate Hvis.
  revert Hvis. unfold options_of, value_at. cbn [state]. rewrite lookup_insert_eq.
  cbn [with_value mode_toggle new_widget elem value visible enabled props].
  destruct (decide (v ∈ [PStr "Data"; PStr "Betting"])) as [Hopt | Hout].
  - apply elem_of_cons in Hopt as [-> | Hopt]; [| apply list_elem_of_singleton in Hopt as ->].
    + intros _. destruct Hv0 as [-> | ->]; split; eexists; split; vm_compute; reflexivity.
    + intros (i & _ & Hvis). destruct Hv0 as [-> | ->]; vm_compute in Hvis; discriminate Hvis.
  - rewrite (bool_decide_eq_false_2 _ Hout). rewrite andb_false_r. cbn [state andb].
    intros (i & _ & Hvis). destruct Hv0 as [-> | ->]; vm_compute in Hvis; discriminate Hvis.
Qed.

Lemma data_session_loader evs :
  not_started (state (Data.session evs))
  \/ (started (state (Data.session evs)) /\ loader_when_needed (state (Data.session evs))).
Proof.
  unfold Data.session.
  assert (Hboot : not_started (state Data.boot)
                  \/ (started (state Data.boot) /\ loader_when_needed (state Data.boot))).
  { left. exists PNone. split; [by left | apply data_boot_state]. }
  revert Hboot. generalize Data.boot.
  induction evs as [| ev evs IH]; intros w Hw; cbn [foldl]; [done |].
  apply IH. destruct Hw as [Hno | [Hst Hneed]].
  - destruct (not_started_step w ev Hno) as [Hst' | Hno']; [| by left].
    destruct (not_started_step_loader w ev Hno) as [Hneed' | Hno']; [by right | by left].
  - destruct (started_step w ev Hst) as [Hst' | Hno']; [| by left].
    destruct (data_step_loader w ev Hst Hneed) as [Hneed' | Hno']; [by right | by left].
Qed.

Lemma app_step_loader w ev :
  app_inv (state w) -> loader_when_needed (state w) ->
  loader_when_needed (state (App.step w ev)).
Proof.
  intros Hinv Hneed.
  destruct ev as [v | rows | k | v | env | env | env | save |]; cbn [App.step].
  - destruct (_ && _); [| done]. unfold set_value.
    apply needed_widget_update; [not_needed | done].
  - destruct (_ && _); [| done]. apply needed_widget_update; [not_needed | done].
  - destruct (_ && _); [| done]. unfold set_value.
    apply needed_widget_update; [not_needed | done].
  - destruct (editable _ _); [| done]. unfold set_value.
    apply needed_widget_update; [not_needed | done].
  - destruct (clickable _ _); [| done].
    apply (settles_run_alone loader_when_needed). by apply needed_app_sport.
  - destruct (clickable _ _); [| done]. by apply app_click_filter_loader.
  - destruct (clickable "arrow_extraction_ui" w) eqn:Hclick; [| done]. left.
    apply (settles_run_alone has_loader). apply has_loader_app_extraction.
    by apply (clickable_has_loader "arrow_extraction_ui"); [left | |].
  - destruct (clickable _ _); [| done].
    unfold App.download_data. by rewrite download_dataloader_state.
  - destruct (refresh_ui_resets w Hinv) as (w' & -> & Hboot). cbn [after]. rewrite Hboot.
    right. split; eexists; split; vm_compute; reflexivity.
Qed.

Lemma app_session_loader evs : loader_when_needed (state (App.session evs)).
Proof.
  unfold App.session.
  assert (Hboot : app_inv (state App.boot) /\ loader_when_needed (state App.boot)).
  { split; [apply app_inv_boot |]. right. split; eexists; split; vm_compute; reflexivity. }
  cut (app_inv (state (foldl App.step App.boot evs))
       /\ loader_when_needed (state (foldl App.step App.boot evs))); [by intros [_ ?] |].
  revert Hboot. generalize App.boot.
  induction evs as [| ev evs IH]; intros w [Hinv Hneed]; cbn [foldl]; [done |].
  apply IH. split; [by apply app_inv_step | by apply app_step_loader].
Qed.

(** X16. All along a session of either wizard, whenever the extraction
    arrow or the download button can be clicked, [state] holds a dataloader,
    built from a parameter grid of at least one entry: [select_extraction]
    and the export find the dataloader they read.  Only the reset removes
    it, and the reset takes both buttons away: [select_cancel] removes them
    from [state] and [refresh_ui] hides them. *)
Theorem dataloader_when_needed (k : string) :
  k = "arrow_extraction_ui" \/ k = "download_ui" ->
  (forall evs : list Data.event,
     clickable k (Data.session evs) = true -> has_loader (state (Data.session evs)))
  /\ (forall evs : list App.event,
        clickable k (App.session evs) = true -> has_loader (state (App.session evs))).
Proof.
  intros Hk. split; intros evs Hclick.
  - destruct (data_session_loader evs) as [(v & _ & Hst) | [_ Hneed]].
    + exfalso. unfold clickable in Hclick. rewrite Hst in Hclick.
      destruct Hk as [-> | ->]; rewrite lookup_insert_ne in Hclick by discriminate;
        by rewrite lookup_empty in Hclick.
    + by apply (clickable_has_loader k).
  - apply (clickable_has_loader k); [done | apply app_session_loader | done].
Qed.

Lemma dataloader_when_needed_witness :
  has_loader (state at_export).
Proof.
  apply (proj1 (dataloader_when_needed "download_ui" (or_intror eq_refl))
           [Data.ToggleMode (PStr "Data"); Data.PickSport (PStr "Soccer");
            Data.ClickSport env_a; Data.SelectRows [row_e1]; Data.ClickFilter env_a;
            Data.ClickExtraction env_a]).
  vm_compute. reflexivity.
Defined.

(** ** The odds type [app.py] asks for *)

Lemma guards_ret_bind I {A B} (a : A) (k : A -> M B) : guards I (k a) -> guards I (bind (ret a) k).
Proof. intros Hk w HI. exact (Hk w HI). Qed.

Lemma guards_raise_bind I {A B} e (k : A -> M B) : guards I (bind (raise e) k).
Proof. by intros w HI. Qed.

Lemma odds_picked_insert k o m :
  k <> "odds_type_ui" -> odds_picked m -> odds_picked (<[k:=o]> m).
Proof. intros Hk Hm sel. rewrite lookup_insert_ne by done. apply Hm. Qed.

Lemma odds_picked_delete k m : odds_picked m -> odds_picked (delete k m).
Proof.
  intros Hm sel Hsel. apply Hm. destruct (decide (k = "odds_type_ui")) as [-> | Hk].
  - by rewrite lookup_delete_eq in Hsel.
  - by rewrite lookup_delete_ne in Hsel.
Qed.

Lemma odds_picked_fresh ot l m :
  odds_picked (<["odds_type_ui" :=
                   Widget (new_widget (Select (odds_mapping (ot :: l))) no_callback (PStr ot))]> m).
Proof.
  intros sel. rewrite lookup_insert_eq. intros [= <-].
  exists (ot :: l), ot. split; [done |]. split; [done | apply list_elem_of_here].
Qed.

Lemma odds_picked_update f x m :
  elem (f x) = elem x -> value (f x) = value x ->
  odds_picked m -> m !! "odds_type_ui" = Some (Widget x) ->
  odds_picked (<["odds_type_ui" := Widget (f x)]> m).
Proof.
  intros He Hv Hm Hx sel. rewrite lookup_insert_eq. intros [= <-].
  rewrite He, Hv. by apply Hm.
Qed.

Lemma odds_mapping_key k l : k ∈ dict_keys (odds_mapping l) -> exists ot, k = PStr ot /\ ot ∈ l.
Proof.
  intros Hin. destruct (dict_keys_update _ _ _ Hin) as [Hnil | Hmap].
  - by apply elem_of_nil in Hnil.
  - unfold dict_keys in Hmap. rewrite map_map in Hmap. cbn [fst] in Hmap.
    apply list_elem_of_map in Hmap as (ot & -> & Hot). by exists ot.
Qed.

Ltac odds_write :=
  lazymatch goal with
  | |- forall m, odds_picked m -> odds_picked (<["odds_type_ui":=_]> m) =>
      intros ? ?; apply odds_picked_fresh
  | |- forall m, odds_picked m -> odds_picked (<[_:=_]> m) =>
      intros ? ?; apply odds_picked_insert; [discriminate | assumption]
  | |- forall m, odds_picked m -> odds_picked (delete _ m) =>
      intros ? ?; by apply odds_picked_delete
  | |- forall m x, odds_picked m -> _ -> odds_picked (<["odds_type_ui":=_]> m) =>
      intros ? ? ? ?; apply odds_picked_update; [reflexivity | reflexivity | assumption | assumption]
  | |- forall m x, odds_picked m -> _ -> odds_picked (<[_:=_]> m) =>
      intros ? ? ? ?; apply odds_picked_insert; [discriminate | assumption]
  end.

Ltac odds_step :=
  lazymatch goal with
  | |- guards _ (bind (first_odds_type ?l) _) => destruct l as [| ? ?]; unfold first_odds_type
  | |- guards _ (bind (match ?l with [] => _ | _ :: _ => _ end) _) => destruct l as [| ? ?]
  | |- guards _ (bind (raise _) _) => apply guards_raise_bind
  | |- guards _ (bind (ret _) _) => apply guards_ret_bind
  | |- guards odds_picked _ => guards_step
  | |- cguards odds_picked _ => cguards_step
  | |- _ => odds_write
  end.

Lemma odds_picked_select_sport : cguards odds_picked App.select_sport.
Proof.
  unfold App.select_sport. repeat odds_step.
  all: unfold App.resume_sport; repeat odds_step.
Qed.

Lemma odds_picked_select_filter : cguards odds_picked App.select_filter.
Proof.
  unfold App.select_filter. repeat odds_step.
  all: unfold App.resume_filter; repeat odds_step.
Qed.

Lemma odds_picked_select_extraction : cguards odds_picked App.select_extraction.
Proof.
  unfold App.select_extraction. repeat odds_step.
  all: unfold App.resume_train; repeat odds_step.
  all: unfold App.resume_fixtures; repeat odds_step.
Qed.

Lemma odds_picked_refresh_ui : guards odds_picked App.refresh_ui.
Proof.
  unfold App.refresh_ui.
  apply guards_bind; [apply guards_keys_copy |]. intros keys.
  apply guards_bind.
  - apply guards_for_each. intros key _. destruct (App.dropped key); repeat odds_step.
  - intros _. repeat odds_step.
Qed.

Lemma odds_picked_step w ev : odds_picked (state w) -> odds_picked (state (App.step w ev)).
Proof.
  intros Hodds.
  destruct ev as [v | rows | k | v | env | env | env | save |]; cbn [App.step].
  - destruct (_ && _); [| done].
    cut (guards odds_picked (set_value "sport_ui" v)); [intros Hg; exact (Hg w Hodds) |].
    repeat odds_step.
  - destruct (_ && _); [| done].
    cut (guards odds_picked (update_widget "filter_ui" (with_selected rows)));
      [intros Hg; exact (Hg w Hodds) |].
    repeat odds_step.
  - destruct (editable "odds_type_ui" w); [| done]. cbn [andb].
    destruct (decide (k ∈ options_of "odds_type_ui" w)) as [Hk | Hk];
      [rewrite (bool_decide_eq_true_2 _ Hk) | by rewrite (bool_decide_eq_false_2 _ Hk)].
    unfold options_of in Hk.
    destruct (state w !! "odds_type_ui") as [[sel | | | | | |] |] eqn:Hsel;
      try by apply elem_of_nil in Hk.
    unfold set_value. rewrite (update_widget_Some _ _ sel w Hsel).
    cbn [after with_state state]. intros sel'. rewrite lookup_insert_eq. intros [= <-].
    destruct (Hodds sel Hsel) as (l & ot & He & _ & _). rewrite He in Hk.
    destruct (odds_mapping_key k l Hk) as (ot' & -> & Hot'). by exists l, ot'.
  - destruct (editable _ _); [| done].
    cut (guards odds_picked (set_value "drop_na_thres_ui" v)); [intros Hg; exact (Hg w Hodds) |].
    repeat odds_step.
  - destruct (clickable _ _); [| done].
    by apply (settles_run_alone odds_picked), odds_picked_select_sport.
  - destruct (clickable _ _); [| done].
    by apply (settles_run_alone odds_picked), odds_picked_select_filter.
  - destruct (clickable _ _); [| done].
    by apply (settles_run_alone odds_picked), odds_picked_select_extraction.
  - destruct (clickable _ _); [| done].
    unfold App.download_data. by rewrite download_dataloader_state.
  - by apply odds_picked_refresh_ui.
Qed.

Lemma odds_picked_session evs : odds_picked (state (App.session evs)).
Proof.
  unfold App.session.
  assert (Hboot : odds_picked (state App.boot)).
  { intros sel Hsel. rewrite app_boot_other in Hsel by not_a_control. discriminate Hsel. }
  revert Hboot. generalize App.boot.
  induction evs as [| ev evs IH]; intros w Hw; cbn [foldl]; [done |].
  by apply IH, odds_picked_step.
Qed.

(** X18. The odds-type selector of [app.py] has no entry for [None]: all
    along a session its value is one of the fetched odds types.  So every
    training-data fetch that [select_extraction] issues in a session of
    [app.py] asks for a named odds type, one of the options of the selector,
    and never for [None]. *)
Theorem app_fetches_with_odds_type (evs : list App.event) (c : call) :
  snd (first_phase (App.select_extraction (App.session evs))) = Some c ->
  exists dl ot t, c = ExtractTrainData dl (PStr ot) t
                  /\ PStr ot ∈ options_of "odds_type_ui" (App.session evs)
                  /\ PNone ∉ options_of "odds_type_ui" (App.session evs).
Proof.
  intros Hc.
  destruct (select_extraction_first_phase App.select_extraction (App.session evs)
              (or_intror eq_refl)) as (_ & _ & Hcall).
  destruct (Hcall c Hc) as (dl & sel & t & _ & Hsel & _ & ->).
  destruct (odds_picked_session evs sel Hsel) as (l & ot & He & -> & Hot).
  exists dl, ot, (value t). split; [done |].
  unfold options_of. rewrite Hsel, He. split.
  - apply (dict_get_Some_key _ (label_of (PStr ot))). rewrite odds_mapping_get.
    rewrite decide_True; [done |]. apply list_elem_of_map. by exists ot.
  - intros Hin. by apply odds_mapping_key in Hin as (ot' & [=] & _).
Qed.

Lemma app_fetches_with_odds_type_witness :
  exists dl ot t,
    ExtractTrainData loader_e1 (PStr "market_average") (PFloat (QArith_base.Qmake 0 1))
    = ExtractTrainData dl (PStr ot) t.
Proof.
  destruct (app_fetches_with_odds_type
              [App.PickSport (PStr "Soccer"); App.ClickSport env_a;
               App.SelectRows [row_e1]; App.ClickFilter env_a]
              (ExtractTrainData loader_e1 (PStr "market_average")
                 (PFloat (QArith_base.Qmake 0 1))))
    as (dl & ot & t & Hc & _).
  - vm_compute. reflexivity.
  - by exists dl, ot, t.
Defined.
